(** * Createnko: trend analysis, URL detection and script generation

    A shallow embedding of the parts of the Createnko backend that its
    specification makes promises about, followed by the proofs of these
    promises and of further properties of the same code:

    - [src/services/trend_analysis_service.py] (class [TrendAnalysisService]),
    - [src/services/webpage_analyzer_service.py] ([is_valid_url],
      [extract_url_from_text]),
    - [src/services/video_generator_service.py] (class [VideoGeneratorService]),
    - [src/services/gemini_service.py] ([get_gemini_api_key]),
    - [api_server.py] ([generate_video_prompt_from_insights] and the endpoints
      [analyze_trends] and [generate_video_description_from_ads]).

    Conventions of the embedding.

    - A Python [str] is a Rocq [string]; the case mappings, the white space
      class and the word class [\w] are those Python has on ASCII text.
    - A Python [int] is a [Z]; [len] is [Z.of_nat] of a length.
    - A [dict] whose order of insertion is observable (a [Counter], the
      dictionaries returned to the caller) is an association list in insertion
      order.
    - An ad, an insight or a webpage brief is a record with one field per key
      the code reads; a key that may be absent is an [option].
    - Code under [try] / [except] is written in the exception monad [result].
    - Library functions whose behaviour is outside the repository
      ([datetime.fromisoformat], [datetime.now], the iteration order of a
      [set], the [pow] of the C library behind [x ** 2]) are parameters of
      the functions that call them. *)

From Stdlib Require Import String Ascii List Bool Arith NArith ZArith QArith Lia.
From Stdlib Require Import Sorting.Sorted Sorting.Permutation.
From Stdlib Require Import Floats.PrimFloat Numbers.Cyclic.Int63.Uint63.
Import ListNotations.

Open Scope string_scope.
Open Scope Z_scope.

(** ** Part I: the embedding *)

(** *** Python strings *)

Module Py.

(** The code point of a character. *)
Definition code (c : ascii) : N := N_of_ascii c.

Definition in_range (lo hi : N) (c : ascii) : bool :=
  ((lo <=? code c) && (code c <=? hi))%N.

Definition is_upper (c : ascii) : bool := in_range 65 90 c.
Definition is_lower (c : ascii) : bool := in_range 97 122 c.
Definition is_alpha (c : ascii) : bool := is_upper c || is_lower c.
Definition is_digit (c : ascii) : bool := in_range 48 57 c.

(** [\w] of the [re] module. *)
Definition is_word (c : ascii) : bool :=
  is_alpha c || is_digit c || (code c =? 95)%N.

(** [str.isspace] on one character: tab, line feed, vertical tab, form feed,
    carriage return, the four separators 28..31 and the space. *)
Definition is_space (c : ascii) : bool :=
  in_range 9 13 c || in_range 28 32 c.

Definition lower_char (c : ascii) : ascii :=
  if is_upper c then ascii_of_N (code c + 32) else c.

Definition upper_char (c : ascii) : ascii :=
  if is_lower c then ascii_of_N (code c - 32) else c.

Fixpoint map_str (f : ascii -> ascii) (s : string) : string :=
  match s with
  | EmptyString => EmptyString
  | String c t => String (f c) (map_str f t)
  end.

(** [s.lower()] and [s.upper()] on ASCII text: the 26 letters are mapped and
    every other character, a byte outside ASCII included, is left as it is.
    On a text outside ASCII Python maps by the Unicode tables instead (the
    Kelvin sign has the lower case [k]), which these definitions do not
    follow. *)
Definition lower (s : string) : string := map_str lower_char s.
Definition upper (s : string) : string := map_str upper_char s.

(** [s.isascii()]. *)
Fixpoint isascii (s : string) : bool :=
  match s with
  | EmptyString => true
  | String c t => (code c <? 128)%N && isascii t
  end.

(** [s.title()]: the first letter of every run of letters in upper case, the
    other letters in lower case. *)
Fixpoint title_from (in_word : bool) (s : string) : string :=
  match s with
  | EmptyString => EmptyString
  | String c t =>
      String (if is_alpha c then (if in_word then lower_char c else upper_char c) else c)
             (title_from (is_alpha c) t)
  end.

Definition title (s : string) : string := title_from false s.

(** [len(s)]. *)
Definition len (s : string) : Z := Z.of_nat (String.length s).

(** Truth value of a string: [if s:]. *)
Definition truthy (s : string) : bool :=
  match s with EmptyString => false | _ => true end.

(** [needle in hay]. *)
Fixpoint str_in (needle hay : string) : bool :=
  String.prefix needle hay
  || match hay with
     | EmptyString => false
     | String _ t => str_in needle t
     end.

(** [s[:n]]. *)
Fixpoint take (n : nat) (s : string) : string :=
  match n, s with
  | S n', String c t => String c (take n' t)
  | _, _ => EmptyString
  end.

(** [s[n:]]. *)
Fixpoint drop (n : nat) (s : string) : string :=
  match n, s with
  | S n', String _ t => drop n' t
  | _, _ => s
  end.

Fixpoint rev_onto (s acc : string) : string :=
  match s with
  | EmptyString => acc
  | String c t => rev_onto t (String c acc)
  end.

Definition rev (s : string) : string := rev_onto s EmptyString.

(** [s.endswith(suffix)]. *)
Definition endswith (s suffix : string) : bool :=
  String.prefix (rev suffix) (rev s).

Fixpoint drop_while (p : ascii -> bool) (s : string) : string :=
  match s with
  | EmptyString => EmptyString
  | String c t => if p c then drop_while p t else s
  end.

(** [s.strip(chars)] for the characters satisfying [p], and [s.strip()]. *)
Definition strip_with (p : ascii -> bool) (s : string) : string :=
  rev (drop_while p (rev (drop_while p s))).

Definition strip (s : string) : string := strip_with is_space s.

Fixpoint mem_char (c : ascii) (chars : string) : bool :=
  match chars with
  | EmptyString => false
  | String d t => Ascii.eqb c d || mem_char c t
  end.

Definition strip_chars (chars s : string) : string :=
  strip_with (fun c => mem_char c chars) s.

(** [s.split(sep)] for a non-empty separator: the pieces between the
    occurrences of [sep], found from left to right without overlap.  [skip]
    counts the characters of an occurrence still to be passed, [cur] is the
    piece being read, in reverse. *)
Fixpoint split_go (sep : string) (skip : nat) (cur : string) (s : string)
  : list string :=
  match s with
  | EmptyString => [rev cur]
  | String c t =>
      match skip with
      | S k => split_go sep k cur t
      | O =>
          if String.prefix sep s
          then rev cur :: split_go sep (String.length sep - 1) EmptyString t
          else split_go sep 0 (String c cur) t
      end
  end.

Definition split (sep s : string) : list string := split_go sep 0 EmptyString s.

(** [s.replace(old, new)] for a non-empty [old]. *)
Fixpoint replace_go (old new : string) (skip : nat) (s : string) : string :=
  match s with
  | EmptyString => EmptyString
  | String c t =>
      match skip with
      | S k => replace_go old new k t
      | O =>
          if String.prefix old s
          then new ++ replace_go old new (String.length old - 1) t
          else String c (replace_go old new 0 t)
      end
  end.

Definition replace (old new s : string) : string := replace_go old new 0 s.

(** [sep.join(parts)]. *)
Definition join (sep : string) (parts : list string) : string :=
  String.concat sep parts.

(** [c * n] for a one-character string. *)
Fixpoint repeat_char (c : ascii) (n : nat) : string :=
  match n with
  | O => EmptyString
  | S n' => String c (repeat_char c n')
  end.

(** The line feed and the double quote, as one-character strings. *)
Definition NL : string := String (ascii_of_nat 10) EmptyString.
Definition DQ : string := String (ascii_of_nat 34) EmptyString.

(** [x in xs] for a list of strings. *)
Definition mem (x : string) (xs : list string) : bool :=
  existsb (String.eqb x) xs.

(** [any(word in text for word in words)]. *)
Definition any_in (words : list string) (text : string) : bool :=
  existsb (fun w => str_in w text) words.

(** [len(xs)] for a list. *)
Definition llen {A} (xs : list A) : Z := Z.of_nat (List.length xs).

(** [str(n)] for an integer that is not negative, as an f-string writes it. *)
Fixpoint digits_of (fuel : nat) (n : Z) (acc : string) : string :=
  match fuel with
  | O => acc
  | S fuel' =>
      let acc' := String (ascii_of_N (Z.to_N (48 + n mod 10))) acc in
      if n <? 10 then acc' else digits_of fuel' (n / 10) acc'
  end.

Definition str_of_int (n : Z) : string := digits_of (Z.to_nat n + 1) n "".

(** The exception monad: a computation returns a value or raises an exception
    that carries its message ([str(e)]). *)
Inductive result (A : Type) : Type :=
| Ok (a : A)
| Raise (msg : string).

Arguments Ok {A} a.
Arguments Raise {A} msg.

Definition bind {A B} (m : result A) (f : A -> result B) : result B :=
  match m with
  | Ok a => f a
  | Raise msg => Raise msg
  end.

End Py.

Notation "x <- m ;; k" := (Py.bind m (fun x => k))
  (at level 61, m at next level, right associativity).

(** Concatenation of lists, apart from the concatenation [++] of strings. *)
Infix "+++" := List.app (right associativity, at level 60).

(** *** [collections.Counter] *)

Module Counter.

(** A counter in insertion order: the keys are distinct. *)
Definition t : Type := list (string * Z).

(** [c[k] += 1]: a new key is added at the end. *)
Fixpoint incr (k : string) (c : t) : t :=
  match c with
  | [] => [(k, 1)]
  | (k', n) :: rest =>
      if String.eqb k k' then (k', n + 1) :: rest else (k', n) :: incr k rest
  end.

(** [c.update(keys)] and [Counter(keys)]. *)
Definition update (c : t) (keys : list string) : t :=
  fold_left (fun acc k => incr k acc) keys c.

Definition of_list (keys : list string) : t := update [] keys.

(** [sorted(items, key=itemgetter(1), reverse=True)]: descending counts, the
    items with equal counts in their original order. *)
Fixpoint insert_desc (x : string * Z) (l : t) : t :=
  match l with
  | [] => [x]
  | y :: rest => if snd y <=? snd x then x :: y :: rest else y :: insert_desc x rest
  end.

Fixpoint sort_desc (l : t) : t :=
  match l with
  | [] => []
  | x :: rest => insert_desc x (sort_desc rest)
  end.

(** [c.most_common(n)], which is [heapq.nlargest(n, c.items(), key=itemgetter(1))],
    that is the first [n] items of the stable descending sort. *)
Definition most_common (n : nat) (c : t) : t := firstn n (sort_desc c).

(** [c.values()], [c.keys()], [sum(c.values())], [c.get(k, 0)]. *)
Definition values (c : t) : list Z := map snd c.
Definition keys (c : t) : list string := map fst c.
Definition total (c : t) : Z := fold_left Z.add (values c) 0.

Fixpoint get (k : string) (c : t) : Z :=
  match c with
  | [] => 0
  | (k', n) :: rest => if String.eqb k k' then n else get k rest
  end.

End Counter.

(** *** The [re] module: a backtracking matcher *)

Module Re.

(** The patterns used by the repository: character classes, sequences,
    ordered alternatives, greedy repetition and the word boundary [\b]. *)
Inductive regex : Type :=
| Chars (p : ascii -> bool)
| Eps
| Seq (r1 r2 : regex)
| Alt (r1 r2 : regex)
| Star (r : regex)
| WordB.

(** [r+], [r?], [r{n,}] and a literal text. *)
Definition Plus (r : regex) : regex := Seq r (Star r).
Definition Opt (r : regex) : regex := Alt r Eps.

Fixpoint AtLeast (n : nat) (r : regex) : regex :=
  match n with
  | O => Star r
  | S n' => Seq r (AtLeast n' r)
  end.

Fixpoint Lit (s : string) : regex :=
  match s with
  | EmptyString => Eps
  | String c t => Seq (Chars (Ascii.eqb c)) (Lit t)
  end.

(** A class given by the list of its characters, and the union of classes. *)
Definition one_of (chars : string) : ascii -> bool :=
  fun c => Py.mem_char c chars.

Definition cls_or (p q : ascii -> bool) : ascii -> bool :=
  fun c => p c || q c.

(** [\b] holds between a word character and a non-word character, the ends of
    the text counting as non-word.  [prev] is the character before the
    position, [s] the text from the position on. *)
Definition word_before (prev : option ascii) : bool :=
  match prev with
  | Some c => Py.is_word c
  | None => false
  end.

Definition word_after (s : string) : bool :=
  match s with
  | String c _ => Py.is_word c
  | EmptyString => false
  end.

Definition word_boundary (prev : option ascii) (s : string) : bool :=
  xorb (word_before prev) (word_after s).

(** The matcher is written with a success continuation [k], called with the
    character before the new position and the rest of the text; a failure of
    the continuation makes the matcher try its next choice. *)
Definition cont (A : Type) : Type := option ascii -> string -> option A.

(** Greedy repetition of [body]: one more round first, the continuation when
    no further round leads to a match.  A round that consumes nothing ends
    the repetition, so [fuel], the length of the text, is never used up. *)
Fixpoint star_loop {A} (body : option ascii -> string -> cont A -> option A)
  (k : cont A) (fuel : nat) (prev : option ascii) (s : string) : option A :=
  match fuel with
  | O => k prev s
  | S fuel' =>
      match body prev s
              (fun prev' s' =>
                 if (String.length s' <? String.length s)%nat
                 then star_loop body k fuel' prev' s'
                 else None)
      with
      | Some a => Some a
      | None => k prev s
      end
  end.

Fixpoint rmatch {A} (r : regex) (prev : option ascii) (s : string) (k : cont A)
  : option A :=
  match r with
  | Chars p =>
      match s with
      | String c t => if p c then k (Some c) t else None
      | EmptyString => None
      end
  | Eps => k prev s
  | Seq r1 r2 => rmatch r1 prev s (fun prev' s' => rmatch r2 prev' s' k)
  | Alt r1 r2 =>
      match rmatch r1 prev s k with
      | Some a => Some a
      | None => rmatch r2 prev s k
      end
  | Star r1 => star_loop (rmatch r1) k (String.length s) prev s
  | WordB => if word_boundary prev s then k prev s else None
  end.

(** A match of [r] at the start of [s]: the matched text and the rest. *)
Definition match_at (r : regex) (prev : option ascii) (s : string)
  : option (string * string) :=
  match rmatch r prev s (fun _ rest => Some rest) with
  | Some rest => Some (Py.take (String.length s - String.length rest) s, rest)
  | None => None
  end.

(** [pattern.search(text)]: the match at the leftmost position that has one,
    as the matched text and the rest of the text. *)
Fixpoint search_from (r : regex) (prev : option ascii) (s : string)
  : option (string * string) :=
  match match_at r prev s with
  | Some found => Some found
  | None =>
      match s with
      | EmptyString => None
      | String c t => search_from r (Some c) t
      end
  end.

Definition search (r : regex) (text : string) : option (string * string) :=
  search_from r None text.

(** [match.group(0)]. *)
Definition group0 (m : string * string) : string := fst m.

(** [re.findall(pattern, text)] for a pattern without groups: the matches
    from left to right, each search starting where the previous match ended
    ([skip] counts the characters of the last match still to be passed; an
    empty match moves on by one character). *)
Fixpoint findall_go (r : regex) (skip : nat) (prev : option ascii) (s : string)
  : list string :=
  match skip with
  | S k =>
      match s with
      | String c t => findall_go r k (Some c) t
      | EmptyString => []
      end
  | O =>
      match match_at r prev s with
      | Some (m, _) =>
          m :: match s with
               | String c t => findall_go r (String.length m - 1) (Some c) t
               | EmptyString => []
               end
      | None =>
          match s with
          | String c t => findall_go r 0 (Some c) t
          | EmptyString => []
          end
      end
  end.

Definition findall (r : regex) (text : string) : list string :=
  findall_go r 0 None text.

(** The meaning of a pattern: [matches r prev s rest prev'] when [r] matches
    the part of [s] before [rest], the position being preceded by [prev] and
    the end of the match by [prev']. *)
Inductive matches : regex -> option ascii -> string -> string -> option ascii -> Prop :=
| M_chars p prev c t :
    p c = true -> matches (Chars p) prev (String c t) t (Some c)
| M_eps prev s :
    matches Eps prev s s prev
| M_seq r1 r2 prev s s1 p1 s2 p2 :
    matches r1 prev s s1 p1 -> matches r2 p1 s1 s2 p2 ->
    matches (Seq r1 r2) prev s s2 p2
| M_alt_l r1 r2 prev s s1 p1 :
    matches r1 prev s s1 p1 -> matches (Alt r1 r2) prev s s1 p1
| M_alt_r r1 r2 prev s s1 p1 :
    matches r2 prev s s1 p1 -> matches (Alt r1 r2) prev s s1 p1
| M_star_nil r prev s :
    matches (Star r) prev s s prev
| M_star_cons r prev s s1 p1 s2 p2 :
    matches r prev s s1 p1 ->
    (String.length s1 < String.length s)%nat ->
    matches (Star r) p1 s1 s2 p2 ->
    matches (Star r) prev s s2 p2
| M_wordb prev s :
    word_boundary prev s = true -> matches WordB prev s s prev.

End Re.

(** *** [datetime] *)

Module Datetime.

(** A [datetime]: the wall-clock time in microseconds since 0001-01-01T00:00,
    and the UTC offset of its [tzinfo] in microseconds ([None] for a naive
    value). *)
Record datetime : Type := {
  wall : Z;
  tzinfo : option Z
}.

(** [d.replace(tzinfo=None)]. *)
Definition drop_tz (d : datetime) : datetime :=
  {| wall := wall d; tzinfo := None |}.

Definition is_aware (d : datetime) : bool :=
  match tzinfo d with Some _ => true | None => false end.

Definition mixed_msg : string :=
  "can't compare offset-naive and offset-aware datetimes".

(** [a < b]: two naive values compare by wall clock, two aware values by
    instant, and a naive value against an aware one raises [TypeError]. *)
Definition lt (a b : datetime) : Py.result bool :=
  match tzinfo a, tzinfo b with
  | None, None => Py.Ok (wall a <? wall b)
  | Some oa, Some ob => Py.Ok (wall a - oa <? wall b - ob)
  | _, _ => Py.Raise mixed_msg
  end.

(** [min(ds)]: the first item is the candidate, and each later item [x]
    replaces the candidate when [x < candidate]. *)
Fixpoint min_from (cur : datetime) (ds : list datetime) : Py.result datetime :=
  match ds with
  | [] => Py.Ok cur
  | x :: rest => b <- lt x cur ;; min_from (if b then x else cur) rest
  end.

Definition min (ds : list datetime) : Py.result datetime :=
  match ds with
  | [] => Py.Raise "min() arg is an empty sequence"
  | x :: rest => min_from x rest
  end.

(** [max(ds)]: each later item [x] replaces the candidate when
    [x > candidate], that is [candidate < x]. *)
Fixpoint max_from (cur : datetime) (ds : list datetime) : Py.result datetime :=
  match ds with
  | [] => Py.Ok cur
  | x :: rest => b <- lt cur x ;; max_from (if b then x else cur) rest
  end.

Definition max (ds : list datetime) : Py.result datetime :=
  match ds with
  | [] => Py.Raise "max() arg is an empty sequence"
  | x :: rest => max_from x rest
  end.

Definition us_per_day : Z := 86400000000.

(** [(a - b).days] for two naive values. *)
Definition days_between (a b : Z) : Z := (a - b) / us_per_day.

(** A parser for the texts [datetime.isoformat] writes with whole seconds,
    [YYYY-MM-DDTHH:MM:SS] with an optional offset [+HH:MM] or [-HH:MM]; on
    these texts it agrees with [datetime.fromisoformat].  It stands for the
    library function where a concrete input is evaluated. *)
Definition digit_val (c : ascii) : option Z :=
  if Py.is_digit c then Some (Z.of_N (Py.code c) - 48) else None.

Fixpoint digits (n : nat) (s : string) (acc : Z) : option (Z * string) :=
  match n with
  | O => Some (acc, s)
  | S n' =>
      match s with
      | String c t =>
          match digit_val c with
          | Some d => digits n' t (10 * acc + d)
          | None => None
          end
      | EmptyString => None
      end
  end.

Definition expect (c : ascii) (s : string) : option string :=
  match s with
  | String d t => if Ascii.eqb c d then Some t else None
  | EmptyString => None
  end.

Definition is_leap (y : Z) : bool :=
  ((y mod 4 =? 0) && negb (y mod 100 =? 0)) || (y mod 400 =? 0).

Definition days_in_month (y m : Z) : Z :=
  if m =? 2 then (if is_leap y then 29 else 28)
  else if (m =? 4) || (m =? 6) || (m =? 9) || (m =? 11) then 30 else 31.

(** Days before the first of January of year [y], and before the first of
    month [m] in year [y]. *)
Definition days_before_year (y : Z) : Z :=
  let p := y - 1 in p * 365 + p / 4 - p / 100 + p / 400.

Fixpoint days_before_month_from (y : Z) (m : nat) : Z :=
  match m with
  | O => 0
  | S m' => days_before_month_from y m' + days_in_month y (Z.of_nat m)
  end.

Definition days_before_month (y m : Z) : Z :=
  days_before_month_from y (Z.to_nat (m - 1)).

Definition opt_bind {A B} (m : option A) (f : A -> option B) : option B :=
  match m with Some a => f a | None => None end.

Definition parse_offset (s : string) : option (option Z) :=
  match s with
  | EmptyString => Some None
  | String sign t =>
      if Ascii.eqb sign "+" || Ascii.eqb sign "-" then
        opt_bind (digits 2 t 0) (fun '(hh, t1) =>
        opt_bind (expect ":" t1) (fun t2 =>
        opt_bind (digits 2 t2 0) (fun '(mm, t3) =>
          match t3 with
          | EmptyString =>
              if (hh <? 24) && (mm <? 60) then
                let off := (hh * 3600 + mm * 60) * 1000000 in
                Some (Some (if Ascii.eqb sign "-" then - off else off))
              else None
          | _ => None
          end)))
      else None
  end.

Definition fromisoformat_seconds (s : string) : option datetime :=
  opt_bind (digits 4 s 0) (fun '(y, s1) =>
  opt_bind (expect "-" s1) (fun s2 =>
  opt_bind (digits 2 s2 0) (fun '(m, s3) =>
  opt_bind (expect "-" s3) (fun s4 =>
  opt_bind (digits 2 s4 0) (fun '(d, s5) =>
  opt_bind (expect "T" s5) (fun s6 =>
  opt_bind (digits 2 s6 0) (fun '(hh, s7) =>
  opt_bind (expect ":" s7) (fun s8 =>
  opt_bind (digits 2 s8 0) (fun '(mi, s9) =>
  opt_bind (expect ":" s9) (fun s10 =>
  opt_bind (digits 2 s10 0) (fun '(ss, s11) =>
  opt_bind (parse_offset s11) (fun tz =>
    if (1 <=? y) && (1 <=? m) && (m <=? 12) && (1 <=? d)
       && (d <=? days_in_month y m) && (hh <? 24) && (mi <? 60) && (ss <? 60)
    then
      let day := days_before_year y + days_before_month y m + (d - 1) in
      Some {| wall := (day * 86400 + hh * 3600 + mi * 60 + ss) * 1000000;
              tzinfo := tz |}
    else None)))))))))))).

End Datetime.

(** *** [src/services/trend_analysis_service.py] *)

Module Trend.

Import Py.

(** An ad record of the ads library: the keys the trend engine reads.  A key
    that is [None] here is absent from the dictionary.  The values have the
    types the ads library delivers, texts and lists of texts; a dictionary
    with a value of another type ([null] under [body], say) is outside this
    record, and the analysis fails on it in ways of its own. *)
Record ad : Type := {
  id : option string;
  page_name : option string;
  media_type : option string;
  media_url : option string;
  body : option string;
  start_date : option string;
  languages : list string;
  publisher_platforms : list string
}.

(** [d.get(key, default)] and [d.get(key) == value] for a string field. *)
Definition get_or (field : option string) (default : string) : string :=
  match field with Some v => v | None => default end.

Definition field_is (field : option string) (value : string) : bool :=
  match field with Some v => String.eqb v value | None => false end.

(** Truth value of [d.get(key)]. *)
Definition present (field : option string) : bool :=
  match field with Some v => truthy v | None => false end.

(** [[a-zA-Z]] *)
Definition letter : ascii -> bool :=
  Re.cls_or (in_range 97 122) (in_range 65 90).

(** [r'\b[a-zA-Z]{3,}\b'] *)
Definition word_pattern : Re.regex :=
  Re.Seq Re.WordB (Re.Seq (Re.AtLeast 3 (Re.Chars letter)) Re.WordB).

(** [r'\b[a-zA-Z]+\b'] *)
Definition phrase_word_pattern : Re.regex :=
  Re.Seq Re.WordB (Re.Seq (Re.Plus (Re.Chars letter)) Re.WordB).

Definition stop_words : list string :=
  ["the"; "and"; "for"; "are"; "but"; "not"; "you"; "all"; "can"; "had"; "her";
   "was"; "one"; "our"; "out"; "day"; "get"; "has"; "him"; "his"; "how"; "its";
   "may"; "new"; "now"; "old"; "see"; "two"; "way"; "who"; "boy"; "did"; "man";
   "oil"; "sit"; "try"; "use"; "she"; "put"; "end"; "why"; "let"; "big"; "few";
   "got"; "run"; "yes"; "any"; "ask"; "came"; "give"; "help"; "just"; "know";
   "like"; "look"; "make"; "most"; "over"; "some"; "take"; "than"; "them";
   "very"; "what"; "when"; "with"; "have"; "this"; "will"; "your"; "from";
   "they"; "been"; "good"; "much"; "some"; "time"; "very"; "when"; "come";
   "here"; "just"; "like"; "long"; "make"; "many"; "over"; "such"; "take";
   "than"; "them"; "well"; "were"].

(** The loop of [_analyze_word_frequency]: the counter of the words of all
    texts. *)
Definition count_words (texts : list string) : Counter.t :=
  fold_left (fun word_count text =>
               Counter.update word_count (Re.findall word_pattern (lower text)))
            texts [].

Definition keep_word (item : string * Z) : bool :=
  negb (mem (fst item) stop_words) && (3 <? len (fst item)).

Definition _analyze_word_frequency (texts : list string) : Counter.t :=
  let word_count := count_words texts in
  let filtered_words := filter keep_word word_count in
  Counter.most_common 20 filtered_words.

(** [f"{words[i]} {words[i+1]}"] for [i] in [range(len(words) - 1)]. *)
Fixpoint adjacent_phrases (words : list string) : list string :=
  match words with
  | w1 :: ((w2 :: _) as rest) => (w1 ++ " " ++ w2) :: adjacent_phrases rest
  | _ => []
  end.

Definition count_phrases (texts : list string) : Counter.t :=
  fold_left (fun phrases text =>
               Counter.update phrases
                 (adjacent_phrases (Re.findall phrase_word_pattern (lower text))))
            texts [].

Definition _analyze_phrase_patterns (texts : list string) : Counter.t :=
  Counter.most_common 15 (count_phrases texts).

Definition theme_keywords : list (string * list string) :=
  [("discount", ["sale"; "discount"; "off"; "deal"; "save"; "cheap"]);
   ("new_product", ["new"; "latest"; "fresh"; "innovative"; "breakthrough"]);
   ("quality", ["premium"; "quality"; "best"; "top"; "excellent"; "superior"]);
   ("convenience", ["easy"; "simple"; "quick"; "fast"; "convenient"]);
   ("social_proof", ["popular"; "trending"; "loved"; "recommended"; "trusted"]);
   ("urgency", ["limited"; "hurry"; "act now"; "don't miss"; "expires"]);
   ("lifestyle", ["lifestyle"; "life"; "daily"; "everyday"; "routine"])].

(** The nested loops shared by [_extract_themes] and the keyword counters:
    for every text, every category and every keyword of the category found in
    the lower-cased text, the category's count goes up by one. *)
Definition count_keyword_hits (table : list (string * list string))
  (texts : list string) : Counter.t :=
  fold_left (fun counts text =>
    let text_lower := lower text in
    fold_left (fun counts' '(category, keywords) =>
      fold_left (fun counts'' keyword =>
                   if str_in keyword text_lower
                   then Counter.incr category counts'' else counts'')
                keywords counts')
      table counts)
    texts [].

Definition _extract_themes (texts : list string) : list string :=
  map fst (firstn 5 (Counter.sort_desc (count_keyword_hits theme_keywords texts))).

(** The parsing loop shared by [_analyze_date_patterns] and
    [_get_analysis_period]: a start date that ends in [Z] is parsed with the
    [Z] replaced by [+00:00], and a date that does not parse is skipped. *)
Section Dates.

Variable fromisoformat : string -> option Datetime.datetime.

Definition parse_start_date (a : ad) : option Datetime.datetime :=
  match start_date a with
  | Some sd =>
      if truthy sd then
        if endswith sd "Z" then fromisoformat (replace "Z" "+00:00" sd)
        else fromisoformat sd
      else None
  | None => None
  end.

Fixpoint parse_dates (ads_data : list ad) : list Datetime.datetime :=
  match ads_data with
  | [] => []
  | a :: rest =>
      match parse_start_date a with
      | Some d => d :: parse_dates rest
      | None => parse_dates rest
      end
  end.

Inductive date_patterns : Type :=
| NoDateData
| DatePatterns (total_with_dates recent_ads_30_days : Z)
               (earliest latest : Datetime.datetime).

(** [_analyze_date_patterns]: the recency test is made on the naive form of
    each date, the date range on the dates as they were parsed. *)
Definition _analyze_date_patterns (now : Z) (ads_data : list ad)
  : result date_patterns :=
  let dates := parse_dates ads_data in
  match dates with
  | [] => Ok NoDateData
  | _ =>
      let recent_ads :=
        filter (fun d =>
                  let d_naive := Datetime.drop_tz d in
                  Datetime.days_between now (Datetime.wall d_naive) <=? 30)
               dates in
      earliest <- Datetime.min dates ;;
      latest <- Datetime.max dates ;;
      Ok (DatePatterns (llen dates) (llen recent_ads) earliest latest)
  end.

Inductive analysis_period : Type :=
| NoDateInformation
| Period (earliest latest : Datetime.datetime) (period_days : Z).

(** [_get_analysis_period]: every date is made naive before [min] and [max]. *)
Definition _get_analysis_period (ads_data : list ad) : result analysis_period :=
  let dates := parse_dates ads_data in
  match dates with
  | [] => Ok NoDateInformation
  | _ =>
      let naive_dates := map Datetime.drop_tz dates in
      earliest <- Datetime.min naive_dates ;;
      latest <- Datetime.max naive_dates ;;
      latest' <- Datetime.max naive_dates ;;
      earliest' <- Datetime.min naive_dates ;;
      Ok (Period earliest latest
            (Datetime.days_between (Datetime.wall latest') (Datetime.wall earliest')))
  end.

Record overview : Type := {
  total_ads_analyzed : Z;
  media_type_distribution : Counter.t;
  date_patterns_of : date_patterns;
  top_brands : Counter.t;
  analysis_period_of : analysis_period
}.

Definition media_types (ads_data : list ad) : Counter.t :=
  Counter.of_list (map (fun a => get_or (media_type a) "UNKNOWN") ads_data).

Definition brands_of (ads_data : list ad) : Counter.t :=
  Counter.of_list (map (fun a => get_or (page_name a) "Unknown") ads_data).

Definition _analyze_overview_trends (now : Z) (ads_data : list ad)
  : result overview :=
  let total_ads := llen ads_data in
  let media_types := media_types ads_data in
  date_patterns <- _analyze_date_patterns now ads_data ;;
  let brands := brands_of ads_data in
  period <- _get_analysis_period ads_data ;;
  Ok {| total_ads_analyzed := total_ads;
        media_type_distribution := media_types;
        date_patterns_of := date_patterns;
        top_brands := Counter.most_common 10 brands;
        analysis_period_of := period |}.

(** [all_text] of [_analyze_content_trends]: the non-empty bodies. *)
Fixpoint bodies (ads_data : list ad) : list string :=
  match ads_data with
  | [] => []
  | a :: rest =>
      let body_text := get_or (body a) "" in
      if truthy body_text then body_text :: bodies rest else bodies rest
  end.

Record content_trends : Type := {
  word_frequency : Counter.t;
  phrase_patterns : Counter.t;
  common_themes : list string
}.

Definition _analyze_content_trends (ads_data : list ad) : content_trends :=
  let all_text := bodies ads_data in
  {| word_frequency := _analyze_word_frequency all_text;
     phrase_patterns := _analyze_phrase_patterns all_text;
     common_themes := _extract_themes all_text |}.

(** The trends computed for a non-empty list of ads.  The record keeps the
    keys whose computation can raise and the keys the specification makes
    promises about; the other keys of the Python dictionary (text length
    statistics, URL patterns, messaging and format trends, recommendations,
    video details, reasoning) are counts and fixed texts computed from the
    same typed fields by code that raises on no ad record. *)
Record trends : Type := {
  overview_of : overview;
  content_trends_of : content_trends;
  image_count : option Z;
  video_count : option Z
}.

Record analysis_metadata : Type := {
  total_ads : Z;
  image_ads : Z;
  video_ads : Z;
  analysis_type_of : string;
  analyzed_at : Z
}.

(** The envelope returned to the caller.  [trends_of = None] is the empty
    dictionary; [metadata = None] is an envelope without the key
    [analysis_metadata]; [error = None] is Python's [None]. *)
Record envelope : Type := {
  success : bool;
  message : string;
  trends_of : option trends;
  metadata : option analysis_metadata;
  error : option string
}.

(** [analyze_trends_from_ads].  [now] is the clock read by
    [_analyze_date_patterns] and [stamp] the clock read for [analyzed_at]. *)
Definition analyze_trends_from_ads (now stamp : Z) (ads_data : list ad)
  (analysis_type : string) : envelope :=
  match ads_data with
  | [] =>
      {| success := false;
         message := "No ads data provided for analysis";
         trends_of := None;
         metadata := None;
         error := Some "Empty ads data" |}
  | _ =>
      let image_ads := filter (fun a => field_is (media_type a) "IMAGE") ads_data in
      let video_ads := filter (fun a => field_is (media_type a) "VIDEO") ads_data in
      match
        (overview <- _analyze_overview_trends now ads_data ;;
         Ok {| overview_of := overview;
               content_trends_of := _analyze_content_trends ads_data;
               image_count :=
                 match image_ads with [] => None | _ => Some (llen image_ads) end;
               video_count :=
                 match video_ads with [] => None | _ => Some (llen video_ads) end |})
      with
      | Ok computed =>
          {| success := true;
             message := "Successfully analyzed trends from "
                        ++ str_of_int (llen ads_data) ++ " ads";
             trends_of := Some computed;
             metadata := Some {| total_ads := llen ads_data;
                                 image_ads := llen image_ads;
                                 video_ads := llen video_ads;
                                 analysis_type_of := analysis_type;
                                 analyzed_at := stamp |};
             error := None |}
      | Raise msg =>
          {| success := false;
             message := "Failed to analyze trends: " ++ msg;
             trends_of := None;
             metadata := None;
             error := Some msg |}
      end
  end.

End Dates.

(** The arithmetic of [_calculate_market_concentration]: Python computes the
    index with [int / int], [x ** 2], [sum] and [>] on floats.  The function
    is written over an arithmetic given by these operations, with the two
    literals [0.25] and [0.15]. *)
Record arithmetic : Type := {
  num : Type;
  true_div : Z -> Z -> num;
  square : num -> num;
  sum : list num -> num;
  gt : num -> num -> bool;
  lit_0_25 : num;
  lit_0_15 : num
}.

Definition hhi_of (A : arithmetic) (brands : Counter.t) : num A :=
  let total_ads := Counter.total brands in
  sum A (map (fun count => square A (true_div A count total_ads))
             (Counter.values brands)).

Definition _calculate_market_concentration (A : arithmetic) (brands : Counter.t)
  : string :=
  let total_ads := Counter.total brands in
  if total_ads =? 0 then "Unknown"
  else
    let hhi := hhi_of A brands in
    if gt A hhi (lit_0_25 A) then "High concentration (few dominant players)"
    else if gt A hhi (lit_0_15 A) then "Medium concentration"
    else "Low concentration (fragmented market)".

(** The arithmetic of the specification: the exact rational numbers. *)
Definition exact : arithmetic :=
  {| num := Q;
     true_div := fun a b => (inject_Z a / inject_Z b)%Q;
     square := fun x => (x * x)%Q;
     sum := fun xs => fold_left Qplus xs 0%Q;
     gt := fun x y => negb (Qle_bool x y);
     lit_0_25 := (25 # 100)%Q;
     lit_0_15 := (15 # 100)%Q |}.

(** IEEE 754 binary64 arithmetic, the floats of CPython: the quotient of two
    counts below [2^53] is the rounded quotient of their exact conversions,
    and the sum adds from left to right starting from zero.  The literal
    [0.15] denotes the nearest binary64 value, written here in hexadecimal.

    CPython computes [x ** 2] with the function [pow] of the C library,
    whose rounding is the library's own: it need not be the rounded product
    [x * x].  The square is therefore the parameter [pow2] of the
    arithmetic. *)
Definition float_of_count (n : Z) : float := PrimFloat.of_uint63 (Uint63.of_Z n).

Definition float_div (a b : Z) : float :=
  (float_of_count a / float_of_count b)%float.

Definition binary64 (pow2 : float -> float) : arithmetic :=
  {| num := float;
     true_div := float_div;
     square := pow2;
     sum := fun xs => fold_left PrimFloat.add xs 0%float;
     gt := fun x y => PrimFloat.ltb y x;
     lit_0_25 := 0.25%float;
     lit_0_15 := 0x1.3333333333333p-3%float |}.

End Trend.

(** *** [src/services/webpage_analyzer_service.py] *)

Module Webpage.

Import Py.

(** [[0-9a-fA-F]] *)
Definition hex_digit : ascii -> bool :=
  Re.cls_or (in_range 48 57) (Re.cls_or (in_range 97 102) (in_range 65 70)).

(** The five alternatives of the repeated group:
    [[a-zA-Z]], [[0-9]], [[$-_@.&+]], [[!*\\(\\),]] and
    [%[0-9a-fA-F][0-9a-fA-F]]. *)
Definition alt_letter : ascii -> bool :=
  Re.cls_or (in_range 97 122) (in_range 65 90).
Definition alt_digit : ascii -> bool := in_range 48 57.
Definition alt_punct : ascii -> bool :=
  Re.cls_or (in_range 36 95) (Re.one_of "@.&+").
Definition alt_sub : ascii -> bool := Re.one_of "!*\(),".

Definition url_unit : Re.regex :=
  Re.Alt (Re.Chars alt_letter)
    (Re.Alt (Re.Chars alt_digit)
       (Re.Alt (Re.Chars alt_punct)
          (Re.Alt (Re.Chars alt_sub)
             (Re.Seq (Re.Chars (Re.one_of "%"))
                (Re.Seq (Re.Chars hex_digit) (Re.Chars hex_digit)))))).

(** [r'http[s]?://(?:[a-zA-Z]|[0-9]|[$-_@.&+]|[!*\\(\\),]|(?:%[0-9a-fA-F][0-9a-fA-F]))+'] *)
Definition url_pattern : Re.regex :=
  Re.Seq (Re.Lit "http")
    (Re.Seq (Re.Opt (Re.Chars (Re.one_of "s")))
       (Re.Seq (Re.Lit "://") (Re.Plus url_unit))).

Definition is_valid_url (text : string) : bool :=
  match Re.search url_pattern text with
  | Some _ => true
  | None => false
  end.

Definition extract_url_from_text (text : string) : option string :=
  match Re.search url_pattern text with
  | Some m => Some (Re.group0 m)
  | None => None
  end.

(** The specification's reading of the pattern: a URL is [http://] or
    [https://] followed by one or more units, a unit being a letter, a digit,
    a character of one of the two punctuation sets, or a percent escape
    [%XX] with two hexadecimal digits. *)
Inductive unit_text : string -> Prop :=
| Unit_char c :
    (alt_letter c || alt_digit c || alt_punct c || alt_sub c) = true ->
    unit_text (String c EmptyString)
| Unit_escape h1 h2 :
    hex_digit h1 = true -> hex_digit h2 = true ->
    unit_text (String "%" (String h1 (String h2 EmptyString))).

Inductive url_units : string -> Prop :=
| Units_one u : unit_text u -> url_units u
| Units_more u rest : unit_text u -> url_units rest -> url_units (u ++ rest).

Definition is_url (u : string) : Prop :=
  exists scheme tail,
    u = scheme ++ tail /\ (scheme = "http://" \/ scheme = "https://") /\ url_units tail.

(** [text] contains a URL; [text] has a URL that starts at offset [n]. *)
Definition contains_url (text : string) : Prop :=
  exists before u after, text = before ++ u ++ after /\ is_url u.

Definition url_starts_at (n : nat) (text : string) : Prop :=
  exists before u after,
    text = before ++ u ++ after /\ String.length before = n /\ is_url u.

End Webpage.

(** *** [src/services/video_generator_service.py] *)

Module Generator.

Import Py.

(** A dictionary from strings to counts, in insertion order. *)
Definition counts : Type := list (string * Z).

(** [max(d.items(), key=lambda x: x[1])[0]] for a non-empty dictionary, the
    first key of greatest value, and the default for an empty one. *)
Fixpoint max_item (cur : string * Z) (items : counts) : string * Z :=
  match items with
  | [] => cur
  | x :: rest => max_item (if snd cur <? snd x then x else cur) rest
  end.

Definition top_key (d : counts) (default : string) : string :=
  match d with
  | [] => default
  | x :: rest => fst (max_item x rest)
  end.

(** [d.get(key, default)] for a dictionary of texts. *)
Fixpoint lookup (key : string) (d : list (string * string)) (default : string)
  : string :=
  match d with
  | [] => default
  | (k, v) :: rest => if String.eqb key k then v else lookup key rest default
  end.

(** The payload under the key [trends] of the trend analysis, as far as the
    generator reads it.  A key that is absent reads as its default, the empty
    dictionary, the empty list or zero, so each key is given by its value. *)
Record trends_payload : Type := {
  word_frequency : counts;
  phrase_patterns : counts;
  common_themes : list string;
  trend_image_count : Z;
  trend_video_count : Z;
  trend_emotional_tone : counts;
  trend_cta_patterns : counts;
  trend_value_propositions : counts;
  trend_messaging_strategies : list string;
  trend_format_distribution : counts
}.

(** [trends_data]: [None] is the empty dictionary, [Some p] a non-empty
    dictionary whose [trends] payload is [p]. *)
Definition trends_data : Type := option trends_payload.

Record content_insights : Type := {
  common_words : counts;
  common_phrases : counts;
  themes : list string
}.

Record messaging_insights : Type := {
  emotional_tone : counts;
  cta_patterns : counts;
  value_propositions : counts;
  messaging_strategies : list string
}.

Record trend_insights : Type := {
  content_trends : content_insights;
  image_count : Z;
  video_count : Z;
  messaging_trends : messaging_insights;
  format_distribution : counts
}.

Definition _extract_trend_insights (p : trends_payload) : trend_insights :=
  {| content_trends :=
       {| common_words := word_frequency p;
          common_phrases := phrase_patterns p;
          themes := common_themes p |};
     image_count := trend_image_count p;
     video_count := trend_video_count p;
     messaging_trends :=
       {| emotional_tone := trend_emotional_tone p;
          cta_patterns := trend_cta_patterns p;
          value_propositions := trend_value_propositions p;
          messaging_strategies := trend_messaging_strategies p |};
     format_distribution := trend_format_distribution p |}.

Record query_analysis : Type := {
  intent : string;
  video_type : string;
  target_audience : string;
  user_tone : string;
  content_focus : string;
  urgency_level : string;
  style_preferences : list string;
  key_elements : list string;
  call_to_action : string;
  complexity : string
}.

(** [len(s.split())]: the number of runs of characters that are not white
    space. *)
Fixpoint count_fields (in_field : bool) (s : string) : Z :=
  match s with
  | EmptyString => 0
  | String c t =>
      if is_space c then count_fields false t
      else (if in_field then 0 else 1) + count_fields true t
  end.

Definition _analyze_user_query (user_query : string) : query_analysis :=
  let query_lower := lower user_query in
  let has words := any_in words query_lower in
  let '(intent, video_type) :=
    if has ["реклама"; "рекламне"; "рекламний"; "advertisement"; "ad"; "promo"]
    then ("advertising", "commercial")
    else if has ["туторіал"; "навчання"; "як"; "tutorial"; "how to"; "learn"]
    then ("educational", "tutorial")
    else if has ["презентація"; "демонстрація"; "показати"; "presentation"; "demo"; "show"]
    then ("demonstration", "product_demo")
    else if has ["історія"; "story"; "narrative"; "розповідь"]
    then ("storytelling", "narrative")
    else ("general", "promotional") in
  let target_audience :=
    if has ["молодь"; "підлітки"; "teen"; "youth"; "young"] then "youth"
    else if has ["дорослі"; "бізнес"; "adult"; "business"; "professional"] then "adults"
    else if has ["сім'я"; "family"; "parents"] then "families"
    else "general" in
  let '(user_tone, urgency_level) :=
    if has ["веселий"; "радісний"; "fun"; "happy"; "joyful"] then ("joyful", "normal")
    else if has ["серйозний"; "серйозно"; "serious"; "professional"] then ("serious", "normal")
    else if has ["надихаючий"; "мотивуючий"; "inspiring"; "motivational"]
    then ("inspiring", "normal")
    else if has ["терміново"; "швидко"; "urgent"; "quick"; "fast"] then ("urgent", "high")
    else ("positive", "normal") in
  let content_focus :=
    if has ["продукт"; "товар"; "product"; "item"] then "product_showcase"
    else if has ["послуга"; "service"; "сервіс"] then "service_demonstration"
    else if has ["бренд"; "компанія"; "brand"; "company"] then "brand_story"
    else if has ["функції"; "можливості"; "features"; "capabilities"] then "feature_highlight"
    else "product_showcase" in
  let style_preferences :=
    if has ["мінімалістичний"; "простий"; "minimalist"; "simple"; "clean"] then ["minimalist"]
    else if has ["яскравий"; "кольоровий"; "bright"; "colorful"; "vibrant"] then ["colorful"]
    else if has ["елегантний"; "розкішний"; "elegant"; "luxury"; "premium"] then ["elegant"]
    else if has ["сучасний"; "модний"; "modern"; "trendy"; "contemporary"] then ["modern"]
    else [] in
  let key_elements :=
    (if has ["анімація"; "рух"; "animation"; "motion"] then ["animation"] else [])
    +++ (if has ["текст"; "надписи"; "text"; "typography"] then ["text_overlay"] else [])
    +++ (if has ["музика"; "звук"; "music"; "audio"] then ["audio"] else [])
    +++ (if has ["переходи"; "transitions"; "effects"] then ["transitions"] else []) in
  let call_to_action :=
    if has ["купити"; "замовити"; "buy"; "order"; "purchase"] then "purchase"
    else if has ["завантажити"; "download"; "install"] then "download"
    else if has ["підписатися"; "subscribe"; "follow"] then "subscribe"
    else if has ["дізнатися"; "learn more"; "find out"] then "learn_more"
    else "learn_more" in
  let complexity :=
    if (20 <? count_fields false user_query)
       || has ["складний"; "детальний"; "complex"; "detailed"] then "high"
    else if count_fields false user_query <? 5 then "low"
    else "medium" in
  {| intent := intent;
     video_type := video_type;
     target_audience := target_audience;
     user_tone := user_tone;
     content_focus := content_focus;
     urgency_level := urgency_level;
     style_preferences := style_preferences;
     key_elements := key_elements;
     call_to_action := call_to_action;
     complexity := complexity |}.

Record competitive_insights : Type := {
  dominant_visual_style : string;
  trending_content_themes : list string;
  effective_cta_patterns : list string;
  emotional_triggers : list string
}.

Definition _extract_competitive_insights (ti : trend_insights) : competitive_insights :=
  {| dominant_visual_style :=
       if image_count ti <? video_count ti
       then "dynamic_video_focused" else "static_image_focused";
     trending_content_themes := firstn 3 (themes (content_trends ti));
     effective_cta_patterns := firstn 3 (map fst (cta_patterns (messaging_trends ti)));
     emotional_triggers :=
       map fst (filter (fun item => 0 <? snd item)
                       (emotional_tone (messaging_trends ti))) |}.

Definition _create_opening_hook (ti : trend_insights) (qa : query_analysis) : string :=
  let user_tone := user_tone qa in
  let video_type := video_type qa in
  let target_audience := target_audience qa in
  let urgency_level := urgency_level qa in
  if String.eqb video_type "tutorial" then
    "Open with a clear, relatable problem that your target audience faces. Show the frustration or challenge in a way that immediately connects with "
    ++ target_audience ++ ", using authentic expressions and real-world scenarios."
  else if String.eqb video_type "commercial" then
    if String.eqb urgency_level "high" then
      "Start with a dramatic, time-sensitive moment that immediately captures attention. Show a problem or challenge that needs immediate resolution, with intense lighting and quick cuts to build urgency."
    else
      "Begin with an engaging moment that showcases the value proposition. Use compelling visuals that speak directly to "
      ++ target_audience ++ " needs and desires."
  else if String.eqb video_type "narrative" then
    "Open with a compelling character or situation that draws viewers into the story. Create emotional connection through authentic moments that resonate with "
    ++ target_audience ++ "."
  else if String.eqb video_type "product_demo" then
    "Start with a clear demonstration of the problem your product solves. Show the 'before' state in a way that "
    ++ target_audience ++ " can immediately relate to and understand."
  else
    lookup user_tone
      [("urgent", "Open with a dramatic, time-sensitive moment that immediately captures attention. Show a problem or challenge that needs immediate resolution, with intense lighting and quick cuts.");
       ("positive", "Begin with an uplifting, inspiring moment that showcases transformation and possibility. Use warm, bright lighting and smooth camera movements to create an optimistic atmosphere.");
       ("serious", "Start with a professional, authoritative moment that establishes credibility and expertise. Use clean, focused lighting and steady camera work.");
       ("inspiring", "Open with a motivational moment that sparks ambition and possibility. Use dynamic lighting and inspiring visuals that energize the viewer.");
       ("joyful", "Begin with a fun, energetic moment that immediately brings a smile. Use bright colors, playful movements, and positive energy.")]
      "Create an engaging opening that immediately draws viewers in and establishes the video's purpose.".

Definition _create_visual_story (ti : trend_insights) (ci : competitive_insights)
  (qa : query_analysis) : string :=
  let themes := trending_content_themes ci in
  let style_preferences := style_preferences qa in
  let content_focus := content_focus qa in
  let complexity := complexity qa in
  let story_base :=
    if mem "minimalist" style_preferences then
      "Create a clean, minimalist visual narrative with plenty of white space, simple compositions, and focused elements."
    else if mem "colorful" style_preferences then
      "Develop a vibrant, colorful visual story with bold color palettes, dynamic contrasts, and energetic compositions."
    else if mem "elegant" style_preferences then
      "Craft an elegant, sophisticated visual narrative with refined aesthetics, premium materials, and luxury elements."
    else if mem "modern" style_preferences then
      "Create a contemporary, modern visual story with sleek designs, innovative layouts, and cutting-edge aesthetics."
    else
      "Develop a compelling visual narrative that effectively communicates your message." in
  let story_base :=
    story_base ++
    (if String.eqb content_focus "product_showcase" then
       " Focus on highlighting product features, benefits, and unique selling points through clear, detailed visuals."
     else if String.eqb content_focus "service_demonstration" then
       " Emphasize the service delivery process, customer experience, and value creation through step-by-step visual storytelling."
     else if String.eqb content_focus "brand_story" then
       " Tell the brand story through authentic moments, company values, and emotional connections."
     else if String.eqb content_focus "feature_highlight" then
       " Showcase specific features and capabilities through detailed demonstrations and clear explanations."
     else "") in
  let story_base :=
    story_base ++
    (if String.eqb complexity "high" then
       " Include multiple visual layers, complex compositions, and detailed elements that require careful attention."
     else if String.eqb complexity "low" then
       " Keep visuals simple, clear, and easy to understand with minimal distractions."
     else "") in
  let story_base :=
    story_base ++
    (match themes with
     | [] => ""
     | _ => " Incorporate trending themes like " ++ join ", " (firstn 2 themes)
            ++ " to stay relevant and engaging."
     end) in
  story_base.

Definition _create_scene_descriptions (ti : trend_insights) (qa : query_analysis)
  : list string :=
  let video_type := video_type qa in
  let target_audience := target_audience qa in
  let emotional_tone := user_tone qa in
  let key_elements := key_elements qa in
  let scenes :=
    if String.eqb video_type "tutorial" then
      ["Scene 1: Establish the learning objective clearly. Show the current state or problem that needs to be solved, using relatable scenarios that "
         ++ target_audience ++ " can identify with.";
       "Scene 2: Demonstrate the step-by-step process. Use clear, detailed shots that show each action clearly, with helpful visual cues and explanations.";
       "Scene 3: Show the successful outcome and reinforce key learning points. Highlight the benefits and practical applications."]
    else if String.eqb video_type "commercial" then
      let messaging_trends := messaging_trends ti in
      let strategies := messaging_strategies messaging_trends in
      let value_props := value_propositions messaging_trends in
      let dominant_value := top_key value_props "quality" in
      (if mem "problem-solution" strategies then
          ["Scene 1: Show a relatable problem or challenge that your product addresses. Use close-up shots of frustrated expressions, cluttered environments, or obstacles that create empathy and connection with "
             ++ target_audience ++ "."]
       else [])
      +++ [lookup dominant_value
             [("price", "Scene 2: Reveal your product as an affordable solution with money-saving visuals, price comparisons, and budget-friendly aesthetics that appeal to "
                          ++ target_audience ++ ".");
              ("quality", "Scene 2: Showcase your product with premium quality indicators, detailed craftsmanship, and high-end visual elements that demonstrate superior value.");
              ("convenience", "Scene 2: Demonstrate your product's ease of use with simple, effortless actions, streamlined processes, and user-friendly interfaces.");
              ("results", "Scene 2: Highlight your product's benefits with before/after comparisons, measurable outcomes, and clear value demonstration.")]
             ("Scene 2: Introduce your product as the solution with clear, compelling visual evidence that speaks to "
                ++ target_audience ++ ".")]
      +++ (if mem emotional_tone ["positive"; "joyful"; "inspiring"] then
             ["Scene 3: Show the positive transformation and outcomes of using your product. Use bright, uplifting visuals, satisfied expressions, and successful results that inspire "
                ++ target_audience ++ "."]
           else [])
    else if String.eqb video_type "narrative" then
      ["Scene 1: Introduce the main character or situation. Create emotional connection through authentic moments that resonate with "
         ++ target_audience ++ ".";
       "Scene 2: Develop the story with conflict or challenge. Show character growth, obstacles overcome, or meaningful moments.";
       "Scene 3: Resolve the story with a satisfying conclusion. Show transformation, learning, or emotional payoff."]
    else if String.eqb video_type "product_demo" then
      ["Scene 1: Show the problem or need that your product addresses. Demonstrate the current pain points or limitations that "
         ++ target_audience ++ " experiences.";
       "Scene 2: Demonstrate your product in action. Show key features, functionality, and benefits through clear, detailed demonstrations.";
       "Scene 3: Highlight the results and benefits. Show the positive outcomes, improvements, and value that your product delivers."]
    else [] in
  scenes
  +++ (if mem "animation" key_elements then
         ["Include smooth animations and dynamic motion throughout the scenes to enhance visual appeal and engagement."]
       else [])
  +++ (if mem "text_overlay" key_elements then
         ["Incorporate clear, readable text overlays that reinforce key messages and provide additional context."]
       else [])
  +++ (if mem "transitions" key_elements then
         ["Use creative transitions between scenes that maintain visual flow and enhance the storytelling."]
       else []).

Definition _create_technical_execution (ti : trend_insights) (generator_type : string)
  (qa : query_analysis) : string :=
  let complexity := complexity qa in
  let key_elements := key_elements qa in
  let video_type := video_type qa in
  let base_spec :=
    lookup (lower generator_type)
      [("veo", "Execute with Veo's cinematic capabilities: use smooth camera movements, realistic lighting, and natural motion. Focus on 16:9 aspect ratio with 1080p quality, 5-15 second duration. Emphasize photorealistic rendering and fluid transitions.");
       ("runway", "Leverage Runway's creative tools: use artistic style consistency, creative editing features, and expressive motion. Optimize for 16:9 or 9:16 formats with HD quality, 3-10 second duration. Focus on creative expression and artistic flair.");
       ("pika", "Utilize Pika's artistic capabilities: emphasize creative animations, visual appeal, and artistic style. Use square or 16:9 aspect ratios with 2-8 second duration. Focus on creative visual storytelling and artistic expression.");
       ("stable_video", "Apply Stable Video's generation: keep prompts clear and simple, ensure stable generation, maintain consistent style. Use 16:9 aspect ratio with 2-5 second duration. Focus on reliable, consistent output.");
       ("sora", "Harness Sora's advanced features: use detailed descriptions, focus on realism, leverage high-quality generation. Use 16:9 aspect ratio with 5-20 second duration. Emphasize photorealistic quality and complex scenes.")]
      "Execute with standard video generation parameters and high-quality output." in
  let base_spec :=
    base_spec ++
    (if String.eqb complexity "high" then
       " Include detailed technical specifications, complex scene compositions, and sophisticated visual elements."
     else if String.eqb complexity "low" then
       " Keep technical requirements simple and straightforward for easy execution."
     else "") in
  let base_spec :=
    base_spec ++
    (if mem "animation" key_elements then
       " Prioritize smooth animations and dynamic motion throughout the video." else "") in
  let base_spec :=
    base_spec ++
    (if mem "text_overlay" key_elements then
       " Ensure clear, readable text overlays with proper contrast and positioning." else "") in
  let base_spec :=
    base_spec ++
    (if mem "transitions" key_elements then
       " Use creative transitions and effects to enhance visual flow." else "") in
  let base_spec :=
    base_spec ++
    (if String.eqb video_type "tutorial" then
       " Focus on clear, educational visuals with step-by-step clarity and instructional design."
     else if String.eqb video_type "commercial" then
       " Optimize for commercial appeal with attention-grabbing visuals and persuasive elements."
     else if String.eqb video_type "narrative" then
       " Emphasize storytelling elements with character development and emotional pacing."
     else "") in
  base_spec.

Definition _create_emotional_arc (ti : trend_insights) (qa : query_analysis) : string :=
  let emotional_tone := emotional_tone (messaging_trends ti) in
  let user_tone := user_tone qa in
  let video_type := video_type qa in
  let target_audience := target_audience qa in
  let arc_parts :=
    (if String.eqb video_type "tutorial" then
       ["Start with curiosity and engagement, build confidence through learning, and end with empowerment and achievement"]
     else if String.eqb video_type "commercial" then
       if String.eqb user_tone "urgent" then
         ["Build tension and urgency in the first half, then provide relief and satisfaction"]
       else if String.eqb user_tone "inspiring" then
         ["Begin with aspiration, show transformation possibilities, and end with motivation and action"]
       else
         ["Start with relatability, build desire and interest, and conclude with satisfaction and action"]
     else if String.eqb video_type "narrative" then
       ["Establish emotional connection, develop conflict or challenge, and resolve with meaningful payoff"]
     else if String.eqb video_type "product_demo" then
       ["Begin with problem recognition, build understanding and interest, and end with confidence and desire"]
     else [])
    +++ (if 0 <? Counter.get "urgent" emotional_tone
         then ["incorporate urgency and time-sensitivity"] else [])
    +++ (if 0 <? Counter.get "positive" emotional_tone
         then ["maintain uplifting and optimistic tone"] else [])
    +++ (if 0 <? Counter.get "exclusive" emotional_tone
         then ["convey premium, exclusive feeling"] else [])
    +++ (if 0 <? Counter.get "social" emotional_tone
         then ["emphasize connection and community"] else []) in
  match arc_parts with
  | [] =>
      "Develop a compelling emotional journey that resonates with " ++ target_audience
      ++ " and creates meaningful connection."
  | _ =>
      "Create an emotional arc that " ++ join ", " arc_parts
      ++ " to maximize engagement with " ++ target_audience
      ++ " and drive desired action."
  end.

Definition _create_cta_integration (ti : trend_insights) (qa : query_analysis) : string :=
  let cta_patterns := cta_patterns (messaging_trends ti) in
  let user_cta := call_to_action qa in
  let target_audience := target_audience qa in
  let urgency_level := urgency_level qa in
  if String.eqb user_cta "purchase" then
    if String.eqb urgency_level "high" then
      "Integrate a compelling 'Buy Now' moment with urgency-inducing visuals, countdown elements, and clear purchase indicators that appeal to "
      ++ target_audience ++ "."
    else
      "Create an engaging 'Shop Now' sequence with product showcases, easy navigation visuals, and shopping-focused aesthetics that guide "
      ++ target_audience ++ " to purchase."
  else if String.eqb user_cta "download" then
    "Create a compelling 'Download' sequence with app store visuals, installation process, and digital convenience indicators that make it easy for "
    ++ target_audience ++ " to get started."
  else if String.eqb user_cta "subscribe" then
    "Develop an inviting 'Subscribe' moment with community benefits, exclusive content previews, and membership-focused aesthetics that appeal to "
    ++ target_audience ++ "."
  else if String.eqb user_cta "learn_more" then
    "Design an informative 'Learn More' section with educational visuals, detailed explanations, and knowledge-focused presentation that satisfies "
    ++ target_audience ++ "'s curiosity."
  else
    match cta_patterns with
    | [] =>
        "Include a strong, clear call-to-action that motivates " ++ target_audience
        ++ " to take the desired action."
    | _ =>
        let top_cta := top_key cta_patterns "" in
        lookup top_cta
          [("buy now", "Integrate a compelling 'Buy Now' moment with urgency-inducing visuals, countdown elements, and clear purchase indicators that resonate with "
                         ++ target_audience ++ ".");
           ("shop now", "Create an engaging 'Shop Now' sequence with product showcases, easy navigation visuals, and shopping-focused aesthetics that guide "
                          ++ target_audience ++ ".");
           ("learn more", "Design an informative 'Learn More' section with educational visuals, detailed explanations, and knowledge-focused presentation for "
                            ++ target_audience ++ ".");
           ("sign up", "Develop an inviting 'Sign Up' moment with registration visuals, community benefits, and membership-focused aesthetics that appeal to "
                         ++ target_audience ++ ".");
           ("download", "Create a compelling 'Download' sequence with app store visuals, installation process, and digital convenience indicators for "
                          ++ target_audience ++ ".")]
          ("Integrate a clear, compelling call-to-action that drives " ++ target_audience
           ++ " engagement and conversion.")
    end.

(** The style preferences of the caller: a dictionary of texts. *)
Definition style : Type := list (string * string).

Definition _create_video_description (user_query : string) (ti : trend_insights)
  (generator_type : string) (style_preferences : option style) : string :=
  let query_analysis := _analyze_user_query user_query in
  let competitive_insights := _extract_competitive_insights ti in
  let description_parts :=
    [_create_opening_hook ti query_analysis]
    +++ [_create_visual_story ti competitive_insights query_analysis]
    +++ _create_scene_descriptions ti query_analysis
    +++ [_create_technical_execution ti generator_type query_analysis]
    +++ [_create_emotional_arc ti query_analysis]
    +++ [_create_cta_integration ti query_analysis] in
  join " " description_parts.

Definition _create_emotional_variation (base_description : string) (ti : trend_insights)
  : string :=
  let emotional_tone := emotional_tone (messaging_trends ti) in
  let dominant_tone := top_key emotional_tone "positive" in
  lookup dominant_tone
    [("urgent", "Create an emotionally charged video that builds tension and urgency. ");
     ("positive", "Develop an uplifting, inspiring narrative that creates emotional connection. ");
     ("exclusive", "Craft a sophisticated, premium experience that conveys exclusivity. ");
     ("social", "Build a relatable, community-focused story that emphasizes human connection. ")]
    "Create an emotionally engaging video that resonates deeply with viewers. "
  ++ base_description.

Definition _create_technical_variation (base_description generator_type : string)
  : string :=
  lookup (lower generator_type)
    [("veo", "Optimize for Veo's cinematic capabilities with photorealistic rendering. ");
     ("runway", "Leverage Runway's creative tools for artistic expression. ");
     ("pika", "Utilize Pika's artistic capabilities for creative storytelling. ");
     ("stable_video", "Apply Stable Video's reliable generation for consistent output. ");
     ("sora", "Harness Sora's advanced features for high-quality realism. ")]
    "Focus on technical excellence and high-quality output. "
  ++ base_description.

Definition _create_competitive_variation (base_description : string) (ti : trend_insights)
  : string :=
  let themes := themes (content_trends ti) in
  let theme_focus :=
    match themes with
    | [] => "Stand out from competitors with unique positioning and messaging. "
    | _ => "Differentiate by emphasizing " ++ join ", " (firstn 2 themes)
           ++ " themes that competitors are missing. "
    end in
  theme_focus ++ base_description.

Definition _create_unique_variations (base_description : string) (ti : trend_insights)
  (generator_type : string) : list string :=
  let variations := [] in
  let emotional_variation := _create_emotional_variation base_description ti in
  let variations := variations +++ [emotional_variation] in
  let technical_variation := _create_technical_variation base_description generator_type in
  let variations := variations +++ [technical_variation] in
  let competitive_variation := _create_competitive_variation base_description ti in
  let variations := variations +++ [competitive_variation] in
  variations.

Record recommendations : Type := {
  content_recommendations : list string;
  visual_recommendations : list string;
  technical_recommendations : list string;
  optimization_recommendations : list string
}.

Definition _generate_recommendations (user_query : string) (ti : trend_insights)
  (generator_type : string) : recommendations :=
  let common_words := common_words (content_trends ti) in
  let themes := themes (content_trends ti) in
  {| content_recommendations :=
       (match common_words with
        | [] => []
        | _ => ["Incorporate trending keywords: "
                  ++ join ", " (firstn 3 (map fst common_words))]
        end)
       +++ (match themes with
            | [] => []
            | _ => ["Focus on trending themes: " ++ join ", " (firstn 3 themes)]
            end);
     visual_recommendations :=
       (if image_count ti <? video_count ti
        then ["Prioritize video content over static images"] else [])
       +++ ["Ensure high visual quality and clear composition";
            "Use attention-grabbing visuals in the first 3 seconds"];
     technical_recommendations :=
       ["Optimize for " ++ upper generator_type ++ " capabilities and limitations";
        "Test different aspect ratios for platform optimization";
        "Consider mobile-first design for social media"];
     optimization_recommendations :=
       ["A/B test different versions";
        "Monitor performance metrics";
        "Iterate based on engagement data"] |}.

Record technical_specs : Type := {
  spec_generator_type : string;
  recommended_aspect_ratio : string;
  recommended_resolution : string;
  recommended_duration : string;
  optimization_tips : list string
}.

Fixpoint lookup_list (key : string) (d : list (string * list string)) : list string :=
  match d with
  | [] => []
  | (k, v) :: rest => if String.eqb key k then v else lookup_list key rest
  end.

Definition generator_optimizations : list (string * list string) :=
  [("veo", ["Use clear, descriptive prompts"; "Focus on smooth motion"; "Avoid complex scenes"]);
   ("runway", ["Leverage creative editing features"; "Use style consistency"; "Optimize for artistic expression"]);
   ("pika", ["Emphasize artistic style"; "Use creative animations"; "Focus on visual appeal"]);
   ("stable_video", ["Keep prompts simple"; "Ensure stable generation"; "Use consistent style"]);
   ("sora", ["Leverage advanced capabilities"; "Use detailed descriptions"; "Focus on realism"])].

Definition _generate_technical_specs (ti : trend_insights) (generator_type : string)
  : technical_specs :=
  let format_distribution := format_distribution ti in
  {| spec_generator_type := generator_type;
     recommended_aspect_ratio := "16:9";
     recommended_resolution := "1080p";
     recommended_duration := "5-15 seconds";
     optimization_tips :=
       (if 0 <? Counter.get "VIDEO" format_distribution
        then ["Video content is trending - prioritize motion and transitions"]
        else [])
       +++ lookup_list (lower generator_type) generator_optimizations |}.

Definition supported_generators : list string :=
  ["veo"; "runway"; "pika"; "stable_video"; "sora"].

(** The dictionary returned by both entry points.  A key that a failure
    envelope does not carry is [None]. *)
Record description_result : Type := {
  success : bool;
  message : string;
  video_description : string;
  variations : option (list string);
  recommendations_of : option recommendations;
  technical_specifications : option technical_specs;
  trend_insights_used : option trend_insights;
  generator_type_of : option string;
  generated_at : option Z;
  error : option string
}.

(** [generate_video_description]; [stamp] is the clock read for
    [generated_at].  The body of the [try] raises on no input of these types,
    so its handler is not part of the function. *)
Definition generate_video_description (stamp : Z) (user_query : string)
  (trends_data : trends_data) (generator_type : string)
  (style_preferences : option style) : description_result :=
  match truthy user_query, trends_data with
  | true, Some payload =>
      let generator_type :=
        if negb (mem (lower generator_type) supported_generators)
        then "veo" else generator_type in
      let trend_insights := _extract_trend_insights payload in
      let video_description :=
        _create_video_description user_query trend_insights generator_type
          style_preferences in
      let variations :=
        _create_unique_variations video_description trend_insights generator_type in
      let recommendations :=
        _generate_recommendations user_query trend_insights generator_type in
      let technical_specs := _generate_technical_specs trend_insights generator_type in
      {| success := true;
         message := "Generated unique video descriptions for " ++ upper generator_type;
         video_description := video_description;
         variations := Some variations;
         recommendations_of := Some recommendations;
         technical_specifications := Some technical_specs;
         trend_insights_used := Some trend_insights;
         generator_type_of := Some generator_type;
         generated_at := Some stamp;
         error := None |}
  | _, _ =>
      {| success := false;
         message := "User query and trends data are required";
         video_description := "";
         variations := None;
         recommendations_of := None;
         technical_specifications := None;
         trend_insights_used := None;
         generator_type_of := None;
         generated_at := None;
         error := Some "Missing required parameters" |}
  end.

(** The insight-driven path.  A video insight as the generator reads it: the
    brand, the raw analysis text under [insights], and whether the insight
    carries video metadata. *)
Record video_insight : Type := {
  insight_page_name : option string;
  raw_analysis : string;
  has_video_metadata : bool
}.

Definition theme_keywords : list string :=
  ["product"; "service"; "quality"; "price"; "value"; "benefit";
   "feature"; "advantage"; "solution"; "problem"; "need";
   "lifestyle"; "emotion"; "story"; "testimonial"; "review";
   "comparison"; "competition"; "unique"; "special"; "exclusive"].

Definition visual_keywords : list string :=
  ["color"; "bright"; "dark"; "contrast"; "animation"; "motion";
   "close-up"; "wide shot"; "text overlay"; "logo"; "brand";
   "people"; "faces"; "hands"; "product shot"; "lifestyle";
   "background"; "foreground"; "lighting"; "shadow"].

Definition messaging_keywords : list string :=
  ["call to action"; "cta"; "buy now"; "learn more"; "discover";
   "limited time"; "offer"; "discount"; "sale"; "free";
   "testimonial"; "review"; "rating"; "star"; "recommendation";
   "social proof"; "trust"; "credibility"; "authority"].

(** The loop shared by the three extractors: the keywords found in the
    lower-cased text, in title case. *)
Definition titled_hits (keywords : list string) (text : string) : list string :=
  let text_lower := lower text in
  map title (filter (fun keyword => str_in keyword text_lower) keywords).

Definition _extract_themes_from_text (text : string) : list string :=
  titled_hits theme_keywords text.
Definition _extract_visual_patterns (text : string) : list string :=
  titled_hits visual_keywords text.
Definition _extract_messaging_strategies (text : string) : list string :=
  titled_hits messaging_keywords text.

(** The keys of [combined] that are read later; [technical_insights],
    [duration_insights] and [style_insights] are written and never read. *)
Record combined_insights : Type := {
  total_videos : Z;
  combined_themes : list string;
  visual_patterns : list string;
  combined_strategies : list string;
  brand_patterns : counts
}.

Section InsightPath.

(** [list(set(xs))]: the order in which a set of strings is iterated. *)
Variable list_of_set : list string -> list string.

Definition _extract_combined_insights (video_insights : list video_insight)
  : combined_insights :=
  let analysed := filter (fun i => truthy (raw_analysis i)) video_insights in
  let all_themes := flat_map (fun i => _extract_themes_from_text (raw_analysis i)) analysed in
  let all_patterns := flat_map (fun i => _extract_visual_patterns (raw_analysis i)) analysed in
  let all_strategies :=
    flat_map (fun i => _extract_messaging_strategies (raw_analysis i)) analysed in
  {| total_videos := llen video_insights;
     combined_themes := firstn 10 (list_of_set all_themes);
     visual_patterns := firstn 10 (list_of_set all_patterns);
     combined_strategies := firstn 10 (list_of_set all_strategies);
     brand_patterns :=
       Counter.of_list
         (map (fun i => match insight_page_name i with
                        | Some b => b
                        | None => "Unknown"
                        end) video_insights) |}.

(** [style_preferences.get(key)] when it is a non-empty text. *)
Definition style_get (key : string) (style_preferences : option style) : option string :=
  match style_preferences with
  | Some d => let v := lookup key d "" in if truthy v then Some v else None
  | None => None
  end.

Definition _create_video_description_from_insights (user_query : string)
  (ci : combined_insights) (generator_type : string)
  (style_preferences : option style) : string :=
  let description_parts :=
    ["Create a " ++ upper generator_type ++ " video based on the user request: '"
       ++ user_query ++ "'"]
    +++ (match combined_themes ci with
         | [] => []
         | l => ["Incorporate these key themes from successful ads: "
                   ++ join ", " (firstn 5 l)]
         end)
    +++ (match visual_patterns ci with
         | [] => []
         | l => ["Use these visual elements: " ++ join ", " (firstn 5 l)]
         end)
    +++ (match combined_strategies ci with
         | [] => []
         | l => ["Apply these messaging strategies: " ++ join ", " (firstn 3 l)]
         end)
    +++ ["Optimize for " ++ upper generator_type ++ " video generation"]
    +++ ["Ensure high visual quality and engaging content"]
    +++ (match style_get "mood" style_preferences with
         | Some mood => ["Maintain a " ++ mood ++ " mood throughout"]
         | None => []
         end)
    +++ (match style_get "tone" style_preferences with
         | Some tone => ["Use a " ++ tone ++ " tone"]
         | None => []
         end) in
  join " | " description_parts.

Definition _create_video_variations (user_query : string) (ci : combined_insights)
  (generator_type : string) (style_preferences : option style) : list string :=
  let variations := [] in
  let emotional_parts :=
    ["Create an emotionally engaging " ++ upper generator_type ++ " video for: '"
       ++ user_query ++ "'";
     "Focus on emotional connection and storytelling";
     "Use warm colors and intimate camera angles"]
    +++ (match combined_themes ci with
         | [] => []
         | l => ["Emphasize themes: " ++ join ", " (firstn 3 l)]
         end) in
  let variations := variations +++ [join " | " emotional_parts] in
  let technical_parts :=
    ["Create a technically impressive " ++ upper generator_type ++ " video for: '"
       ++ user_query ++ "'";
     "Focus on product features and technical specifications";
     "Use clean, professional visuals and clear messaging"]
    +++ (match visual_patterns ci with
         | [] => []
         | l => ["Apply visual patterns: " ++ join ", " (firstn 3 l)]
         end) in
  let variations := variations +++ [join " | " technical_parts] in
  let competitive_parts :=
    ["Create a competitive " ++ upper generator_type ++ " video for: '"
       ++ user_query ++ "'";
     "Highlight unique selling points and competitive advantages";
     "Use bold visuals and confident messaging"]
    +++ (match combined_strategies ci with
         | [] => []
         | l => ["Apply strategies: " ++ join ", " (firstn 3 l)]
         end) in
  let variations := variations +++ [join " | " competitive_parts] in
  variations.

Definition _create_recommendations_from_insights (ci : combined_insights)
  (generator_type : string) : recommendations :=
  {| content_recommendations :=
       (match combined_themes ci with
        | [] => []
        | l => ["Focus on these successful themes: " ++ join ", " (firstn 5 l)]
        end)
       +++ (match combined_strategies ci with
            | [] => []
            | l => ["Use these messaging approaches: " ++ join ", " (firstn 3 l)]
            end);
     visual_recommendations :=
       (match visual_patterns ci with
        | [] => []
        | l => ["Incorporate these visual elements: " ++ join ", " (firstn 5 l)]
        end);
     technical_recommendations :=
       ["Optimize for " ++ upper generator_type; "Ensure high production quality"];
     optimization_recommendations :=
       ["Test different variations"; "Monitor engagement metrics"] |}.

(** A value of the specification dictionary: a text or a number. *)
Inductive spec_value : Type :=
| SText (s : string)
| SInt (n : Z).

(** [_create_technical_specifications]: the base table and the block of the
    generator; [combined] never carries [common_duration],
    [common_aspect_ratio] or [common_style], so the three overrides are not
    taken. *)
Definition _create_technical_specifications (generator_type : string)
  (ci : combined_insights) : list (string * spec_value) :=
  let specs :=
    [("resolution", SText "1080p"); ("aspect_ratio", SText "16:9"); ("fps", SInt 30);
     ("duration", SText "30s"); ("format", SText "mp4"); ("quality", SText "high")] in
  let block (model style motion lighting : string) :=
    [("model", SText model); ("style", SText style); ("motion", SText motion);
     ("lighting", SText lighting)] in
  if String.eqb (lower generator_type) "veo" then
    specs +++ block "veo-2" "cinematic" "smooth" "natural"
  else if String.eqb (lower generator_type) "runway" then
    specs +++ block "gen-3" "realistic" "dynamic" "dramatic"
  else if String.eqb (lower generator_type) "pika" then
    specs +++ block "pika-1.0" "artistic" "fluid" "creative"
  else if String.eqb (lower generator_type) "stable_video" then
    specs +++ block "svd" "stable" "controlled" "balanced"
  else if String.eqb (lower generator_type) "sora" then
    specs +++ block "sora-1.0" "photorealistic" "natural" "realistic"
  else specs.

Record insights_result : Type := {
  i_success : bool;
  i_message : string;
  i_video_description : string;
  i_variations : option (list string);
  i_recommendations : option recommendations;
  i_technical_specifications : option (list (string * spec_value));
  i_generated_at : option Z;
  i_generator_type : option string;
  insights_analyzed : option Z;
  i_error : option string
}.

Definition generate_video_description_from_insights (stamp : Z) (user_query : string)
  (video_insights : list video_insight) (generator_type : string)
  (style_preferences : option style) : insights_result :=
  match truthy user_query, video_insights with
  | true, _ :: _ =>
      let generator_type :=
        if negb (mem (lower generator_type) supported_generators)
        then "veo" else generator_type in
      let combined_insights := _extract_combined_insights video_insights in
      let video_description :=
        _create_video_description_from_insights user_query combined_insights
          generator_type style_preferences in
      let variations :=
        _create_video_variations user_query combined_insights generator_type
          style_preferences in
      let recommendations :=
        _create_recommendations_from_insights combined_insights generator_type in
      let technical_specs :=
        _create_technical_specifications generator_type combined_insights in
      {| i_success := true;
         i_message := "Successfully generated video description for "
                      ++ upper generator_type ++ " based on "
                      ++ Py.str_of_int (llen video_insights) ++ " video insights";
         i_video_description := video_description;
         i_variations := Some variations;
         i_recommendations := Some recommendations;
         i_technical_specifications := Some technical_specs;
         i_generated_at := Some stamp;
         i_generator_type := Some (lower generator_type);
         insights_analyzed := Some (llen video_insights);
         i_error := None |}
  | _, _ =>
      {| i_success := false;
         i_message := "User query and video insights are required";
         i_video_description := "";
         i_variations := None;
         i_recommendations := None;
         i_technical_specifications := None;
         i_generated_at := None;
         i_generator_type := None;
         insights_analyzed := None;
         i_error := Some "Missing required parameters" |}
  end.

End InsightPath.

End Generator.

(** *** [api_server.py]: the competitor-insight script compiler *)

Module ApiServer.

Import Py.

(** The value under the key [insights] of a video insight: a dictionary, read
    through its key [raw_analysis] (the empty text when absent), or any other
    value, read through [str(value)] and its truth value. *)
Inductive insights_data : Type :=
| InsightsDict (raw_analysis : string)
| InsightsOther (as_text : string) (truth : bool).

(** A video insight: [insights = None] and [page_name = None] are absent
    keys. *)
Record insight : Type := {
  insights : option insights_data;
  page_name : option string
}.

(** The webpage brief as the compiler reads it: the key [success], the text
    under [analysis] (the empty text when absent) and the page title under
    [webpage_data] ([None] when absent or [None]). *)
Record webpage_analysis : Type := {
  wa_success : bool;
  analysis : string;
  title : option string
}.

(** [s * n]. *)
Fixpoint times (s : string) (n : nat) : string :=
  match n with
  | O => EmptyString
  | S n' => s ++ times s n'
  end.

(** [text.split(header)[1].split('\n\n')[0].strip()]. *)
Definition section_after (header text : string) : string :=
  strip (nth 0 (split (NL ++ NL) (nth 1 (split header text) "")) "").

(** A competitor analysis: the brand and the raw analysis text. *)
Definition competitor : Type := (string * string)%type.

Definition raw_analysis_of (i : insight) : string :=
  match insights i with
  | Some (InsightsDict raw) => raw
  | Some (InsightsOther text truth) => if truth then text else ""
  | None => ""
  end.

Fixpoint collect_competitors (insights : list insight) : list competitor :=
  match insights with
  | [] => []
  | i :: rest =>
      let raw_analysis := raw_analysis_of i in
      if truthy raw_analysis
      then (match page_name i with Some b => b | None => "Unknown" end, raw_analysis)
           :: collect_competitors rest
      else collect_competitors rest
  end.

(** The lines of an analysis that mention an opening and are longer than 30
    characters, cleaned of list markers. *)
Definition opening_lines (analysis : string) : list string :=
  let analysis_lower := lower analysis in
  if str_in "opening" analysis_lower || str_in "start" analysis_lower then
    map (fun line => strip_chars "- " (replace "*" "" (strip line)))
        (filter (fun line =>
                   (str_in "opening" (lower line) || str_in "start" (lower line))
                   && (30 <? len (strip line)))
                (split NL analysis))
  else [].

Definition techniques_of (analysis : string) : list string :=
  let analysis_lower := lower analysis in
  (if str_in "split screen" analysis_lower || str_in "split-screen" analysis_lower
   then ["split-screen composition"] else [])
  +++ (if str_in "close-up" analysis_lower || str_in "close up" analysis_lower
       then ["close-up product shots"] else [])
  +++ (if str_in "before/after" analysis_lower || str_in "before and after" analysis_lower
       then ["before/after comparison"] else []).

Definition rule80 : string := times "=" 80 ++ NL.
Definition rule78 : string := times "━" 78 ++ NL.

(** The five scene headers. *)
Definition scene1 : string := "SCENE 1: OPENING (0-3 seconds)".
Definition scene2 : string := "SCENE 2: PROBLEM/HOOK (3-5 seconds)".
Definition scene3 : string := "SCENE 3: SOLUTION/PRODUCT SHOWCASE (5-15 seconds)".
Definition scene4 : string := "SCENE 4: BENEFITS & SOCIAL PROOF (15-20 seconds)".
Definition scene5 : string := "SCENE 5: CALL-TO-ACTION (20-25 seconds)".

Fixpoint competitor_lines (i : Z) (cs : list competitor) : list string :=
  match cs with
  | [] => []
  | (brand, analysis) :: rest =>
      (NL ++ "Competitor " ++ Py.str_of_int i ++ " (" ++ brand ++ "):" ++ NL)
      :: ("  Applied techniques: " ++ strip (take 300 analysis) ++ "..." ++ NL)
      :: competitor_lines (i + 1) rest
  end.

Section Compiler.

(** [set(xs)] iterated: the order in which a set of strings is iterated. *)
Variable list_of_set : list string -> list string.

(** [generate_video_prompt_from_insights].  The text is the concatenation of
    the pieces the code adds to [prompt], in order.  The body of the [try]
    raises on no input of these types, so its handler is not part of the
    function. *)
Definition generate_video_prompt_from_insights (insights : list insight)
  (user_query generator_type : string) (webpage : option webpage_analysis) : string :=
  let analysed :=
    match webpage with
    | Some wa => if wa_success wa then Some wa else None
    | None => None
    end in
  let product_name :=
    match analysed with
    | Some wa =>
        match title wa with
        | Some t => if truthy t then t else "your product"
        | None => "your product"
        end
    | None => "your product"
    end in
  let section header :=
    match analysed with
    | Some wa =>
        if str_in header (analysis wa) then section_after header (analysis wa) else ""
    | None => ""
    end in
  let product_description := section "PRODUCT/SERVICE OVERVIEW" in
  let target_audience_info := section "TARGET AUDIENCE" in
  let brand_tone := section "BRAND IDENTITY" in
  let cta_info := section "CALL-TO-ACTION" in
  let all_competitor_insights := collect_competitors insights in
  let opening_shots := flat_map (fun comp => opening_lines (snd comp)) all_competitor_insights in
  let visual_techniques :=
    flat_map (fun comp => techniques_of (snd comp)) all_competitor_insights in
  let named := truthy product_name && negb (String.eqb product_name "your product") in
  let pieces :=
    ["CREATE A " ++ upper generator_type ++ " VIDEO SCRIPT" ++ NL ++ NL;
     rule80; "WHAT WE'RE ADVERTISING:" ++ NL; rule80 ++ NL]
    +++ (match analysed with
         | Some _ =>
             ["Product/Service: " ++ product_name ++ NL ++ NL]
             +++ (if truthy product_description
                  then [product_description ++ NL ++ NL] else [])
             +++ (if truthy target_audience_info
                  then ["Target Audience:" ++ NL ++ target_audience_info ++ NL ++ NL]
                  else [])
             +++ (if truthy brand_tone
                  then ["Brand Identity:" ++ NL ++ brand_tone ++ NL ++ NL] else [])
         | None => ["Product/Service: " ++ user_query ++ NL ++ NL]
         end)
    +++ [rule80; "STEP-BY-STEP VIDEO SCRIPT:" ++ NL; rule80 ++ NL]
    +++ [scene1 ++ NL; rule78;
         if named then "Visual: Show " ++ product_name ++ " prominently"
         else "Visual: Show the product prominently";
         match opening_shots with
         | shot :: _ => " using technique: " ++ take 150 shot ++ NL
         | [] => " with clean, professional composition" ++ NL
         end;
         if mem "split-screen" visual_techniques
         then "Composition: Split-screen - product on one side, benefit/result on other" ++ NL
         else "Composition: Center-framed, immediate visual impact" ++ NL;
         NL]
    +++ [scene2 ++ NL; rule78;
         if truthy target_audience_info
         then "Visual: Show scenario that resonates with target audience: "
              ++ take 200 target_audience_info ++ NL
         else "Visual: Show relatable problem scenario" ++ NL;
         "Text Overlay: Problem statement or attention-grabbing question" ++ NL;
         NL]
    +++ [scene3 ++ NL; rule78]
    +++ (if truthy product_description
         then ["Visual: Demonstrate " ++ product_name ++ " in action" ++ NL;
               "Show: " ++ take 300 product_description ++ NL]
         else ["Visual: Demonstrate product solving the problem" ++ NL])
    +++ (if mem "close-up" visual_techniques
         then ["Include: Close-up shots of key features and UI/interface" ++ NL] else [])
    +++ (if mem "before/after" visual_techniques
         then ["Show: Before/after comparison demonstrating transformation" ++ NL] else [])
    +++ ["Pacing: Quick cuts every 2-3 seconds to maintain attention" ++ NL; NL]
    +++ [scene4 ++ NL; rule78;
         "Visual: Show " ++ product_name ++ " delivering results" ++ NL;
         "Text Overlays: Key benefits, statistics, or user testimonials" ++ NL]
    +++ (if truthy brand_tone then ["Tone: " ++ take 200 brand_tone ++ NL] else [])
    +++ [NL]
    +++ [scene5 ++ NL; rule78;
         if truthy cta_info then "Action: " ++ take 200 cta_info ++ NL
         else "Action: Clear call-to-action (" ++ DQ ++ "Get Started" ++ DQ ++ ", "
              ++ DQ ++ "Download Now" ++ DQ ++ ", etc.)" ++ NL;
         "Visual: Product logo/branding with CTA button overlay" ++ NL;
         "Urgency: Add time-limited offer or special incentive if applicable" ++ NL;
         NL]
    +++ [rule80; "TECHNICAL SPECIFICATIONS:" ++ NL; rule80 ++ NL;
         "Based on competitor analysis:" ++ NL]
    +++ competitor_lines 1 (firstn 3 all_competitor_insights)
    +++ [NL ++ rule80; "FINAL VIDEO CONCEPT:" ++ NL; rule80 ++ NL]
    +++ [if named
         then "Create a " ++ upper generator_type ++ " video advertising "
              ++ product_name ++ " that:" ++ NL ++ NL
         else "Create a " ++ upper generator_type ++ " video that:" ++ NL ++ NL;
         "1. Opens with immediate visual impact showing "
         ++ (if negb (String.eqb product_name "your product")
             then product_name else "the product") ++ NL;
         "2. Demonstrates the product solving a real problem" ++ NL;
         "3. Uses proven techniques from successful competitor videos:" ++ NL]
    +++ (match visual_techniques with
         | [] => []
         | _ => map (fun tech => "   - " ++ tech ++ NL)
                    (list_of_set (firstn 3 visual_techniques))
         end)
    +++ ["4. Ends with a strong, clear call-to-action" ++ NL;
         "5. Duration: 20-30 seconds, fast-paced (2-3 second scene changes)" ++ NL]
    +++ (match analysed with
         | Some _ =>
             [NL ++ "✓ This script is specifically tailored for YOUR product: "
                ++ product_name ++ NL;
              "✓ Incorporates proven strategies from "
                ++ Py.str_of_int (llen all_competitor_insights)
                ++ " competitor videos" ++ NL]
         | None => []
         end) in
  String.concat "" pieces.

End Compiler.

End ApiServer.

(** *** [src/services/trend_analysis_service.py]: messaging, formats, advice
    and reasoning *)

Module TrendService.

Import Py.

(** [xs[0]]: the first element, or [IndexError]. *)
Definition item0 {A} (xs : list A) : result A :=
  match xs with
  | x :: _ => Ok x
  | [] => Raise "list index out of range"
  end.

(** [sum(xs)] for integers and [sum(xs) / len(xs)], the binary64 quotient of
    two integers. *)
Definition sum_of (xs : list Z) : Z := fold_left Z.add xs 0.

Definition mean (xs : list Z) : float :=
  Trend.float_div (sum_of xs) (llen xs).

(** [all_text] of the messaging analysis, of the recommendations and of the
    reasoning: [[ad.get('body', '') for ad in ads_data if ad.get('body')]],
    the list that [_analyze_content_trends] builds with a loop. *)
Definition all_text (ads_data : list Trend.ad) : list string := Trend.bodies ads_data.

Definition emotional_keywords : list (string * list string) :=
  [("positive", ["amazing"; "awesome"; "fantastic"; "great"; "wonderful"; "excellent";
                 "perfect"; "love"; "best"; "incredible"]);
   ("urgent", ["hurry"; "limited"; "expires"; "act now"; "don't miss"; "last chance";
               "quickly"; "immediately"]);
   ("exclusive", ["exclusive"; "limited"; "special"; "unique"; "only"; "rare";
                  "premium"; "vip"]);
   ("social", ["share"; "follow"; "join"; "community"; "friends"; "family";
               "together"; "connect"])].

Definition _analyze_emotional_tone (texts : list string) : Counter.t :=
  Trend.count_keyword_hits emotional_keywords texts.

Definition cta_patterns : list string :=
  ["buy now"; "shop now"; "get it"; "order now"; "click here"; "learn more";
   "sign up"; "join now"; "start now"; "try now"; "download"; "subscribe";
   "book now"; "reserve"; "claim"; "grab"; "snag"; "score"].

(** The loop of [_analyze_cta_patterns]: a text counts once for every pattern
    it contains. *)
Definition count_ctas (texts : list string) : Counter.t :=
  fold_left (fun cta_counts text =>
    let text_lower := lower text in
    fold_left (fun counts cta =>
                 if str_in cta text_lower then Counter.incr cta counts else counts)
              cta_patterns cta_counts)
    texts [].

Definition _analyze_cta_patterns (texts : list string) : Counter.t :=
  Counter.most_common 10 (count_ctas texts).

Definition value_keywords : list (string * list string) :=
  [("price", ["free"; "cheap"; "affordable"; "budget"; "low cost"; "discount"; "save"]);
   ("quality", ["premium"; "quality"; "best"; "top"; "excellent"; "superior"; "high-end"]);
   ("convenience", ["easy"; "simple"; "quick"; "fast"; "convenient"; "effortless"]);
   ("results", ["results"; "outcomes"; "benefits"; "improve"; "enhance"; "boost"]);
   ("guarantee", ["guarantee"; "warranty"; "promise"; "assurance"; "risk-free"])].

Definition _analyze_value_propositions (texts : list string) : Counter.t :=
  Trend.count_keyword_hits value_keywords texts.

Definition _identify_messaging_strategies (texts : list string) : list string :=
  let all_text := lower (join " " texts) in
  (if any_in ["story"; "journey"; "experience"] all_text
   then ["storytelling"] else [])
  +++ (if any_in ["problem"; "solution"; "fix"; "solve"] all_text
       then ["problem-solution"] else [])
  +++ (if any_in ["before"; "after"; "transformation"; "change"] all_text
       then ["before-after"] else [])
  +++ (if any_in ["testimonial"; "review"; "customer"; "user"] all_text
       then ["social_proof"] else [])
  +++ (if any_in ["exclusive"; "limited"; "special"; "only"] all_text
       then ["scarcity"] else []).

Record messaging_trends : Type := {
  emotional_tone : Counter.t;
  cta_patterns_of : Counter.t;
  value_propositions : Counter.t;
  messaging_strategies : list string
}.

Definition _analyze_messaging_trends (ads_data : list Trend.ad) : messaging_trends :=
  let all_text := all_text ads_data in
  {| emotional_tone := _analyze_emotional_tone all_text;
     cta_patterns_of := _analyze_cta_patterns all_text;
     value_propositions := _analyze_value_propositions all_text;
     messaging_strategies := _identify_messaging_strategies all_text |}.

Record format_preferences : Type := {
  format_distribution : Counter.t;
  preferred_format : string
}.

Definition _analyze_format_preferences (ads_data : list Trend.ad)
  : result format_preferences :=
  let formats := Trend.media_types ads_data in
  preferred <-
    (match formats with
     | [] => Ok "Unknown"
     | _ => top <- item0 (Counter.most_common 1 formats) ;; Ok (fst top)
     end) ;;
  Ok {| format_distribution := formats; preferred_format := preferred |}.

(** [_analyze_text_length_distribution]: a dictionary, empty or with the three
    categories in this order. *)
Definition _analyze_text_length_distribution (ads_data : list Trend.ad)
  : list (string * Z) :=
  let lengths := map len (Trend.bodies ads_data) in
  match lengths with
  | [] => []
  | _ =>
      [("short (0-50)", llen (filter (fun l => l <=? 50) lengths));
       ("medium (51-150)", llen (filter (fun l => (51 <=? l) && (l <=? 150)) lengths));
       ("long (151+)", llen (filter (fun l => 150 <? l) lengths))]
  end.

Definition _generate_content_recommendations (ads_data : list Trend.ad) : list string :=
  let text_lengths := map len (Trend.bodies ads_data) in
  let recommendations :=
    match text_lengths with
    | [] => []
    | _ =>
        let avg_length := mean text_lengths in
        if PrimFloat.ltb avg_length 50 then
          ["Consider longer, more descriptive content for better engagement"]
        else if PrimFloat.ltb 200 avg_length then
          ["Consider shorter, more concise messaging for better readability"]
        else []
    end in
  let all_text := join " " (Trend.bodies ads_data) in
  let recommendations :=
    recommendations
    +++ (if str_in "free" (lower all_text)
         then ["'Free' is a popular keyword - consider incorporating free offers"]
         else []) in
  let recommendations :=
    recommendations
    +++ (if str_in "new" (lower all_text)
         then ["'New' products/features are trending - highlight novelty"]
         else []) in
  firstn 5 recommendations.

Definition _generate_visual_recommendations (ads_data : list Trend.ad) : list string :=
  let media_types := Trend.media_types ads_data in
  (if Counter.get "IMAGE" media_types <? Counter.get "VIDEO" media_types
   then ["Video content is trending - prioritize video creation"]
   else ["Image content is popular - ensure high-quality visuals"])
  +++ ["Focus on eye-catching visuals that align with brand identity"]
  +++ ["Consider A/B testing different visual styles"].

Definition _generate_format_recommendations (ads_data : list Trend.ad) : list string :=
  let formats := Trend.media_types ads_data in
  (if 0 <? Counter.get "VIDEO" formats
   then ["Video ads are effective - create engaging video content"] else [])
  +++ (if 0 <? Counter.get "IMAGE" formats
       then ["Image ads work well - focus on compelling visuals"] else [])
  +++ ["Test different ad formats to find what works best"]
  +++ ["Consider carousel ads for showcasing multiple products"].

Definition _generate_messaging_recommendations (ads_data : list Trend.ad) : list string :=
  let all_text := lower (join " " (Trend.bodies ads_data)) in
  (if str_in "urgent" all_text || str_in "limited" all_text
   then ["Urgency messaging is effective - create time-sensitive offers"] else [])
  +++ (if str_in "free" all_text
       then ["Free offers are popular - consider free trials or samples"] else [])
  +++ ["Focus on clear value propositions"]
  +++ ["Use emotional triggers that resonate with your audience"]
  +++ ["Include strong call-to-action statements"].

Record recommendations : Type := {
  content_recommendations : list string;
  visual_recommendations : list string;
  format_recommendations : list string;
  messaging_recommendations : list string
}.

Definition _generate_recommendations (ads_data : list Trend.ad) : recommendations :=
  {| content_recommendations := _generate_content_recommendations ads_data;
     visual_recommendations := _generate_visual_recommendations ads_data;
     format_recommendations := _generate_format_recommendations ads_data;
     messaging_recommendations := _generate_messaging_recommendations ads_data |}.

(** [_generate_key_findings]; the two lists are the image ads and the video
    ads of the caller. *)
Definition _generate_key_findings (ads_data image_ads video_ads : list Trend.ad)
  : result (list string) :=
  let findings :=
    if llen image_ads <? llen video_ads then
      ["Відео контент домінує (" ++ str_of_int (llen video_ads) ++ " відео vs "
         ++ str_of_int (llen image_ads)
         ++ " зображень) - це вказує на тренд до динамічного контенту"]
    else if llen video_ads <? llen image_ads then
      ["Статичний контент популярніший (" ++ str_of_int (llen image_ads)
         ++ " зображень vs " ++ str_of_int (llen video_ads)
         ++ " відео) - можливо через простоту створення"]
    else [] in
  let all_text := all_text ads_data in
  let findings :=
    findings
    +++ (match all_text with
         | [] => []
         | _ =>
             let avg_length := mean (map len all_text) in
             if PrimFloat.ltb avg_length 50 then
               ["Короткі повідомлення домінують - аудиторія віддає перевагу лаконічному контенту"]
             else if PrimFloat.ltb 150 avg_length then
               ["Довгі описи популярні - аудиторія готова читати детальну інформацію"]
             else []
         end) in
  let brands := Trend.brands_of ads_data in
  findings <-
    (match brands with
     | [] => Ok findings
     | _ =>
         top_brand <- item0 (Counter.most_common 1 brands) ;;
         Ok (findings
             +++ ["Найактивніший бренд: " ++ fst top_brand ++ " ("
                    ++ str_of_int (snd top_brand) ++ " оголошень)"])
     end) ;;
  let all_text_combined := lower (join " " all_text) in
  let findings :=
    findings
    +++ (if str_in "free" all_text_combined
         then ["Ключове слово 'безкоштовно' часто використовується - безкоштовні пропозиції ефективні"]
         else []) in
  let findings :=
    findings
    +++ (if str_in "new" all_text_combined
         then ["Акцент на новизні продуктів - інновації привабливі для аудиторії"]
         else []) in
  Ok (firstn 5 findings).

Record competitive_analysis : Type := {
  total_competitors : Z;
  top_competitors : Counter.t;
  market_concentration : string;
  competitive_intensity : string
}.

(** [_generate_competitive_analysis]; [pow2] is [x ** 2] on floats. *)
Definition _generate_competitive_analysis (pow2 : float -> float)
  (ads_data : list Trend.ad) : competitive_analysis :=
  let brands := Trend.brands_of ads_data in
  {| total_competitors := llen brands;
     top_competitors := Counter.most_common 5 brands;
     market_concentration :=
       Trend._calculate_market_concentration (Trend.binary64 pow2) brands;
     competitive_intensity :=
       if 10 <? llen brands then "High"
       else if 5 <? llen brands then "Medium" else "Low" |}.

Definition _generate_recommendation_rationale (ads_data : list Trend.ad) : list string :=
  let video_ads := filter (fun a => Trend.field_is (Trend.media_type a) "VIDEO") ads_data in
  let image_ads := filter (fun a => Trend.field_is (Trend.media_type a) "IMAGE") ads_data in
  let rationale :=
    if llen image_ads <? llen video_ads then
      ["Відео контент переважає серед конкурентів - рекомендуємо інвестувати в відео для конкурентоспроможності"]
    else
      ["Статичний контент популярний - можна досягти успіху з якісними зображеннями"] in
  let all_text := all_text ads_data in
  let rationale :=
    rationale
    +++ (match all_text with
         | [] => []
         | _ =>
             let avg_length := mean (map len all_text) in
             if PrimFloat.ltb avg_length 100 then
               ["Короткі повідомлення ефективні - аудиторія має обмежений час на читання"]
             else
               ["Детальні описи працюють - аудиторія цінує інформативність"]
         end) in
  let all_text_combined := lower (join " " all_text) in
  rationale
  +++ (if str_in "urgent" all_text_combined || str_in "limited" all_text_combined
       then ["Терміновість працює - створюйте обмежені за часом пропозиції"]
       else []).

End TrendService.

(** *** [src/services/video_generator_service.py]: batch generation *)

Module GeneratorBatch.

Import Py.

Record batch_description : Type := {
  query : string;
  description : string;
  description_success : bool
}.

Record batch_info : Type := {
  total_queries : Z;
  successful : Z;
  failed : Z
}.

Record batch_result : Type := {
  success : bool;
  message : string;
  descriptions : list batch_description;
  batch_info_of : batch_info;
  error : option string
}.

(** [generate_batch_descriptions].  Every query is described with the default
    style preferences; [stamp] is the clock of the calls.  The body of the
    [try] raises on no input of these types, so its handler is not part of
    the function. *)
Definition generate_batch_descriptions (stamp : Z) (queries : list string)
  (trends_data : Generator.trends_data) (generator_type : string) : batch_result :=
  let descriptions :=
    map (fun query =>
           let result :=
             Generator.generate_video_description stamp query trends_data
               generator_type None in
           {| query := query;
              description := Generator.video_description result;
              description_success := Generator.success result |})
        queries in
  let successful_count := llen (filter description_success descriptions) in
  {| success := true;
     message := "Generated " ++ str_of_int successful_count ++ "/"
                ++ str_of_int (llen queries) ++ " video descriptions";
     descriptions := descriptions;
     batch_info_of :=
       {| total_queries := llen queries;
          successful := successful_count;
          failed := llen queries - successful_count |};
     error := None |}.

End GeneratorBatch.

(** *** [api_server.py]: the endpoints over ads data *)

Module Endpoints.

Import Py.

(** What an endpoint does: it returns a body, answered with status 200, or
    raises an [HTTPException]. *)
Inductive response (A : Type) : Type :=
| Return (body : A)
| HTTPException (status_code : Z) (detail : string).

Arguments Return {A} body.
Arguments HTTPException {A} status_code detail.

Record describe_metadata : Type := {
  ads_analyzed : Z;
  metadata_generator_type : string;
  metadata_user_query : string;
  analysis_timestamp : option Z
}.

Record describe_body : Type := {
  success : bool;
  message : string;
  video_description : string;
  trend_analysis : option Trend.trends;
  recommendations : option Generator.recommendations;
  technical_specifications : option Generator.technical_specs;
  analysis_metadata : describe_metadata
}.

Section Server.

(** An entry of [request.ads_data].  The requests are validated as
    [List[Dict[str, Any]]]: an ad is any dictionary, whatever the types of
    its values. *)
Variable ad : Type.

(** The trend analysis as the endpoints call it.  With all of its body
    under [try] and the handler [except Exception], it returns one of its
    three envelopes for every list of dictionaries; which one is left open
    here, a value of an unexpected type ([null] under [body], say) failing
    it in ways of its own. *)
Variable analyze_trends_from_ads : list ad -> string -> Trend.envelope.

(** The dictionary under [trends] of the envelope returned for these ads, as
    far as the generator reads it. *)
Variable trends_read : list ad -> Generator.trends_payload.

(** [str(e)] for an [HTTPException] of the web framework, given its status
    code and its detail. *)
Variable str_of_http_exception : Z -> string -> string.

(** [POST /api/v1/trends/analyze].  The [HTTPException] raised inside the
    [try] is an [Exception], and the only handler is [except Exception]. *)
Definition analyze_trends (ads_data : list ad) (analysis_type : string)
  : response Trend.envelope :=
  let attempt :=
    let result := analyze_trends_from_ads ads_data analysis_type in
    if negb (Trend.success result)
    then HTTPException 400 (Trend.message result)
    else Return result in
  match attempt with
  | Return body => Return body
  | HTTPException status_code detail =>
      HTTPException 500
        ("Trend analysis failed: " ++ str_of_http_exception status_code detail)
  end.

(** [POST /api/v1/video/describe].  [generated] is the clock of the
    generator.  Here the handler [except HTTPException: raise] comes first.
    The envelope of the analysis is a dictionary that is not empty, and the
    generator, whose body is under [try] as well, reads it through its key
    [trends]. *)
Definition generate_video_description_from_ads (generated : Z)
  (ads_data : list ad) (user_query generator_type : string)
  (style_preferences : option Generator.style) : response describe_body :=
  let trend_analysis := analyze_trends_from_ads ads_data "comprehensive" in
  if negb (Trend.success trend_analysis) then
    HTTPException 400 (Trend.message trend_analysis)
  else
    let video_description_result :=
      Generator.generate_video_description generated user_query
        (Some (trends_read ads_data)) (lower generator_type) style_preferences in
    if negb (Generator.success video_description_result) then
      HTTPException 400 (Generator.message video_description_result)
    else
      Return
        {| success := true;
           message := "Successfully generated video description for "
                      ++ upper generator_type;
           video_description := Generator.video_description video_description_result;
           trend_analysis := Trend.trends_of trend_analysis;
           recommendations := Generator.recommendations_of video_description_result;
           technical_specifications :=
             Generator.technical_specifications video_description_result;
           analysis_metadata :=
             {| ads_analyzed := llen ads_data;
                metadata_generator_type := lower generator_type;
                metadata_user_query := user_query;
                analysis_timestamp :=
                  match Trend.metadata trend_analysis with
                  | Some m => Some (Trend.analyzed_at m)
                  | None => None
                  end |} |}.

End Server.

Arguments analyze_trends {ad} _ _ _ _.
Arguments generate_video_description_from_ads {ad} _ _ _ _ _ _ _.

(** The trends the generator reads when the ads have the types of the record
    [Trend.ad].  The keys that the record of the analysis leaves out hold the
    messaging trends and the format distribution of the ads; a missing
    [image_count] or [video_count] reads as zero, and the empty dictionary of
    a failure envelope reads as its defaults. *)
Definition payload_of (ads_data : list Trend.ad) (trends : option Trend.trends)
  : Generator.trends_payload :=
  match trends with
  | Some computed =>
      let content_trends := Trend.content_trends_of computed in
      let messaging_trends := TrendService._analyze_messaging_trends ads_data in
      {| Generator.word_frequency := Trend.word_frequency content_trends;
         Generator.phrase_patterns := Trend.phrase_patterns content_trends;
         Generator.common_themes := Trend.common_themes content_trends;
         Generator.trend_image_count :=
           match Trend.image_count computed with Some n => n | None => 0 end;
         Generator.trend_video_count :=
           match Trend.video_count computed with Some n => n | None => 0 end;
         Generator.trend_emotional_tone := TrendService.emotional_tone messaging_trends;
         Generator.trend_cta_patterns := TrendService.cta_patterns_of messaging_trends;
         Generator.trend_value_propositions :=
           TrendService.value_propositions messaging_trends;
         Generator.trend_messaging_strategies :=
           TrendService.messaging_strategies messaging_trends;
         Generator.trend_format_distribution := Trend.media_types ads_data |}
  | None =>
      {| Generator.word_frequency := [];
         Generator.phrase_patterns := [];
         Generator.common_themes := [];
         Generator.trend_image_count := 0;
         Generator.trend_video_count := 0;
         Generator.trend_emotional_tone := [];
         Generator.trend_cta_patterns := [];
         Generator.trend_value_propositions := [];
         Generator.trend_messaging_strategies := [];
         Generator.trend_format_distribution := [] |}
  end.

End Endpoints.

(** *** [src/services/gemini_service.py]: the API key *)

Module Gemini.

Import Py.

(** The value that follows the first [--gemini-api-key] of the command line:
    [None] without the flag, [Some None] when the flag is the last
    argument. *)
Fixpoint after_flag (argv : list string) : option (option string) :=
  match argv with
  | [] => None
  | arg :: rest =>
      if String.eqb arg "--gemini-api-key" then Some (hd_error rest)
      else after_flag rest
  end.

Definition missing_key : string :=
  "Gemini API key must be provided via '--gemini-api-key' command line argument or 'GEMINI_API_KEY' environment variable".

(** [get_gemini_api_key].  The global [GEMINI_API_KEY] is threaded through:
    the function takes its value and returns the new one.  [argv] is
    [sys.argv] and [env] the environment variable [GEMINI_API_KEY]. *)
Definition get_gemini_api_key (argv : list string) (env : option string)
  (GEMINI_API_KEY : option string) : result string * option string :=
  match GEMINI_API_KEY with
  | Some key => (Ok key, GEMINI_API_KEY)
  | None =>
      match after_flag argv with
      | Some (Some value) => (Ok value, Some value)
      | Some None =>
          (Raise "--gemini-api-key argument provided but no key value followed it",
           None)
      | None =>
          match env with
          | Some value =>
              if truthy value then (Ok value, Some value) else (Raise missing_key, None)
          | None => (Raise missing_key, None)
          end
      end
  end.

End Gemini.

(** *** Vocabulary of the specification *)

Module Spec.

(** Every character of a text satisfies [p]. *)
Fixpoint all_chars (p : ascii -> bool) (s : string) : bool :=
  match s with
  | EmptyString => true
  | String c t => p c && all_chars p t
  end.


(** The order of [most_common]: a count that is not smaller comes first. *)
Definition desc (a b : string * Z) : Prop := snd b <= snd a.

(** The number of ads whose [media_type] is exactly [kind]. *)
Fixpoint count_media (kind : string) (ads_data : list Trend.ad) : Z :=
  match ads_data with
  | [] => 0
  | a :: rest =>
      (match Trend.media_type a with
       | Some v => if string_dec v kind then 1 else 0
       | None => 0
       end) + count_media kind rest
  end.

(** The dates are all timezone-aware or all naive. *)
Definition zones_agree (ds : list Datetime.datetime) : Prop :=
  forallb Datetime.is_aware ds = true
  \/ forallb (fun d => negb (Datetime.is_aware d)) ds = true.

(** The character before the position reached after [before], at a position
    preceded by [prev]. *)
Fixpoint last_char (prev : option ascii) (before : string) : option ascii :=
  match before with
  | EmptyString => prev
  | String c t => last_char (Some c) t
  end.

End Spec.

(** *** Sample inputs *)

Module Samples.

Definition ad_of (brand kind text date : string) : Trend.ad :=
  {| Trend.id := None;
     Trend.page_name := Some brand;
     Trend.media_type := Some kind;
     Trend.media_url := None;
     Trend.body := Some text;
     Trend.start_date := Some date;
     Trend.languages := [];
     Trend.publisher_platforms := [] |}.

(** The clock: noon of the first of March 2024. *)
Definition clock : Z :=
  match Datetime.fromisoformat_seconds "2024-03-01T12:00:00" with
  | Some d => Datetime.wall d
  | None => 0
  end.

(** Three ads, two videos and an image, with naive start dates. *)
Definition three_ads : list Trend.ad :=
  [ad_of "Acme" "VIDEO" "Try it free today" "2024-02-20T08:00:00";
   ad_of "Acme" "VIDEO" "Free shipping on every order" "2024-01-05T09:30:00";
   ad_of "Bolt" "IMAGE" "Quality you can trust" "2023-12-24T18:00:00"].

(** Brand counters: one brand with all 10 ads, ten brands with one ad each,
    and six brands with 1, 1, 3, 3, 4 and 8 ads. *)
Definition one_brand : Counter.t := [("Acme", 10)].

Definition ten_brands : Counter.t :=
  [("A", 1); ("B", 1); ("C", 1); ("D", 1); ("E", 1);
   ("F", 1); ("G", 1); ("H", 1); ("I", 1); ("J", 1)].


(** A square for the samples: the rounded product, which is the value of
    [x ** 2] in CPython 3.11 with glibc 2.36 at every share of the three
    counters above. *)
Definition pow2 (x : float) : float := (x * x)%float.

(** Two ads whose start dates differ in kind: the first ends in [Z] and is
    parsed as a timezone-aware date, the second is naive. *)
Definition mixed_zone_ads : list Trend.ad :=
  [ad_of "Acme" "VIDEO" "Try it free today" "2024-01-01T00:00:00Z";
   ad_of "Bolt" "IMAGE" "Quality you can trust" "2024-01-02T00:00:00"].

(** Three ads, the second with a start date in [Z] form between two naive
    ones. *)
Definition mixed_zone_three_ads : list Trend.ad :=
  [ad_of "Acme" "VIDEO" "Try it free today" "2024-02-20T08:00:00";
   ad_of "Acme" "VIDEO" "Free shipping on every order" "2024-01-05T09:30:00Z";
   ad_of "Bolt" "IMAGE" "Quality you can trust" "2023-12-24T18:00:00"].

(** A trend payload: two of three ads are videos, and the texts carry a
    positive tone. *)
Definition payload : Generator.trends_payload :=
  {| Generator.word_frequency := [("free", 2); ("shipping", 1)];
     Generator.phrase_patterns := [("free shipping", 1)];
     Generator.common_themes := ["quality"];
     Generator.trend_image_count := 1;
     Generator.trend_video_count := 2;
     Generator.trend_emotional_tone := [("positive", 2); ("urgent", 1)];
     Generator.trend_cta_patterns := [("shop now", 1)];
     Generator.trend_value_propositions := [("price", 2)];
     Generator.trend_messaging_strategies := ["scarcity"];
     Generator.trend_format_distribution := [("VIDEO", 2); ("IMAGE", 1)] |}.

(** An iteration order for sets of strings: the order of first occurrence. *)
Definition set_order (xs : list string) : list string := nodup string_dec xs.

(** A video insight of the generator and one of the script compiler. *)
Definition video_insight : Generator.video_insight :=
  {| Generator.insight_page_name := Some "Acme";
     Generator.raw_analysis :=
       "The video opens with a close-up product shot and a clear call to action.";
     Generator.has_video_metadata := true |}.

Definition insight : ApiServer.insight :=
  {| ApiServer.insights :=
       Some (ApiServer.InsightsDict
               "The opening shot is a close-up of the product on a bright background.");
     ApiServer.page_name := Some "Acme" |}.

End Samples.

(** *** Notions used to state the further properties *)

Module Notions.

(** The number of times [k] occurs in a list of keys. *)
Definition occurrences (k : string) (ks : list string) : Z :=
  Py.llen (filter (String.eqb k) ks).



(** The invariant of a counter: distinct keys, and counts that are at least
    one. *)
Definition counted (c : Counter.t) : Prop :=
  NoDup (Counter.keys c) /\ Forall (fun item => 1 <= snd item) c.

(** The format and the brand under which an ad is counted. *)
Definition format_of (a : Trend.ad) : string :=
  Trend.get_or (Trend.media_type a) "UNKNOWN".

Definition brand_of (a : Trend.ad) : string :=
  Trend.get_or (Trend.page_name a) "Unknown".

(** The number of texts that contain [needle], case apart. *)
Definition texts_with (needle : string) (texts : list string) : Z :=
  Py.llen (filter (fun text => Py.str_in needle (Py.lower text)) texts).

(** The number of keywords found in a text, and its sum over the texts. *)
Definition hits (keywords : list string) (text : string) : Z :=
  Py.llen (filter (fun keyword => Py.str_in keyword (Py.lower text)) keywords).

Fixpoint total_hits (keywords : list string) (texts : list string) : Z :=
  match texts with
  | [] => 0
  | text :: rest => hits keywords text + total_hits keywords rest
  end.

(** The hits of the keywords listed under the category [k] of a table. *)
Fixpoint table_hits (table : list (string * list string)) (k : string) (text : string)
  : Z :=
  match table with
  | [] => 0
  | (category, keywords) :: rest =>
      (if String.eqb k category then hits keywords text else 0)
      + table_hits rest k text
  end.

Definition category_hits (table : list (string * list string)) (k : string)
  (texts : list string) : Z :=
  fold_right (fun text acc => table_hits table k text + acc) 0 texts.

(** The messaging strategies and the words that reveal them. *)
Definition strategy_words : list (string * list string) :=
  [("storytelling", ["story"; "journey"; "experience"]);
   ("problem-solution", ["problem"; "solution"; "fix"; "solve"]);
   ("before-after", ["before"; "after"; "transformation"; "change"]);
   ("social_proof", ["testimonial"; "review"; "customer"; "user"]);
   ("scarcity", ["exclusive"; "limited"; "special"; "only"])].

(** A non-empty word without a space. *)
Definition spaceless (w : string) : bool :=
  Py.truthy w && Spec.all_chars (fun c => negb (Ascii.eqb c " ")) w.

(** The characters a URL of the permissive pattern is made of, after its
    scheme: the letters, the digits, the characters from [$] to [_] in the
    ASCII table and the characters [@.&+!*\(),]. *)
Definition url_char (c : ascii) : bool :=
  Webpage.alt_letter c || Webpage.alt_digit c || Webpage.alt_punct c
  || Webpage.alt_sub c.

End Notions.

(** *** Tactics *)

(** [in_pieces] finds a piece in a list built from fixed segments and
    concatenations. *)
Ltac in_pieces :=
  match goal with
  | |- In _ (_ :: _) => first [ left; reflexivity | right; in_pieces ]
  | |- In _ (_ +++ _) =>
      apply in_or_app; first [ left; solve [in_pieces] | right; solve [in_pieces] ]
  end.

(** ** Part II: the properties *)

(** *** Strings and lists *)

Lemma length_app (s t : string) :
  String.length (s ++ t) = (String.length s + String.length t)%nat.
Proof. induction s as [|c s IH]; simpl; [reflexivity | now rewrite IH]. Qed.

Lemma app_assoc_str (s t u : string) : (s ++ t) ++ u = s ++ t ++ u.
Proof. induction s as [|c s IH]; simpl; [reflexivity | now rewrite IH]. Qed.

Lemma prefix_app (s t : string) : String.prefix s (s ++ t) = true.
Proof.
  induction s as [|c s IH]; simpl.
  - destruct t; reflexivity.
  - destruct (Ascii.ascii_dec c c) as [_|n]; [exact IH | now elim n].
Qed.

Lemma str_in_here (s t : string) : Py.str_in s (s ++ t) = true.
Proof.
  destruct s as [|c s]; simpl.
  - destruct t; reflexivity.
  - destruct (Ascii.ascii_dec c c) as [_|n]; [|now elim n].
    now rewrite prefix_app.
Qed.

Lemma str_in_app_r (h s t : string) :
  Py.str_in h t = true -> Py.str_in h (s ++ t) = true.
Proof.
  intros H. induction s as [|c s IH]; simpl; [exact H|].
  rewrite IH. apply orb_true_r.
Qed.

Lemma str_in_concat (h : string) (pieces : list string) (p : string) :
  In p pieces -> Py.str_in h p = true -> Py.str_in h (String.concat "" pieces) = true.
Proof.
  intros Hin Hp. induction pieces as [|q rest IH]; [contradiction|].
  assert (Hq : forall tl, Py.str_in h p = true -> Py.str_in h (p ++ tl) = true).
  { clear. intros tl. revert h. induction p as [|c p IHp]; intros h Hh.
    - destruct h as [|d h]; [now destruct tl | discriminate].
    - simpl in Hh. apply orb_true_iff in Hh. destruct Hh as [Hpre|Hin].
      + (* h is a prefix of c :: p *)
        destruct h as [|d h]; [simpl; reflexivity|].
        simpl in Hpre. destruct (Ascii.ascii_dec d c) as [->|]; [|discriminate].
        simpl. destruct (Ascii.ascii_dec c c) as [_|n]; [|now elim n].
        assert (Hpre' : forall a b, String.prefix a b = true ->
                                    String.prefix a (b ++ tl) = true).
        { clear. induction a as [|x a IHa]; intros b Hb.
          - now destruct (b ++ tl).
          - destruct b as [|y b]; [discriminate|]. simpl in *.
            destruct (Ascii.ascii_dec x y); [now apply IHa | discriminate]. }
        now rewrite (Hpre' _ _ Hpre).
      + simpl. rewrite (IHp _ Hin). apply orb_true_r. }
  destruct Hin as [->|Hin].
  - destruct rest as [|r rest]; simpl; [exact Hp|]. now apply Hq.
  - specialize (IH Hin). destruct rest as [|r rest]; [contradiction|].
    change (String.concat "" (q :: r :: rest)) with (q ++ "" ++ String.concat "" (r :: rest)).
    simpl (""  ++ _). now apply str_in_app_r.
Qed.

(** *** The matcher against the meaning of patterns *)

Section MatcherCorrect.

Import Re.

(** What the matcher returns comes from a match of the pattern followed by a
    success of the continuation. *)
Lemma star_loop_sound {A} (body : option ascii -> string -> cont A -> option A)
  (r : regex) :
  (forall prev s k a, body prev s k = Some a ->
     exists s' p', matches r prev s s' p' /\ k p' s' = Some a) ->
  forall fuel prev s k a,
    star_loop body k fuel prev s = Some a ->
    exists s' p', matches (Star r) prev s s' p' /\ k p' s' = Some a.
Proof.
  intros Hbody fuel. induction fuel as [|fuel IH]; intros prev s k a H; simpl in H.
  - exists s, prev. split; [constructor | exact H].
  - destruct (body prev s _) as [a'|] eqn:Hb.
    + injection H as ->. apply Hbody in Hb. destruct Hb as (s1 & p1 & Hm & Hk).
      destruct (String.length s1 <? String.length s)%nat eqn:Hlt; [|discriminate].
      apply Nat.ltb_lt in Hlt. apply IH in Hk. destruct Hk as (s2 & p2 & Hm2 & Hk2).
      exists s2, p2. split; [|exact Hk2]. eapply M_star_cons; eassumption.
    + exists s, prev. split; [constructor | exact H].
Qed.

Lemma rmatch_sound {A} (r : regex) :
  forall prev s (k : cont A) a,
    rmatch r prev s k = Some a ->
    exists s' p', matches r prev s s' p' /\ k p' s' = Some a.
Proof.
  induction r as [p| |r1 IH1 r2 IH2|r1 IH1 r2 IH2|r IH|]; intros prev s k a H; simpl in H.
  - destruct s as [|c t]; [discriminate|]. destruct (p c) eqn:Hp; [|discriminate].
    exists t, (Some c). split; [now constructor | exact H].
  - exists s, prev. split; [constructor | exact H].
  - apply IH1 in H. destruct H as (s1 & p1 & Hm1 & H).
    apply IH2 in H. destruct H as (s2 & p2 & Hm2 & H).
    exists s2, p2. split; [econstructor; eassumption | exact H].
  - destruct (rmatch r1 prev s k) as [a'|] eqn:H1.
    + injection H as ->. apply IH1 in H1. destruct H1 as (s1 & p1 & Hm & Hk).
      exists s1, p1. split; [now apply M_alt_l | exact Hk].
    + apply IH2 in H. destruct H as (s1 & p1 & Hm & Hk).
      exists s1, p1. split; [now apply M_alt_r | exact Hk].
  - eapply star_loop_sound; [|exact H]. intros; now apply IH.
  - destruct (word_boundary prev s) eqn:Hb; [|discriminate].
    exists s, prev. split; [now constructor | exact H].
Qed.

(** Whenever the pattern has a match after which the continuation succeeds,
    the matcher succeeds. *)
Lemma star_loop_complete {A} (body : option ascii -> string -> cont A -> option A)
  (r : regex) :
  (forall prev s s' p' k a, matches r prev s s' p' -> k p' s' = Some a ->
     exists a', body prev s k = Some a') ->
  forall r0 prev s s' p', matches r0 prev s s' p' -> r0 = Star r ->
  forall fuel k a, (String.length s <= fuel)%nat -> k p' s' = Some a ->
    exists a', star_loop body k fuel prev s = Some a'.
Proof.
  intros Hbody r0 prev s s' p' Hm.
  induction Hm as [| | | | |r' prev s|r' prev s s1 p1 s2 p2 Hm1 _ Hlt Hm2 IH2| ];
    intros Heq fuel k a Hfuel Hk; try discriminate.
  - destruct fuel as [|fuel]; simpl; [eauto|].
    destruct (body prev s _); eauto.
  - injection Heq as ->. destruct fuel as [|fuel]; [lia|]. simpl.
    destruct (IH2 eq_refl fuel k a ltac:(lia) Hk) as (a2 & Ha2).
    destruct (Hbody prev s s1 p1
                (fun prev' s'0 =>
                   if (String.length s'0 <? String.length s)%nat
                   then star_loop body k fuel prev' s'0 else None) a2 Hm1) as (a3 & Ha3).
    + apply Nat.ltb_lt in Hlt. now rewrite Hlt.
    + rewrite Ha3. eauto.
Qed.

Lemma rmatch_complete {A} (r : regex) :
  forall prev s s' p' (k : cont A) a,
    matches r prev s s' p' -> k p' s' = Some a ->
    exists a', rmatch r prev s k = Some a'.
Proof.
  induction r as [p| |r1 IH1 r2 IH2|r1 IH1 r2 IH2|r IH|];
    intros prev s s' p' k a Hm Hk; simpl.
  - inversion Hm as [p0 prev0 c t Hp| | | | | | |]; subst. rewrite Hp. eauto.
  - inversion Hm; subst. eauto.
  - inversion Hm as [| |ra rb prev0 s0 s1 p1 s2 p2 Hm1 Hm2| | | | |]; subst.
    destruct (IH2 _ _ _ _ k a Hm2 Hk) as (a2 & Ha2).
    eapply IH1; eassumption.
  - inversion Hm as [| | |ra rb prev0 s0 s1 p1 Hm1|ra rb prev0 s0 s1 p1 Hm2| | |]; subst.
    + destruct (IH1 _ _ _ _ k a Hm1 Hk) as (a1 & ->). eauto.
    + destruct (rmatch r1 prev s k); [eauto|]. eapply IH2; eassumption.
  - exact (star_loop_complete (rmatch r) r IH (Star r) prev s s' p' Hm eq_refl
             (String.length s) k a (le_n _) Hk).
  - inversion Hm as [| | | | | | |prev0 s0 Hb]; subst. rewrite Hb. eauto.
Qed.

(** The matched text: a match consumes a prefix of the text. *)
Lemma matches_split r prev s s' p' :
  matches r prev s s' p' -> exists m, s = m ++ s'.
Proof.
  induction 1.
  - exists (String c ""). reflexivity.
  - exists "". reflexivity.
  - destruct IHmatches1 as (m1 & ->). destruct IHmatches2 as (m2 & ->).
    exists (m1 ++ m2). now rewrite app_assoc_str.
  - assumption.
  - assumption.
  - exists "". reflexivity.
  - destruct IHmatches1 as (m1 & ->). destruct IHmatches2 as (m2 & ->).
    exists (m1 ++ m2). now rewrite app_assoc_str.
  - exists "". reflexivity.
Qed.

Lemma take_app_length (m rest : string) :
  Py.take (String.length (m ++ rest) - String.length rest) (m ++ rest) = m.
Proof.
  rewrite length_app. replace (String.length m + String.length rest - String.length rest)%nat
    with (String.length m) by lia.
  induction m as [|c m IH]; simpl.
  - now destruct rest.
  - now rewrite IH.
Qed.

(** [match_at] returns a match of the pattern, split into the matched text
    and the rest. *)
Lemma match_at_sound r prev s m rest :
  match_at r prev s = Some (m, rest) ->
  s = m ++ rest /\ exists p', matches r prev s rest p'.
Proof.
  unfold match_at. intros H.
  destruct (rmatch r prev s _) as [rest'|] eqn:Hr; [|discriminate].
  injection H as Hm Hrest. subst rest'.
  apply rmatch_sound in Hr. destruct Hr as (s' & p' & Hmt & Hk).
  injection Hk as ->. destruct (matches_split _ _ _ _ _ Hmt) as (m' & ->).
  rewrite take_app_length in Hm. subst m'. split; [reflexivity | eauto].
Qed.

Lemma match_at_complete r prev s s' p' :
  matches r prev s s' p' -> exists m rest, match_at r prev s = Some (m, rest).
Proof.
  intros Hm. unfold match_at.
  destruct (rmatch_complete r prev s s' p' (fun _ rest => Some rest) s' Hm eq_refl)
    as (a & ->).
  eauto.
Qed.

End MatcherCorrect.

(** *** Counters and [most_common] *)

Section CounterFacts.

Import Counter.

Import Spec.

Lemma insert_desc_perm x l : Permutation (insert_desc x l) (x :: l).
Proof.
  induction l as [|y l IH]; simpl; [reflexivity|].
  destruct (snd y <=? snd x); [reflexivity|].
  rewrite IH. apply perm_swap.
Qed.

Lemma sort_desc_perm l : Permutation (sort_desc l) l.
Proof.
  induction l as [|x l IH]; simpl; [reflexivity|].
  rewrite insert_desc_perm. now constructor.
Qed.

Lemma insert_desc_sorted x l :
  StronglySorted desc l -> StronglySorted desc (insert_desc x l).
Proof.
  induction 1 as [|y l Hs IH Hall]; simpl.
  - repeat constructor.
  - destruct (snd y <=? snd x) eqn:Hle.
    + apply Z.leb_le in Hle. constructor; [now constructor|].
      constructor; [exact Hle|].
      eapply Forall_impl; [|exact Hall]. unfold desc. intros; lia.
    + apply Z.leb_gt in Hle. constructor; [exact IH|].
      eapply Permutation_Forall; [symmetry; apply insert_desc_perm|].
      constructor; [unfold desc; lia | exact Hall].
Qed.

Lemma sort_desc_sorted l : StronglySorted desc (sort_desc l).
Proof.
  induction l as [|x l IH]; simpl; [constructor | now apply insert_desc_sorted].
Qed.

Lemma sorted_app_order {A} (R : A -> A -> Prop) (l1 l2 : list A) x y :
  StronglySorted R (l1 +++ l2) -> In x l1 -> In y l2 -> R x y.
Proof.
  induction l1 as [|a l1 IH]; simpl; intros Hs Hx Hy; [contradiction|].
  apply StronglySorted_inv in Hs. destruct Hs as [Hs Hall].
  destruct Hx as [->|Hx]; [|now apply IH].
  rewrite Forall_forall in Hall. apply Hall, in_or_app. now right.
Qed.

Lemma sorted_firstn {A} (R : A -> A -> Prop) n (l : list A) :
  StronglySorted R l -> StronglySorted R (firstn n l).
Proof.
  intros Hs. revert n. induction Hs as [|a l Hs IH Hall]; intros [|n]; simpl;
    try constructor.
  - apply IH.
  - rewrite Forall_forall in *. intros x Hx. apply Hall.
    rewrite <- (firstn_skipn n l). apply in_or_app. now left.
Qed.

(** [most_common n] returns at most [n] items of the counter, in descending
    order of count, and no item left out has a greater count than an item
    returned. *)
Lemma most_common_length n c : (List.length (most_common n c) <= n)%nat.
Proof. apply firstn_le_length. Qed.

Lemma most_common_in n c x : In x (most_common n c) -> In x c.
Proof.
  unfold most_common. intros H.
  eapply Permutation_in; [apply sort_desc_perm|].
  rewrite <- (firstn_skipn n (sort_desc c)). apply in_or_app. now left.
Qed.

Lemma most_common_sorted n c : StronglySorted desc (most_common n c).
Proof. apply sorted_firstn, sort_desc_sorted. Qed.

Lemma most_common_top n c x y :
  In x (most_common n c) -> In y c -> ~ In y (most_common n c) -> snd y <= snd x.
Proof.
  unfold most_common. intros Hx Hy Hny.
  assert (Hy' : In y (sort_desc c)).
  { eapply Permutation_in; [symmetry; apply sort_desc_perm | exact Hy]. }
  rewrite <- (firstn_skipn n (sort_desc c)) in Hy'.
  apply in_app_or in Hy'. destruct Hy' as [Hy'|Hy']; [contradiction|].
  apply (sorted_app_order desc (firstn n (sort_desc c)) (skipn n (sort_desc c)));
    [rewrite firstn_skipn; apply sort_desc_sorted | exact Hx | exact Hy'].
Qed.

(** The keys of a counter after an update are old keys or counted keys. *)
Lemma incr_keys k c x : In x (keys (incr k c)) -> x = k \/ In x (keys c).
Proof.
  unfold keys. induction c as [|[k' n] c IH]; simpl.
  - intros [<-|[]]. now left.
  - destruct (String.eqb k k') eqn:He; simpl.
    + intros [<-|H]; right; [now left | now right].
    + intros [<-|H]; [right; now left|].
      destruct (IH H) as [->|H']; [now left | right; now right].
Qed.

Lemma update_keys ks c x :
  In x (keys (update c ks)) -> In x ks \/ In x (keys c).
Proof.
  unfold update. revert c. induction ks as [|k ks IH]; simpl; intros c H.
  - now right.
  - destruct (IH _ H) as [H'|H']; [left; now right|].
    destruct (incr_keys _ _ _ H') as [->|H'']; [left; now left | now right].
Qed.

End CounterFacts.

(** *** Word frequency and phrase patterns *)

(** C5. For every list of texts, the word-frequency result of the trend
    engine contains no word of the stop-word list, every word it returns is
    longer than 3 characters, and it has at most 20 entries. *)
Theorem word_frequency_filtered (texts : list string) :
  Forall (fun item => ~ In (fst item) Trend.stop_words /\ 3 < Py.len (fst item))
         (Trend._analyze_word_frequency texts)
  /\ (List.length (Trend._analyze_word_frequency texts) <= 20)%nat.
Proof.
  unfold Trend._analyze_word_frequency. split; [|apply most_common_length].
  apply Forall_forall. intros item Hin.
  apply most_common_in, filter_In in Hin. destruct Hin as [_ Hkeep].
  unfold Trend.keep_word in Hkeep. apply andb_true_iff in Hkeep.
  destruct Hkeep as [Hstop Hlen]. split.
  - intros Hmem. apply negb_true_iff in Hstop.
    assert (Py.mem (fst item) Trend.stop_words = true); [|congruence].
    apply existsb_exists. exists (fst item). split; [exact Hmem | apply String.eqb_refl].
  - now apply Z.ltb_lt.
Qed.

(** The word counter on a small corpus: the stop word [and], the three-letter
    words and the words next to a digit are not returned. *)
Example word_frequency_sample :
  Trend._analyze_word_frequency
    ["Free shipping and FREE returns, buy now"; "free delivery in 2days"]
  = [("free", 3); ("shipping", 1); ("returns", 1); ("delivery", 1)].
Proof. vm_compute. reflexivity. Qed.

Section Tokens.

Import Re.

Lemma all_chars_app p (a b : string) :
  Spec.all_chars p (a ++ b) = Spec.all_chars p a && Spec.all_chars p b.
Proof.
  induction a as [|c a IH]; simpl; [reflexivity|].
  rewrite IH. now rewrite andb_assoc.
Qed.









Lemma count_phrases_keys texts k :
  In k (Counter.keys (Trend.count_phrases texts)) ->
  exists text, In text texts
    /\ In k (Trend.adjacent_phrases
               (findall Trend.phrase_word_pattern (Py.lower text))).
Proof.
  unfold Trend.count_phrases.
  assert (H : forall acc,
             In k (Counter.keys
                     (fold_left (fun phrases text =>
                        Counter.update phrases
                          (Trend.adjacent_phrases
                             (findall Trend.phrase_word_pattern (Py.lower text))))
                        texts acc)) ->
             In k (Counter.keys acc)
             \/ exists text, In text texts
                  /\ In k (Trend.adjacent_phrases
                             (findall Trend.phrase_word_pattern (Py.lower text)))).
  { induction texts as [|t texts IH]; simpl; intros acc Hk; [now left|].
    destruct (IH _ Hk) as [Hk'|(text & Hin & Hk')].
    - destruct (update_keys _ _ _ Hk') as [Hk''|Hk'']; [|now left].
      right. exists t. split; [now left | exact Hk''].
    - right. exists text. split; [now right | exact Hk']. }
  intros Hk. destruct (H [] Hk) as [[]|Hk']. exact Hk'.
Qed.

End Tokens.

(** *** The trend analysis envelope *)

Section Envelope.

Import Datetime.

Variable fromisoformat : string -> option datetime.

(** C4. For the empty list of ads and every analysis type the engine returns
    the failure envelope with empty trends, whatever the parser and the clock:
    no analysis is run. *)
Theorem empty_ads_failure (now stamp : Z) (analysis_type : string) :
  Trend.analyze_trends_from_ads fromisoformat now stamp [] analysis_type
  = {| Trend.success := false;
       Trend.message := "No ads data provided for analysis";
       Trend.trends_of := None;
       Trend.metadata := None;
       Trend.error := Some "Empty ads data" |}.
Proof. reflexivity. Qed.

Lemma lt_same_kind b x y :
  is_aware x = b -> is_aware y = b -> exists r, lt x y = Py.Ok r.
Proof.
  unfold is_aware, lt. destruct (tzinfo x), (tzinfo y); intros <- H;
    try discriminate; eauto.
Qed.

Lemma min_from_same_kind b ds :
  forall cur, is_aware cur = b -> Forall (fun d => is_aware d = b) ds ->
  exists d, min_from cur ds = Py.Ok d.
Proof.
  induction ds as [|x ds IH]; simpl; intros cur Hc Hall; [eauto|].
  inversion Hall as [|x0 ds0 Hx Hds]; subst x0 ds0.
  destruct (lt_same_kind b x cur Hx Hc) as (r & ->). simpl.
  apply IH; [now destruct r | exact Hds].
Qed.

Lemma max_from_same_kind b ds :
  forall cur, is_aware cur = b -> Forall (fun d => is_aware d = b) ds ->
  exists d, max_from cur ds = Py.Ok d.
Proof.
  induction ds as [|x ds IH]; simpl; intros cur Hc Hall; [eauto|].
  inversion Hall as [|x0 ds0 Hx Hds]; subst x0 ds0.
  destruct (lt_same_kind b cur x Hc Hx) as (r & ->). simpl.
  apply IH; [now destruct r | exact Hds].
Qed.

Lemma zones_agree_forall ds :
  Spec.zones_agree ds -> exists b, Forall (fun d => is_aware d = b) ds.
Proof.
  intros [H|H]; [exists true | exists false]; apply Forall_forall; intros d Hd;
    rewrite forallb_forall in H; specialize (H d Hd).
  - exact H.
  - now apply negb_true_iff.
Qed.

Lemma min_max_same_kind ds :
  ds <> [] -> Spec.zones_agree ds ->
  exists lo hi, Datetime.min ds = Py.Ok lo /\ Datetime.max ds = Py.Ok hi.
Proof.
  intros Hne Hz. destruct (zones_agree_forall ds Hz) as (b & Hall).
  destruct ds as [|x ds]; [contradiction|].
  inversion Hall as [|x0 ds0 Hx Hds]; subst x0 ds0. simpl.
  destruct (min_from_same_kind b ds x Hx Hds) as (lo & ->).
  destruct (max_from_same_kind b ds x Hx Hds) as (hi & ->).
  eauto.
Qed.

Lemma naive_dates_agree ds : Spec.zones_agree (map drop_tz ds).
Proof.
  right. apply forallb_forall. intros d Hd. apply in_map_iff in Hd.
  now destruct Hd as (d0 & <- & _).
Qed.

(** The analysis period is computed on naive dates: it never raises. *)
Lemma analysis_period_total ads_data :
  exists p, Trend._get_analysis_period fromisoformat ads_data = Py.Ok p.
Proof.
  unfold Trend._get_analysis_period.
  destruct (Trend.parse_dates fromisoformat ads_data) as [|d ds] eqn:Hd; [eauto|].
  destruct (min_max_same_kind (map drop_tz (d :: ds)))
    as (lo & hi & Hlo & Hhi); [discriminate | apply naive_dates_agree |].
  rewrite Hlo, Hhi. simpl. eauto.
Qed.

(** The date patterns are computed when the parsed dates agree in kind. *)
Lemma date_patterns_total now ads_data :
  Spec.zones_agree (Trend.parse_dates fromisoformat ads_data) ->
  exists p, Trend._analyze_date_patterns fromisoformat now ads_data = Py.Ok p.
Proof.
  unfold Trend._analyze_date_patterns. intros Hz.
  destruct (Trend.parse_dates fromisoformat ads_data) as [|d ds] eqn:Hd; [eauto|].
  destruct (min_max_same_kind (d :: ds)) as (lo & hi & Hlo & Hhi);
    [discriminate | exact Hz |].
  rewrite Hlo, Hhi. simpl. eauto.
Qed.

Lemma count_media_filter kind ads_data :
  Py.llen (filter (fun a => Trend.field_is (Trend.media_type a) kind) ads_data)
  = Spec.count_media kind ads_data.
Proof.
  unfold Py.llen. induction ads_data as [|a ads IH]; simpl; [reflexivity|].
  rewrite <- IH. unfold Trend.field_is.
  destruct (Trend.media_type a) as [v|]; [|lia].
  destruct (string_dec v kind) as [->|Hne].
  - rewrite String.eqb_refl. simpl List.length. lia.
  - apply String.eqb_neq in Hne. rewrite Hne. lia.
Qed.

(** The counts of the metadata.  For every non-empty list of ads whose parsed
    start dates are all timezone-aware or all naive, the engine returns a
    success envelope whose metadata holds the number of ads, the number of
    ads whose media type is exactly [IMAGE] and the number whose media type
    is exactly [VIDEO]. *)
Theorem analysis_metadata_counts (now stamp : Z) (ads_data : list Trend.ad)
  (analysis_type : string) :
  ads_data <> [] ->
  Spec.zones_agree (Trend.parse_dates fromisoformat ads_data) ->
  exists computed,
    Trend.analyze_trends_from_ads fromisoformat now stamp ads_data analysis_type
    = {| Trend.success := true;
         Trend.message := "Successfully analyzed trends from "
                          ++ Py.str_of_int (Py.llen ads_data) ++ " ads";
         Trend.trends_of := Some computed;
         Trend.metadata :=
           Some {| Trend.total_ads := Z.of_nat (List.length ads_data);
                   Trend.image_ads := Spec.count_media "IMAGE" ads_data;
                   Trend.video_ads := Spec.count_media "VIDEO" ads_data;
                   Trend.analysis_type_of := analysis_type;
                   Trend.analyzed_at := stamp |};
         Trend.error := None |}.
Proof.
  intros Hne Hz. unfold Trend.analyze_trends_from_ads.
  destruct ads_data as [|a ads]; [contradiction|].
  set (ads_data := a :: ads) in *.
  unfold Trend._analyze_overview_trends.
  destruct (date_patterns_total now ads_data Hz) as (dp & ->).
  destruct (analysis_period_total ads_data) as (ap & ->).
  simpl Py.bind. rewrite !count_media_filter. eexists. reflexivity.
Qed.

Lemma lt_mixed x y : is_aware x <> is_aware y -> lt x y = Py.Raise mixed_msg.
Proof.
  unfold is_aware, lt. destruct (tzinfo x), (tzinfo y); intros H;
    try reflexivity; now elim H.
Qed.

Lemma min_from_mixed ds :
  forall cur, (exists x, In x ds /\ is_aware x <> is_aware cur) ->
  min_from cur ds = Py.Raise mixed_msg.
Proof.
  induction ds as [|x ds IH]; intros cur (y & Hin & Hy); [contradiction|]. simpl.
  destruct (Bool.bool_dec (is_aware x) (is_aware cur)) as [Hsame|Hdiff].
  - destruct (lt_same_kind _ x cur Hsame eq_refl) as (r & ->). simpl.
    apply IH. destruct Hin as [->|Hin]; [contradiction|].
    exists y. split; [exact Hin|]. destruct r; congruence.
  - now rewrite (lt_mixed _ _ Hdiff).
Qed.

Lemma agree_or_differ x ds :
  Spec.zones_agree (x :: ds) \/ exists y, In y ds /\ is_aware y <> is_aware x.
Proof.
  induction ds as [|y ds IH].
  - left. unfold Spec.zones_agree. simpl. destruct (is_aware x); auto.
  - destruct IH as [Hagree|(z & Hz & Hdiff)].
    + destruct (Bool.bool_dec (is_aware y) (is_aware x)) as [Hsame|Hdiff].
      * left. unfold Spec.zones_agree in *. simpl in *. rewrite Hsame.
        destruct (is_aware x); simpl in *; exact Hagree.
      * right. exists y. split; [now left | exact Hdiff].
    + right. exists z. split; [now right | exact Hdiff].
Qed.

(** The only failure on a non-empty list of ads: when the parsed start dates
    are not all of one kind, the date patterns raise and the engine returns
    the failure envelope. *)
Lemma analysis_fails_on_mixed_dates (now stamp : Z) (ads_data : list Trend.ad)
  (analysis_type : string) :
  ~ Spec.zones_agree (Trend.parse_dates fromisoformat ads_data) ->
  Trend._analyze_date_patterns fromisoformat now ads_data = Py.Raise mixed_msg
  /\ Trend.analyze_trends_from_ads fromisoformat now stamp ads_data analysis_type
     = {| Trend.success := false;
          Trend.message := "Failed to analyze trends: " ++ mixed_msg;
          Trend.trends_of := None;
          Trend.metadata := None;
          Trend.error := Some mixed_msg |}.
Proof.
  intros Hmixed.
  assert (Hraise : Trend._analyze_date_patterns fromisoformat now ads_data
                   = Py.Raise mixed_msg).
  { unfold Trend._analyze_date_patterns.
    destruct (Trend.parse_dates fromisoformat ads_data) as [|d ds] eqn:Hd.
    - exfalso. apply Hmixed. now left.
    - destruct (agree_or_differ d ds) as [Hagree|Hdiff]; [contradiction|].
      simpl. now rewrite (min_from_mixed ds d Hdiff). }
  split; [exact Hraise|].
  unfold Trend.analyze_trends_from_ads.
  destruct ads_data as [|a ads].
  - exfalso. apply Hmixed. now left.
  - unfold Trend._analyze_overview_trends. rewrite Hraise. reflexivity.
Qed.

End Envelope.

(** On the three sample ads, two videos and an image with naive dates, the
    metadata counts 3 ads, 1 image and 2 videos. *)
Example analysis_metadata_counts_sample :
  Samples.three_ads <> []
  /\ Spec.zones_agree (Trend.parse_dates Datetime.fromisoformat_seconds Samples.three_ads)
  /\ exists computed,
       Trend.analyze_trends_from_ads Datetime.fromisoformat_seconds
         Samples.clock Samples.clock Samples.three_ads "comprehensive"
       = {| Trend.success := true;
            Trend.message := "Successfully analyzed trends from 3 ads";
            Trend.trends_of := Some computed;
            Trend.metadata :=
              Some {| Trend.total_ads := 3;
                      Trend.image_ads := 1;
                      Trend.video_ads := 2;
                      Trend.analysis_type_of := "comprehensive";
                      Trend.analyzed_at := Samples.clock |};
            Trend.error := None |}.
Proof.
  split; [discriminate|]. split; [right; vm_compute; reflexivity|].
  exact (analysis_metadata_counts Datetime.fromisoformat_seconds
           Samples.clock Samples.clock Samples.three_ads "comprehensive"
           ltac:(discriminate) ltac:(right; vm_compute; reflexivity)).
Qed.

(** C1 on the code.  The three sample ads, two videos and an image, with the
    second start date in [Z] form: the engine returns the failure envelope,
    which has no metadata, instead of the counts 3, 1 and 2. *)
Theorem mixed_zone_dates_no_metadata :
  Trend.analyze_trends_from_ads Datetime.fromisoformat_seconds
    Samples.clock Samples.clock Samples.mixed_zone_three_ads "comprehensive"
  = {| Trend.success := false;
       Trend.message :=
         "Failed to analyze trends: can't compare offset-naive and offset-aware datetimes";
       Trend.trends_of := None;
       Trend.metadata := None;
       Trend.error := Some "can't compare offset-naive and offset-aware datetimes" |}.
Proof. vm_compute. reflexivity. Qed.

(** C2 on the code.  On two ads whose start dates are [2024-01-01T00:00:00Z]
    and [2024-01-02T00:00:00], the analysis period, which makes every date
    naive before it compares, is computed, while the date patterns compare
    the dates as parsed and raise, so that the whole analysis ends in the
    failure envelope. *)
Theorem mixed_zone_dates_raise :
  Trend.parse_dates Datetime.fromisoformat_seconds Samples.mixed_zone_ads
  = [ {| Datetime.wall := 63839664000000000; Datetime.tzinfo := Some 0 |};
      {| Datetime.wall := 63839750400000000; Datetime.tzinfo := None |} ]
  /\ Trend._get_analysis_period Datetime.fromisoformat_seconds Samples.mixed_zone_ads
     = Py.Ok (Trend.Period
                {| Datetime.wall := 63839664000000000; Datetime.tzinfo := None |}
                {| Datetime.wall := 63839750400000000; Datetime.tzinfo := None |} 1)
  /\ Trend._analyze_date_patterns Datetime.fromisoformat_seconds Samples.clock
       Samples.mixed_zone_ads
     = Py.Raise "can't compare offset-naive and offset-aware datetimes"
  /\ Trend.success
       (Trend.analyze_trends_from_ads Datetime.fromisoformat_seconds
          Samples.clock Samples.clock Samples.mixed_zone_ads "comprehensive")
     = false.
Proof. vm_compute. repeat split. Qed.

(** *** Market concentration *)









(** The two examples of the specification, in both arithmetics: one brand
    with 10 of 10 ads has index 1 and the high label; ten brands with one ad
    each have index 1/10 and the fragmented label. *)
Example one_brand_is_concentrated :
  (Trend.hhi_of Trend.exact Samples.one_brand == 1)%Q
  /\ Trend._calculate_market_concentration Trend.exact Samples.one_brand
     = "High concentration (few dominant players)"
  /\ Trend._calculate_market_concentration (Trend.binary64 Samples.pow2)
       Samples.one_brand
     = "High concentration (few dominant players)".
Proof. repeat split; vm_compute; reflexivity. Qed.

Example ten_brands_are_fragmented :
  (Trend.hhi_of Trend.exact Samples.ten_brands == 1 # 10)%Q
  /\ Trend._calculate_market_concentration Trend.exact Samples.ten_brands
     = "Low concentration (fragmented market)"
  /\ Trend.hhi_of (Trend.binary64 Samples.pow2) Samples.ten_brands
     = 0x1.999999999999cp-4%float
  /\ Trend._calculate_market_concentration (Trend.binary64 Samples.pow2)
       Samples.ten_brands
     = "Low concentration (fragmented market)".
Proof. repeat split; vm_compute; reflexivity. Qed.


(** *** Searching *)

Section Search.

Import Re.

(** [search] returns the match at the first position that has one. *)
Lemma search_from_some r s :
  forall prev m rest,
    search_from r prev s = Some (m, rest) ->
    exists before,
      s = before ++ m ++ rest
      /\ match_at r (Spec.last_char prev before) (m ++ rest) = Some (m, rest)
      /\ forall before1 s1,
           s = before1 ++ s1 ->
           (String.length before1 < String.length before)%nat ->
           match_at r (Spec.last_char prev before1) s1 = None.
Proof.
  induction s as [|c t IH]; intros prev m rest H; simpl in H.
  - destruct (match_at r prev "") as [found|] eqn:Hm; [|discriminate].
    injection H as ->. exists "". simpl.
    destruct (match_at_sound _ _ _ _ _ Hm) as (Hs & _).
    rewrite <- Hs. repeat split; [exact Hm|]. intros ? ? _ Hlt. simpl in Hlt. lia.
  - destruct (match_at r prev (String c t)) as [found|] eqn:Hm.
    + injection H as ->. exists "". simpl.
      destruct (match_at_sound _ _ _ _ _ Hm) as (Hs & _).
      rewrite <- Hs. repeat split; [exact Hm|]. intros ? ? _ Hlt. simpl in Hlt. lia.
    + destruct (IH _ _ _ H) as (before & -> & Hat & Hfirst).
      exists (String c before). simpl. repeat split; [exact Hat|].
      intros before1 s1 Heq Hlt. destruct before1 as [|c1 b1]; simpl in *.
      * now subst s1.
      * injection Heq as -> Heq. apply Hfirst; [exact Heq | lia].
Qed.

Lemma search_from_none r s :
  forall prev, search_from r prev s = None ->
  forall before1 s1, s = before1 ++ s1 ->
    match_at r (Spec.last_char prev before1) s1 = None.
Proof.
  induction s as [|c t IH]; intros prev H before1 s1 Heq; simpl in H.
  - destruct (match_at r prev "") eqn:Hm; [discriminate|].
    destruct before1; [|discriminate]. simpl in *. now subst s1.
  - destruct (match_at r prev (String c t)) eqn:Hm; [discriminate|].
    destruct before1 as [|c1 b1]; simpl in *.
    + now subst s1.
    + injection Heq as -> Heq. now apply (IH _ H).
Qed.

Lemma matches_lit l :
  forall prev s s' p', matches (Lit l) prev s s' p' -> s = l ++ s'.
Proof.
  induction l as [|c l IH]; simpl; intros prev s s' p' H.
  - now inversion H.
  - inversion H as [| |ra rb prev0 s0 s1 p1 s2 p2 Hc Hl| | | | |]; subst.
    inversion Hc as [p0 prev0 d t Hd| | | | | | |]; subst.
    apply Ascii.eqb_eq in Hd. subst d. f_equal. eapply IH; eassumption.
Qed.

Lemma matches_lit_intro l :
  forall prev s', exists p', matches (Lit l) prev (l ++ s') s' p'.
Proof.
  induction l as [|c l IH]; simpl; intros prev s'.
  - exists prev. constructor.
  - destruct (IH (Some c) s') as (p' & Hp').
    exists p'. econstructor; [|exact Hp']. constructor. apply Ascii.eqb_refl.
Qed.

End Search.

(** *** URL detection *)

Section UrlPattern.

Import Re Webpage.

Lemma unit_text_nonempty u : unit_text u -> (0 < String.length u)%nat.
Proof. destruct 1; simpl; lia. Qed.

(** The repeated group matches exactly the units. *)
Lemma matches_unit prev s s' p' :
  matches url_unit prev s s' p' -> exists u, s = u ++ s' /\ unit_text u.
Proof.
  unfold url_unit. intros H.
  repeat match goal with
    | H : matches (Alt _ _) _ _ _ _ |- _ => inversion H; subst; clear H
    end;
    try match goal with
      | H : matches (Chars _) _ _ _ _ |- _ =>
          inversion H as [p0 prev0 c t Hp| | | | | | |]; subst;
          exists (String c ""); split; [reflexivity|]; constructor;
          rewrite Hp; repeat (reflexivity || rewrite orb_true_r)
      end.
  match goal with
  | H : matches (Seq _ (Seq _ _)) _ _ _ _ |- _ =>
      inversion H as [| |ra rb prev0 s0 s1 p1 s2 p2 Hpc Hhh| | | | |]; subst;
      inversion Hhh as [| |ra rb prev0 s0 s3 p3 s4 p4 Hh1 Hh2| | | | |]; subst;
      inversion Hpc as [p0 prev0 c t Hp| | | | | | |]; subst;
      inversion Hh1 as [p0 prev0 h1 t1 Hp1| | | | | | |]; subst;
      inversion Hh2 as [p0 prev0 h2 t2 Hp2| | | | | | |]; subst
  end.
  unfold one_of in Hp. simpl in Hp. rewrite orb_false_r in Hp.
  apply Ascii.eqb_eq in Hp. subst c.
  exists (String "%" (String h1 (String h2 ""))). split; [reflexivity|].
  now constructor.
Qed.

Lemma matches_unit_intro u :
  unit_text u -> forall prev s', exists p', matches url_unit prev (u ++ s') s' p'.
Proof.
  intros [c Hc|h1 h2 H1 H2] prev s'; unfold url_unit; simpl.
  - exists (Some c).
    destruct (alt_letter c) eqn:E1; [apply M_alt_l; now constructor|].
    destruct (alt_digit c) eqn:E2; [apply M_alt_r, M_alt_l; now constructor|].
    destruct (alt_punct c) eqn:E3;
      [apply M_alt_r, M_alt_r, M_alt_l; now constructor|].
    simpl in Hc. apply M_alt_r, M_alt_r, M_alt_r, M_alt_l. now constructor.
  - exists (Some h2). do 4 apply M_alt_r.
    econstructor; [constructor; reflexivity|].
    econstructor; constructor; assumption.
Qed.

Lemma matches_units_star r prev s s' p' :
  matches r prev s s' p' -> r = Star url_unit ->
  s = s' \/ exists m, s = m ++ s' /\ url_units m.
Proof.
  induction 1 as [| | | | |r0 prev s|r0 prev s s1 p1 s2 p2 Hm1 _ Hlt Hm2 IH2|];
    intros Heq; try discriminate.
  - now left.
  - injection Heq as ->. right.
    destruct (matches_unit _ _ _ _ Hm1) as (u & -> & Hu).
    destruct (IH2 eq_refl) as [->|(m & -> & Hm)].
    + exists u. split; [reflexivity | now constructor].
    + exists (u ++ m). split; [now rewrite app_assoc_str | now apply Units_more].
Qed.

Lemma matches_units_star_intro m :
  url_units m -> forall prev s', exists p', matches (Star url_unit) prev (m ++ s') s' p'.
Proof.
  induction 1 as [u Hu|u rest Hu Hrest IH]; intros prev s'.
  - destruct (matches_unit_intro u Hu prev s') as (p1 & H1).
    exists p1. eapply M_star_cons; [exact H1| |constructor].
    rewrite length_app. pose proof (unit_text_nonempty u Hu). lia.
  - destruct (matches_unit_intro u Hu prev (rest ++ s')) as (p1 & H1).
    destruct (IH p1 s') as (p2 & H2).
    exists p2. rewrite app_assoc_str. eapply M_star_cons; [exact H1| |exact H2].
    rewrite !length_app. pose proof (unit_text_nonempty u Hu). lia.
Qed.

(** The pattern matches exactly the URLs of the specification. *)
Lemma matches_url prev s s' p' :
  matches url_pattern prev s s' p' -> exists u, s = u ++ s' /\ is_url u.
Proof.
  unfold url_pattern, Plus, Opt. intros H.
  inversion H as [| |ra rb prev0 s0 s1 p1 s2 p2 Hhttp H1| | | | |]; subst.
  apply (matches_lit "http") in Hhttp. subst s.
  inversion H1 as [| |ra rb prev0 s0 s2 p2 s3 p3 Hopt H2| | | | |]; subst.
  inversion H2 as [| |ra rb prev0 s0 s3 p3 s4 p4 Hsep H3| | | | |]; subst.
  apply (matches_lit "://") in Hsep. subst s2.
  inversion H3 as [| |ra rb prev0 s0 s4 p4 s5 p5 Hu Hstar| | | | |]; subst.
  destruct (matches_unit _ _ _ _ Hu) as (u & -> & Hunit).
  assert (Htail : exists tail, u ++ s4 = tail ++ s' /\ url_units tail).
  { destruct (matches_units_star _ _ _ _ _ Hstar eq_refl) as [->|(m & -> & Hm)].
    - exists u. split; [reflexivity | now constructor].
    - exists (u ++ m). split; [now rewrite app_assoc_str | now apply Units_more]. }
  destruct Htail as (tail & Htail & Hunits). rewrite Htail in Hopt.
  clear - Hopt Hunits.
  inversion Hopt as [| | |ra rb prev0 s0 s6 p6 Hs|ra rb prev0 s0 s6 p6 Heps| | |]; subst.
  - inversion Hs as [p0 prev0 c t Hc| | | | | | |]; subst.
    unfold one_of in Hc. simpl in Hc. rewrite orb_false_r in Hc.
    apply Ascii.eqb_eq in Hc. subst c.
    exists ("https://" ++ tail). split; [reflexivity|].
    exists "https://", tail. auto.
  - inversion Heps; subst.
    exists ("http://" ++ tail). split; [reflexivity|].
    exists "http://", tail. auto.
Qed.

Lemma matches_url_intro u :
  is_url u -> forall prev rest, exists p', matches url_pattern prev (u ++ rest) rest p'.
Proof.
  intros (scheme & tail & -> & Hscheme & Hunits) prev rest.
  assert (Hplus : forall pv, exists p', matches (Plus url_unit) pv (tail ++ rest) rest p').
  { intros pv. unfold Plus. destruct Hunits as [u Hu|u more Hu Hmore].
    - destruct (matches_unit_intro u Hu pv rest) as (p1 & H1).
      exists p1. econstructor; [exact H1 | constructor].
    - destruct (matches_unit_intro u Hu pv (more ++ rest)) as (p1 & H1).
      destruct (matches_units_star_intro more Hmore p1 rest) as (p2 & H2).
      exists p2. rewrite app_assoc_str. econstructor; eassumption. }
  unfold url_pattern, Opt.
  destruct (matches_lit_intro "://" (Some "s"%char) (tail ++ rest)) as (q1 & Hq1).
  destruct (Hplus q1) as (q2 & Hq2).
  destruct (matches_lit_intro "://" (Some "p"%char) (tail ++ rest)) as (q3 & Hq3).
  destruct (Hplus q3) as (q4 & Hq4).
  destruct Hscheme as [->| ->].
  - exists q4.
    change (("http://" ++ tail) ++ rest) with ("http" ++ "://" ++ tail ++ rest).
    destruct (matches_lit_intro "http" prev ("://" ++ tail ++ rest)) as (q0 & Hq0).
    assert (q0 = Some "p"%char) as ->.
    { clear - Hq0. simpl in Hq0.
      repeat match goal with
        | H : matches (Seq _ _) _ _ _ _ |- _ => inversion H; subst; clear H
        | H : matches (Chars _) _ _ _ _ |- _ => inversion H; subst; clear H
        | H : matches Eps _ _ _ _ |- _ => inversion H; subst; clear H
        end; reflexivity. }
    econstructor; [exact Hq0|].
    econstructor; [apply M_alt_r; constructor|].
    econstructor; [exact Hq3 | exact Hq4].
  - exists q2.
    change (("https://" ++ tail) ++ rest) with ("http" ++ "s" ++ "://" ++ tail ++ rest).
    destruct (matches_lit_intro "http" prev ("s" ++ "://" ++ tail ++ rest)) as (q0 & Hq0).
    econstructor; [exact Hq0|].
    econstructor; [apply M_alt_l; constructor; reflexivity|].
    econstructor; [exact Hq1 | exact Hq2].
Qed.

End UrlPattern.

Section UrlSearch.

Import Re Webpage.

Lemma rmatch_seq {A} r1 r2 prev s (k : cont A) :
  rmatch (Seq r1 r2) prev s k = rmatch r1 prev s (fun prev' s' => rmatch r2 prev' s' k).
Proof. reflexivity. Qed.

Lemma rmatch_star {A} r prev s (k : cont A) :
  rmatch (Star r) prev s k = star_loop (rmatch r) k (String.length s) prev s.
Proof. reflexivity. Qed.

Lemma star_loop_total {A} body (k : cont A) fuel prev s :
  (forall p t, exists a, k p t = Some a) ->
  exists a, star_loop body k fuel prev s = Some a.
Proof.
  intros Hk. destruct fuel as [|fuel]; simpl; [apply Hk|].
  destruct (body prev s _); [eauto | apply Hk].
Qed.

Lemma star_loop_step {A} body (k : cont A) fuel prev s :
  star_loop body k (S fuel) prev s
  = match body prev s
            (fun prev' s' =>
               if (String.length s' <? String.length s)%nat
               then star_loop body k fuel prev' s' else None)
    with
    | Some a => Some a
    | None => k prev s
    end.
Proof. reflexivity. Qed.

(** The repetition is greedy: where it stops, no further unit starts. *)
Lemma star_units_greedy fuel :
  forall prev s rest,
    (String.length s <= fuel)%nat ->
    star_loop (rmatch url_unit) (fun _ r => Some r) fuel prev s = Some rest ->
    forall w tl, rest = w ++ tl -> ~ unit_text w.
Proof.
  induction fuel as [|fuel IH]; intros prev s rest Hfuel H w tl Hrest Hw.
  - change (Some s = Some rest) in H. injection H as <-.
    destruct s; [|simpl in Hfuel; lia].
    destruct w; [inversion Hw | discriminate].
  - rewrite star_loop_step in H.
    destruct (rmatch url_unit prev s _) as [a|] eqn:Hb.
    + injection H as ->. apply rmatch_sound in Hb.
      destruct Hb as (s1 & p1 & _ & Hk).
      destruct (String.length s1 <? String.length s)%nat eqn:Hlt; [|discriminate].
      apply Nat.ltb_lt in Hlt.
      exact (IH p1 s1 rest ltac:(lia) Hk w tl Hrest Hw).
    + injection H as <-. subst s.
      destruct (matches_unit_intro w Hw prev tl) as (p' & Hm).
      destruct (star_loop_total (rmatch url_unit) (fun _ r => Some r) fuel p' tl)
        as (a & Ha); [eauto|].
      destruct (rmatch_complete url_unit prev (w ++ tl) tl p'
                  (fun prev' s' =>
                     if (String.length s' <? String.length (w ++ tl))%nat
                     then star_loop (rmatch url_unit) (fun _ r => Some r) fuel prev' s'
                     else None) a Hm) as (a' & Ha').
      * rewrite length_app. pose proof (unit_text_nonempty w Hw) as Hpos.
        replace (String.length tl <? String.length w + String.length tl)%nat
          with true by (symmetry; apply Nat.ltb_lt; lia).
        exact Ha.
      * congruence.
Qed.

Lemma match_at_url_greedy prev s m rest :
  match_at url_pattern prev s = Some (m, rest) ->
  forall w tl, rest = w ++ tl -> ~ unit_text w.
Proof.
  unfold match_at. intros H.
  destruct (rmatch url_pattern prev s _) as [rest'|] eqn:Hr; [|discriminate].
  injection H as _ ->. unfold url_pattern, Plus in Hr.
  rewrite rmatch_seq in Hr. apply rmatch_sound in Hr. destruct Hr as (s1 & p1 & _ & Hr).
  rewrite rmatch_seq in Hr. apply rmatch_sound in Hr. destruct Hr as (s2 & p2 & _ & Hr).
  rewrite rmatch_seq in Hr. apply rmatch_sound in Hr. destruct Hr as (s3 & p3 & _ & Hr).
  rewrite rmatch_seq in Hr. apply rmatch_sound in Hr. destruct Hr as (s4 & p4 & _ & Hr).
  rewrite rmatch_star in Hr.
  exact (star_units_greedy _ p4 s4 rest (le_n _) Hr).
Qed.

(** C7. [is_valid_url] is true exactly for the texts that contain a URL of
    the permissive pattern; [extract_url_from_text] returns nothing exactly
    for the other texts, and otherwise the URL that starts at the first
    offset where a URL starts, taken as far as its units go.  On the text of
    the specification it returns [https://example.com/page?q=1], and the text
    [no links here] has no URL. *)
Theorem url_detection :
  (forall text, is_valid_url text = true <-> contains_url text)
  /\ (forall text, extract_url_from_text text = None <-> ~ contains_url text)
  /\ (forall text u,
        extract_url_from_text text = Some u ->
        exists before after,
          text = before ++ u ++ after
          /\ is_url u
          /\ (forall n, (n < String.length before)%nat -> ~ url_starts_at n text)
          /\ (forall w tl, after = w ++ tl -> ~ unit_text w))
  /\ is_valid_url "check out https://example.com/page?q=1 today" = true
  /\ extract_url_from_text "check out https://example.com/page?q=1 today"
     = Some "https://example.com/page?q=1"
  /\ is_valid_url "no links here" = false
  /\ extract_url_from_text "no links here" = None.
Proof.
  assert (Hsome : forall text m rest,
            search url_pattern text = Some (m, rest) ->
            exists before,
              text = before ++ m ++ rest /\ is_url m
              /\ (forall n, (n < String.length before)%nat -> ~ url_starts_at n text)
              /\ (forall w tl, rest = w ++ tl -> ~ unit_text w)).
  { intros text m rest H. unfold search in H.
    destruct (search_from_some _ _ _ _ _ H) as (before & Htext & Hat & Hfirst).
    exists before. split; [exact Htext|].
    destruct (match_at_sound _ _ _ _ _ Hat) as (_ & p' & Hm).
    destruct (matches_url _ _ _ _ Hm) as (u & Hu & Hurl).
    assert (u = m) as ->.
    { clear - Hu. revert u Hu. induction m as [|c m IH]; intros u H.
      - destruct u as [|d u]; [reflexivity|]. exfalso.
        assert (Hl := f_equal String.length H). simpl in Hl.
        rewrite length_app in Hl. lia.
      - destruct u as [|d u]; simpl in H.
        + exfalso. assert (Hl := f_equal String.length H). simpl in Hl.
          rewrite length_app in Hl. lia.
        + injection H as -> H. f_equal. now apply IH. }
    split; [exact Hurl|]. split.
    - intros n Hn (before1 & u1 & after1 & Htext1 & Hlen & Hurl1).
      destruct (matches_url_intro u1 Hurl1 (Spec.last_char None before1) after1)
        as (q & Hq).
      destruct (match_at_complete _ _ _ _ _ Hq) as (m1 & rest1 & Hat1).
      rewrite (Hfirst before1 (u1 ++ after1) Htext1 ltac:(lia)) in Hat1.
      discriminate.
    - eapply match_at_url_greedy; exact Hat. }
  assert (Hnone : forall text, search url_pattern text = None -> ~ contains_url text).
  { intros text H (before & u & after & Htext & Hurl).
    destruct (matches_url_intro u Hurl (Spec.last_char None before) after) as (q & Hq).
    destruct (match_at_complete _ _ _ _ _ Hq) as (m1 & rest1 & Hat1).
    unfold search in H.
    rewrite (search_from_none _ _ _ H before (u ++ after) Htext) in Hat1.
    discriminate. }
  split; [|split; [|split]].
  - intros text. unfold is_valid_url.
    destruct (search url_pattern text) as [[m rest]|] eqn:Hs.
    + split; [intros _|reflexivity].
      destruct (Hsome _ _ _ Hs) as (before & Htext & Hurl & _).
      exists before, m, rest. now split.
    + split; [discriminate|]. intros Hc. now apply Hnone in Hc.
  - intros text. unfold extract_url_from_text.
    destruct (search url_pattern text) as [[m rest]|] eqn:Hs.
    + split; [discriminate|]. intros Hn. exfalso. apply Hn.
      destruct (Hsome _ _ _ Hs) as (before & Htext & Hurl & _).
      exists before, m, rest. now split.
    + split; [intros _; now apply Hnone | reflexivity].
  - intros text u. unfold extract_url_from_text.
    destruct (search url_pattern text) as [[m rest]|] eqn:Hs; [|discriminate].
    intros H. injection H as <-. unfold group0. simpl.
    destruct (Hsome _ _ _ Hs) as (before & Htext & Hurl & Hfirst & Hgreedy).
    exists before, rest. repeat split; assumption.
  - repeat split; vm_compute; reflexivity.
Qed.

End UrlSearch.

(** *** The generator: fallback to [veo] and variations *)

Section GeneratorFacts.

Import Generator.

Lemma truthy_nonempty s : s <> "" -> Py.truthy s = true.
Proof. destruct s; [now intros H; elim H | reflexivity]. Qed.

(** C8. For every non-empty query and non-empty trends data, a generator type
    whose lower-cased form is not one of [veo], [runway], [pika],
    [stable_video] and [sora] gives the result the generator type [veo]
    gives; in particular the technical specifications are those of [veo]. *)
Theorem unknown_generator_uses_veo (stamp : Z) (user_query : string)
  (trends : trends_data) (generator_type : string) (style_preferences : option style) :
  user_query <> "" ->
  trends <> None ->
  Py.mem (Py.lower generator_type) supported_generators = false ->
  generate_video_description stamp user_query trends generator_type style_preferences
  = generate_video_description stamp user_query trends "veo" style_preferences
  /\ exists payload,
       trends = Some payload
       /\ technical_specifications
            (generate_video_description stamp user_query trends generator_type
               style_preferences)
          = Some (_generate_technical_specs (_extract_trend_insights payload) "veo")
       /\ spec_generator_type
            (_generate_technical_specs (_extract_trend_insights payload) "veo") = "veo".
Proof.
  intros Hq Ht Hg. destruct trends as [payload|]; [|contradiction].
  unfold generate_video_description. rewrite (truthy_nonempty _ Hq), Hg.
  change (Py.mem (Py.lower "veo") supported_generators) with true.
  split; [reflexivity|]. exists payload. repeat split.
Qed.


Lemma video_variations_three user_query ci generator_type style_preferences :
  List.length (_create_video_variations user_query ci generator_type style_preferences)
  = 3%nat.
Proof. reflexivity. Qed.


End GeneratorFacts.

(** With the generator type [unknown_gen] the sample query gets the result
    and the technical specifications of [veo]. *)
Lemma unknown_generator_uses_veo_witness :
  "Promo video for running shoes" <> ""
  /\ Some Samples.payload <> None
  /\ Py.mem (Py.lower "unknown_gen") Generator.supported_generators = false
  /\ Generator.generate_video_description 0 "Promo video for running shoes"
       (Some Samples.payload) "unknown_gen" None
     = Generator.generate_video_description 0 "Promo video for running shoes"
         (Some Samples.payload) "veo" None
  /\ Generator.technical_specifications
       (Generator.generate_video_description 0 "Promo video for running shoes"
          (Some Samples.payload) "unknown_gen" None)
     = Some {| Generator.spec_generator_type := "veo";
               Generator.recommended_aspect_ratio := "16:9";
               Generator.recommended_resolution := "1080p";
               Generator.recommended_duration := "5-15 seconds";
               Generator.optimization_tips :=
                 ["Video content is trending - prioritize motion and transitions";
                  "Use clear, descriptive prompts"; "Focus on smooth motion";
                  "Avoid complex scenes"] |}.
Proof.
  split; [discriminate|]. split; [discriminate|]. split; [reflexivity|].
  destruct (unknown_generator_uses_veo 0 "Promo video for running shoes"
              (Some Samples.payload) "unknown_gen" None
              ltac:(discriminate) ltac:(discriminate) ltac:(reflexivity))
    as (Heq & payload & Hpayload & Hspecs & _).
  split; [exact Heq|]. rewrite Hspecs. injection Hpayload as <-. reflexivity.
Defined.



(** *** The script compiler *)

Section Script.

Import ApiServer.

Variable list_of_set : list string -> list string.

(** Every scene header is one of the pieces of the script. *)
Lemma script_has_header (header : string) insights user_query generator_type webpage :
  In header [scene1; scene2; scene3; scene4; scene5] ->
  Py.str_in header
    (generate_video_prompt_from_insights list_of_set insights user_query
       generator_type webpage) = true.
Proof.
  intros Hin. unfold generate_video_prompt_from_insights. cbv zeta.
  apply str_in_concat with (p := header ++ Py.NL); [|apply str_in_here].
  simpl in Hin.
  destruct Hin as [<-|[<-|[<-|[<-|[<-|[]]]]]]; in_pieces.
Qed.

(** C10. For every non-empty list of competitor insights, with or without a
    webpage brief, the script contains the five scene headers with their time
    ranges. *)
Theorem script_has_scene_headers (insights : list insight)
  (user_query generator_type : string) (webpage : option webpage_analysis) :
  insights <> [] ->
  let script :=
    generate_video_prompt_from_insights list_of_set insights user_query
      generator_type webpage in
  Py.str_in "SCENE 1: OPENING (0-3 seconds)" script = true
  /\ Py.str_in "SCENE 2: PROBLEM/HOOK (3-5 seconds)" script = true
  /\ Py.str_in "SCENE 3: SOLUTION/PRODUCT SHOWCASE (5-15 seconds)" script = true
  /\ Py.str_in "SCENE 4: BENEFITS & SOCIAL PROOF (15-20 seconds)" script = true
  /\ Py.str_in "SCENE 5: CALL-TO-ACTION (20-25 seconds)" script = true.
Proof.
  intros _. cbv zeta.
  repeat split; apply script_has_header; simpl; tauto.
Qed.

End Script.

(** The script compiled from the sample insight, without a webpage brief,
    has the five headers. *)
Lemma script_has_scene_headers_witness :
  [Samples.insight] <> []
  /\ Forall (fun header =>
       Py.str_in header
         (ApiServer.generate_video_prompt_from_insights Samples.set_order
            [Samples.insight] "Promo video for running shoes" "veo" None) = true)
       ["SCENE 1: OPENING (0-3 seconds)";
        "SCENE 2: PROBLEM/HOOK (3-5 seconds)";
        "SCENE 3: SOLUTION/PRODUCT SHOWCASE (5-15 seconds)";
        "SCENE 4: BENEFITS & SOCIAL PROOF (15-20 seconds)";
        "SCENE 5: CALL-TO-ACTION (20-25 seconds)"].
Proof.
  split; [discriminate|].
  destruct (script_has_scene_headers Samples.set_order [Samples.insight]
              "Promo video for running shoes" "veo" None ltac:(discriminate))
    as (H1 & H2 & H3 & H4 & H5).
  repeat constructor; assumption.
Defined.

(** *** Counters: counts, totals and distinct keys *)

Section CounterCounts.

Import Counter Notions.

Lemma fold_add_shift (l : list Z) (a : Z) :
  fold_left Z.add l a = a + fold_left Z.add l 0.
Proof.
  revert a. induction l as [|x l IH]; intros a; simpl; [lia|].
  rewrite (IH (a + x)), (IH x). lia.
Qed.

Lemma total_cons k n c : total ((k, n) :: c) = n + total c.
Proof. unfold total, values. simpl. now rewrite fold_add_shift. Qed.

Lemma total_incr k c : total (incr k c) = total c + 1.
Proof.
  induction c as [|[k' n] c IH]; simpl; [reflexivity|].
  destruct (String.eqb k k'); rewrite !total_cons; [lia | rewrite IH; lia].
Qed.

Lemma total_update ks : forall c, total (update c ks) = total c + Py.llen ks.
Proof.
  unfold update, Py.llen. induction ks as [|k ks IH]; intros c; simpl fold_left.
  - simpl. lia.
  - rewrite IH, total_incr. simpl List.length. lia.
Qed.

Lemma get_incr k k' c :
  get k (incr k' c) = get k c + (if String.eqb k k' then 1 else 0).
Proof.
  induction c as [|[k0 n] c IH]; simpl.
  - destruct (String.eqb k k'); lia.
  - destruct (String.eqb k' k0) eqn:E1; simpl.
    + apply String.eqb_eq in E1. subst k0.
      destruct (String.eqb k k'); lia.
    + destruct (String.eqb k k0) eqn:E2; [|exact IH].
      apply String.eqb_eq in E2. subst k0.
      rewrite String.eqb_sym in E1. rewrite E1. lia.
Qed.

Lemma get_update k ks :
  forall c, get k (update c ks) = get k c + Notions.occurrences k ks.
Proof.
  unfold update, Notions.occurrences, Py.llen.
  induction ks as [|k' ks IH]; intros c; simpl fold_left.
  - simpl. lia.
  - rewrite IH, get_incr. simpl filter.
    destruct (String.eqb k k'); simpl List.length; lia.
Qed.

Lemma counted_nil : counted [].
Proof. split; constructor. Qed.

Lemma incr_keys_in k c x : In x (keys c) -> In x (keys (incr k c)).
Proof.
  unfold keys. induction c as [|[k' n] c IH]; simpl; [contradiction|].
  destruct (String.eqb k k'); simpl; intros [<-|H]; auto.
Qed.

Lemma counted_incr k c : counted c -> counted (incr k c).
Proof.
  intros [Hnd Hpos]. induction c as [|[k' n] c IH]; simpl.
  - split; [repeat constructor; auto | repeat constructor; simpl; lia].
  - inversion Hnd as [|x l Hnot Hnd']; subst.
    inversion Hpos as [|x l Hn Hpos']; subst. simpl in Hn.
    destruct (String.eqb k k') eqn:E.
    + split; [exact Hnd|]. constructor; [simpl; lia | exact Hpos'].
    + destruct (IH Hnd' Hpos') as [IH1 IH2].
      split; [|constructor; [exact Hn | exact IH2]].
      unfold keys in *. simpl. constructor; [|exact IH1].
      intros Hin. apply incr_keys in Hin. destruct Hin as [->|Hin]; [|contradiction].
      now rewrite String.eqb_refl in E.
Qed.

Lemma counted_update ks : forall c, counted c -> counted (update c ks).
Proof.
  unfold update. induction ks as [|k ks IH]; intros c Hc; simpl; [exact Hc|].
  apply IH, counted_incr, Hc.
Qed.

Lemma get_in k n c : NoDup (keys c) -> In (k, n) c -> get k c = n.
Proof.
  unfold keys. induction c as [|[k' n'] c IH]; simpl; intros Hnd Hin; [contradiction|].
  inversion Hnd as [|x l Hnot Hnd']; subst.
  destruct Hin as [Heq|Hin].
  - injection Heq as -> ->. now rewrite String.eqb_refl.
  - destruct (String.eqb k k') eqn:E; [|now apply IH].
    apply String.eqb_eq in E. subst k'. exfalso. apply Hnot.
    change k with (fst (k, n)). now apply in_map.
Qed.

Lemma get_absent k c : ~ In k (keys c) -> get k c = 0.
Proof.
  unfold keys. induction c as [|[k' n'] c IH]; simpl; intros Hnot; [reflexivity|].
  destruct (String.eqb k k') eqn:E.
  - apply String.eqb_eq in E. subst k'. exfalso. apply Hnot. now left.
  - apply IH. intros H. apply Hnot. now right.
Qed.

Lemma get_nonneg k c : counted c -> 0 <= get k c.
Proof.
  intros [_ Hpos]. induction c as [|[k' n'] c IH]; simpl; [lia|].
  inversion Hpos as [|x l Hn Hpos']; subst. simpl in Hn.
  destruct (String.eqb k k'); [lia | now apply IH].
Qed.

Lemma get_present k c : In k (keys c) -> exists n, In (k, n) c.
Proof.
  unfold keys. intros H. apply in_map_iff in H. destruct H as ([k' n] & Hk & Hin).
  simpl in Hk. subst k'. now exists n.
Qed.

Lemma incr_length k c :
  (List.length c <= List.length (incr k c) <= S (List.length c))%nat.
Proof.
  induction c as [|[k' n] c IH]; simpl; [lia|].
  destruct (String.eqb k k'); simpl; lia.
Qed.

Lemma update_length ks :
  forall c, (List.length c <= List.length (update c ks)
             <= List.length c + List.length ks)%nat.
Proof.
  unfold update. induction ks as [|k ks IH]; intros c; simpl; [lia|].
  specialize (IH (incr k c)). pose proof (incr_length k c). lia.
Qed.

Lemma incr_nonempty k c : incr k c <> [].
Proof. destruct c as [|[k' n] c]; simpl; [|destruct (String.eqb k k')]; discriminate. Qed.

Lemma of_list_empty ks : of_list ks = [] <-> ks = [].
Proof.
  unfold of_list. split; [|now intros ->].
  destruct ks as [|k ks]; [reflexivity|]. intros H. exfalso.
  change (update [] (k :: ks)) with (update (incr k []) ks) in H.
  pose proof (update_length ks (incr k [])) as Hl.
  rewrite H in Hl. simpl in Hl. lia.
Qed.

Lemma counted_of_list ks : counted (of_list ks).
Proof. apply counted_update, counted_nil. Qed.

Lemma get_of_list k ks : get k (of_list ks) = Notions.occurrences k ks.
Proof. unfold of_list. now rewrite get_update. Qed.

Lemma total_of_list ks : total (of_list ks) = Py.llen ks.
Proof. unfold of_list. now rewrite total_update. Qed.

Lemma item_eq_dec (a b : string * Z) : {a = b} + {a <> b}.
Proof. decide equality; [apply Z.eq_dec | apply string_dec]. Qed.

(** The first item of the descending sort has the greatest count. *)
Lemma most_common_first c x rest :
  most_common 1 c = x :: rest ->
  rest = [] /\ In x c /\ forall y, In y c -> snd y <= snd x.
Proof.
  intros H.
  assert (Hlen := most_common_length 1 c). rewrite H in Hlen. simpl in Hlen.
  destruct rest; [|simpl in Hlen; lia].
  assert (Hx : In x (most_common 1 c)) by (rewrite H; now left).
  split; [reflexivity|]. split; [exact (most_common_in _ _ _ Hx)|].
  intros y Hy.
  destruct (In_dec item_eq_dec y (most_common 1 c)) as [Hin|Hnin].
  - rewrite H in Hin. destruct Hin as [->|[]]. lia.
  - exact (most_common_top 1 c x y Hx Hy Hnin).
Qed.

Lemma most_common_nonempty n c : c <> [] -> most_common (S n) c <> [].
Proof.
  intros Hc H. unfold most_common in H.
  assert (Hp := sort_desc_perm c).
  destruct (sort_desc c) as [|x l]; [|discriminate].
  apply Permutation_nil in Hp. contradiction.
Qed.

End CounterCounts.
(** *** Formats, brands and text lengths *)

Section FormatsAndBrands.

Import Notions.

Lemma occurrences_nonneg k ks : 0 <= occurrences k ks <= Py.llen ks.
Proof.
  unfold occurrences, Py.llen. pose proof (filter_length_le (String.eqb k) ks). lia.
Qed.

Lemma occurrences_in k ks : In k ks <-> 1 <= occurrences k ks.
Proof.
  unfold occurrences, Py.llen. induction ks as [|x ks IH]; simpl.
  - split; [contradiction | lia].
  - destruct (String.eqb k x) eqn:E; simpl List.length.
    + apply String.eqb_eq in E. subst x. split; [lia | now left].
    + apply String.eqb_neq in E. rewrite <- IH.
      split; [intros [H|H]; [congruence | exact H] | now right].
Qed.

(** A counter built from a list holds, for every key, the number of its
    occurrences. *)
Lemma of_list_items ks k n :
  In (k, n) (Counter.of_list ks) -> n = occurrences k ks /\ In k ks.
Proof.
  intros Hin.
  destruct (counted_of_list ks) as [Hnd Hpos].
  rewrite <- (get_in k n _ Hnd Hin), get_of_list. split; [reflexivity|].
  apply occurrences_in. rewrite <- get_of_list, (get_in k n _ Hnd Hin).
  rewrite Forall_forall in Hpos. exact (Hpos _ Hin).
Qed.

Lemma occurrences_format kind ads_data :
  kind <> "UNKNOWN" ->
  occurrences kind (map format_of ads_data)
  = Py.llen (filter (fun a => Trend.field_is (Trend.media_type a) kind) ads_data).
Proof.
  intros Hk. unfold occurrences, Py.llen.
  induction ads_data as [|a ads IH]; simpl; [reflexivity|].
  assert (Hstep : String.eqb kind (format_of a)
                  = Trend.field_is (Trend.media_type a) kind).
  { unfold format_of, Trend.get_or, Trend.field_is.
    destruct (Trend.media_type a) as [v|]; [apply String.eqb_sym|].
    now apply String.eqb_neq. }
  rewrite Hstep.
  destruct (Trend.field_is (Trend.media_type a) kind); simpl List.length; lia.
Qed.

(** The most common key of a list of keys. *)
Lemma most_common_of_list (ks : list string) :
  ks <> [] ->
  exists k,
    Counter.most_common 1 (Counter.of_list ks) = [(k, occurrences k ks)]
    /\ In k ks
    /\ forall other, occurrences other ks <= occurrences k ks.
Proof.
  intros Hne.
  assert (Hc : Counter.of_list ks <> []) by (now rewrite of_list_empty).
  destruct (Counter.most_common 1 (Counter.of_list ks)) as [|[k n] rest] eqn:Hm.
  - exfalso. now apply (most_common_nonempty 0 (Counter.of_list ks)).
  - destruct (most_common_first _ _ _ Hm) as (-> & Hin & Hmax).
    destruct (of_list_items _ _ _ Hin) as (Hn & Hk). subst n.
    exists k. split; [reflexivity|]. split; [exact Hk|]. intros other.
    destruct (counted_of_list ks) as [Hnd _].
    destruct (in_dec string_dec other (Counter.keys (Counter.of_list ks))) as [Hy|Hn].
    + destruct (get_present _ _ Hy) as (m & Hm').
      specialize (Hmax _ Hm'). simpl in Hmax.
      rewrite <- (get_of_list other ks), (get_in _ _ _ Hnd Hm'). exact Hmax.
    + apply get_absent in Hn. rewrite get_of_list in Hn. rewrite Hn.
      apply occurrences_nonneg.
Qed.

(** X1. For every list of ads, the preferred format is computed without an
    error; it is [Unknown] for the empty list, and otherwise the format of
    one of the ads, counted under [UNKNOWN] when the ad has no media type,
    such that no format has more ads. *)
Theorem preferred_format_is_most_frequent (ads_data : list Trend.ad) :
  exists p,
    TrendService._analyze_format_preferences ads_data = Py.Ok p
    /\ TrendService.format_distribution p = Trend.media_types ads_data
    /\ (ads_data = [] -> TrendService.preferred_format p = "Unknown")
    /\ (ads_data <> [] ->
        In (TrendService.preferred_format p) (map format_of ads_data)
        /\ forall kind,
             occurrences kind (map format_of ads_data)
             <= occurrences (TrendService.preferred_format p) (map format_of ads_data)).
Proof.
  unfold TrendService._analyze_format_preferences.
  change (Trend.media_types ads_data) with (Counter.of_list (map format_of ads_data)).
  destruct ads_data as [|a ads].
  - simpl. eexists. split; [reflexivity|]. simpl.
    split; [reflexivity|]. split; [reflexivity|]. intros H. now elim H.
  - destruct (most_common_of_list (map format_of (a :: ads))) as (k & Hm & Hk & Hmax);
      [discriminate|].
    rewrite Hm.
    destruct (Counter.of_list (map format_of (a :: ads))) as [|f fs] eqn:Hf.
    + apply (proj1 (of_list_empty _)) in Hf. discriminate.
    + simpl. eexists. split; [reflexivity|]. simpl.
      split; [reflexivity|]. split; [discriminate|]. intros _. now split.
Qed.

(** X2. For every list of ads, the counts of the brands add up to the number
    of ads; the number of competitors lies between zero and the number of
    ads and is zero only for the empty list; the market concentration is
    [Unknown] exactly for the empty list; at most five top competitors are
    listed, each with the number of ads counted under its name. *)
Theorem competitive_analysis_counts (pow2 : float -> float)
  (ads_data : list Trend.ad) :
  let analysis := TrendService._generate_competitive_analysis pow2 ads_data in
  Counter.total (Trend.brands_of ads_data) = Py.llen ads_data
  /\ 0 <= TrendService.total_competitors analysis <= Py.llen ads_data
  /\ (TrendService.total_competitors analysis = 0 <-> ads_data = [])
  /\ (TrendService.market_concentration analysis = "Unknown" <-> ads_data = [])
  /\ (List.length (TrendService.top_competitors analysis) <= 5)%nat
  /\ Forall (fun item =>
               snd item = occurrences (fst item) (map brand_of ads_data)
               /\ 1 <= snd item)
            (TrendService.top_competitors analysis).
Proof.
  cbv zeta. unfold TrendService._generate_competitive_analysis. simpl.
  change (Trend.brands_of ads_data) with (Counter.of_list (map brand_of ads_data)).
  assert (Htotal : Counter.total (Counter.of_list (map brand_of ads_data))
                   = Py.llen ads_data).
  { rewrite total_of_list. unfold Py.llen. now rewrite length_map. }
  assert (Hempty : Counter.of_list (map brand_of ads_data) = [] <-> ads_data = []).
  { rewrite of_list_empty. split; [apply map_eq_nil | now intros ->]. }
  split; [exact Htotal|]. split.
  { unfold Py.llen. pose proof (update_length (map brand_of ads_data) []) as Hl.
    fold (Counter.of_list (map brand_of ads_data)) in Hl.
    rewrite length_map in Hl. simpl in Hl. lia. }
  split.
  { rewrite <- Hempty. unfold Py.llen.
    destruct (Counter.of_list (map brand_of ads_data)); simpl; split;
      intros H; try reflexivity; try discriminate; lia. }
  split.
  { unfold Trend._calculate_market_concentration. rewrite Htotal.
    destruct ads_data as [|a ads].
    - split; reflexivity.
    - replace (Py.llen (a :: ads) =? 0) with false
        by (symmetry; apply Z.eqb_neq; unfold Py.llen; simpl List.length; lia).
      split; [|discriminate].
      destruct (Trend.gt _ _ _); [discriminate|].
      destruct (Trend.gt _ _ _); discriminate. }
  split; [apply most_common_length|].
  apply Forall_forall. intros [k n] Hin. apply most_common_in in Hin. simpl.
  destruct (of_list_items _ _ _ Hin) as (Hn & Hk).
  split; [exact Hn|]. rewrite Hn. now apply occurrences_in.
Qed.

Lemma filters_apart {A} (p q : A -> bool) (l : list A) :
  (forall x, p x = true -> q x = false) ->
  (List.length (filter p l) + List.length (filter q l) <= List.length l)%nat.
Proof.
  intros Hpq. induction l as [|x l IH]; simpl; [lia|].
  destruct (p x) eqn:Hp; [rewrite (Hpq x Hp)|destruct (q x)]; simpl; lia.
Qed.

(** X3. In every envelope that carries trends and metadata, the media type
    distribution of the overview agrees with the metadata: its [VIDEO] and
    [IMAGE] counts are [video_ads] and [image_ads], all its counts add up to
    [total_ads], and the videos and the images together are at most all
    ads. *)
Theorem distribution_agrees_with_metadata
  (fromisoformat : string -> option Datetime.datetime) (now stamp : Z)
  (ads_data : list Trend.ad) (analysis_type : string)
  (computed : Trend.trends) (meta : Trend.analysis_metadata) :
  let envelope :=
    Trend.analyze_trends_from_ads fromisoformat now stamp ads_data analysis_type in
  Trend.trends_of envelope = Some computed ->
  Trend.metadata envelope = Some meta ->
  let distribution := Trend.media_type_distribution (Trend.overview_of computed) in
  Counter.get "VIDEO" distribution = Trend.video_ads meta
  /\ Counter.get "IMAGE" distribution = Trend.image_ads meta
  /\ Counter.total distribution = Trend.total_ads meta
  /\ Trend.total_ads_analyzed (Trend.overview_of computed) = Trend.total_ads meta
  /\ Trend.image_ads meta + Trend.video_ads meta <= Trend.total_ads meta.
Proof.
  cbv zeta. unfold Trend.analyze_trends_from_ads.
  destruct ads_data as [|a ads]; [discriminate|].
  set (ads_data := a :: ads).
  unfold Trend._analyze_overview_trends.
  destruct (Trend._analyze_date_patterns fromisoformat now ads_data) as [dp|msg];
    [|discriminate].
  destruct (Trend._get_analysis_period fromisoformat ads_data) as [ap|msg];
    [|discriminate].
  simpl. intros Hc Hm. injection Hc as <-. injection Hm as <-. simpl.
  change (Trend.media_types ads_data) with (Counter.of_list (map format_of ads_data)).
  rewrite !get_of_list, total_of_list.
  rewrite !occurrences_format by discriminate.
  split; [reflexivity|]. split; [reflexivity|].
  split; [unfold Py.llen; now rewrite length_map|]. split; [reflexivity|].
  unfold Py.llen.
  pose proof (filters_apart
                (fun a => Trend.field_is (Trend.media_type a) "IMAGE")
                (fun a => Trend.field_is (Trend.media_type a) "VIDEO") ads_data) as H.
  assert (Hap : forall x : Trend.ad,
             Trend.field_is (Trend.media_type x) "IMAGE" = true ->
             Trend.field_is (Trend.media_type x) "VIDEO" = false).
  { intros x. unfold Trend.field_is. destruct (Trend.media_type x) as [v|]; [|discriminate].
    intros Hv. apply String.eqb_eq in Hv. now subst v. }
  specialize (H Hap). subst ads_data. simpl in H.
  destruct (Trend.field_is (Trend.media_type a) "IMAGE"),
    (Trend.field_is (Trend.media_type a) "VIDEO"); simpl List.length in *; lia.
Qed.

Lemma distribution_agrees_with_metadata_witness :
  exists computed meta,
    Trend.trends_of
      (Trend.analyze_trends_from_ads Datetime.fromisoformat_seconds
         Samples.clock Samples.clock Samples.three_ads "comprehensive") = Some computed
    /\ Trend.metadata
         (Trend.analyze_trends_from_ads Datetime.fromisoformat_seconds
            Samples.clock Samples.clock Samples.three_ads "comprehensive") = Some meta
    /\ Trend.media_type_distribution (Trend.overview_of computed)
       = [("VIDEO", 2); ("IMAGE", 1)]
    /\ Counter.get "VIDEO" (Trend.media_type_distribution (Trend.overview_of computed))
       = Trend.video_ads meta
    /\ Trend.video_ads meta = 2.
Proof.
  do 2 eexists.
  split; [vm_compute; reflexivity|]. split; [vm_compute; reflexivity|].
  split; [vm_compute; reflexivity|].
  split; [|vm_compute; reflexivity].
  eapply (distribution_agrees_with_metadata Datetime.fromisoformat_seconds
            Samples.clock Samples.clock Samples.three_ads "comprehensive");
    vm_compute; reflexivity.
Defined.

Lemma filter_three (l : list Z) :
  (List.length (filter (fun l => (l <=? 50)%Z) l)
   + List.length (filter (fun l => (51 <=? l)%Z && (l <=? 150)%Z) l)
   + List.length (filter (fun l => (150 <? l)%Z) l) = List.length l)%nat.
Proof.
  induction l as [|x l IH]; simpl; [reflexivity|].
  destruct (x <=? 50) eqn:E1; destruct (51 <=? x) eqn:E2;
    destruct (x <=? 150) eqn:E3; destruct (150 <? x) eqn:E4; simpl; lia.
Qed.

(** X4. For every list of ads, the text length distribution is empty exactly
    when no ad has a non-empty body; otherwise it has the three categories
    short, medium and long, in this order, and its counts add up to the
    number of ads with a non-empty body. *)
Theorem text_length_distribution_partitions (ads_data : list Trend.ad) :
  let distribution := TrendService._analyze_text_length_distribution ads_data in
  (distribution = [] <-> Trend.bodies ads_data = [])
  /\ (distribution = []
      \/ Counter.keys distribution = ["short (0-50)"; "medium (51-150)"; "long (151+)"])
  /\ Forall (fun item => 0 <= snd item) distribution
  /\ Counter.total distribution = Py.llen (Trend.bodies ads_data).
Proof.
  cbv zeta. unfold TrendService._analyze_text_length_distribution.
  destruct (Trend.bodies ads_data) as [|b bs] eqn:Hb.
  - simpl. repeat split; auto.
  - change (map Py.len (b :: bs)) with (Py.len b :: map Py.len bs). cbv iota.
    set (lengths := Py.len b :: map Py.len bs).
    split; [split; discriminate|]. split; [now right|].
    split; [repeat constructor; unfold Py.llen; simpl; lia|].
    rewrite !total_cons. unfold Counter.total. simpl fold_left.
    pose proof (filter_three lengths) as H3.
    assert (Hn : List.length lengths = List.length (b :: bs))
      by (subst lengths; simpl; now rewrite length_map).
    unfold Py.llen. lia.
Qed.

End FormatsAndBrands.
(** *** Keyword counters *)

Section KeywordCounts.

Import Counter Notions.

Lemma nodup_by_computation (l : list string) : nodup string_dec l = l -> NoDup l.
Proof. intros <-. apply NoDup_nodup. Qed.

Lemma get_count_inner k category (p : string -> bool) keywords :
  forall c,
    get k (fold_left (fun counts keyword =>
                        if p keyword then incr category counts else counts)
                     keywords c)
    = get k c + (if String.eqb k category then Py.llen (filter p keywords) else 0).
Proof.
  unfold Py.llen. induction keywords as [|kw kws IH]; intros c; simpl fold_left.
  - simpl. destruct (String.eqb k category); lia.
  - rewrite IH. simpl filter. destruct (p kw).
    + rewrite get_incr. destruct (String.eqb k category); simpl List.length; lia.
    + reflexivity.
Qed.

Lemma counted_count_inner category (p : string -> bool) keywords :
  forall c, counted c ->
    counted (fold_left (fun counts keyword =>
                          if p keyword then incr category counts else counts)
                       keywords c).
Proof.
  induction keywords as [|kw kws IH]; intros c Hc; simpl; [exact Hc|].
  apply IH. destruct (p kw); [now apply counted_incr | exact Hc].
Qed.

Lemma keys_count_inner category (p : string -> bool) keywords x :
  forall c,
    In x (keys (fold_left (fun counts keyword =>
                             if p keyword then incr category counts else counts)
                          keywords c)) ->
    x = category \/ In x (keys c).
Proof.
  induction keywords as [|kw kws IH]; intros c H; simpl in H; [now right|].
  destruct (IH _ H) as [->|H']; [now left|].
  destruct (p kw); [|now right]. now apply incr_keys in H'.
Qed.

Lemma get_count_table k table text :
  forall c,
    get k (fold_left (fun counts' '(category, keywords) =>
             fold_left (fun counts'' keyword =>
                          if Py.str_in keyword (Py.lower text)
                          then incr category counts'' else counts'')
                       keywords counts')
             table c)
    = get k c + table_hits table k text.
Proof.
  induction table as [|[category keywords] table IH]; intros c; simpl fold_left.
  - simpl. lia.
  - rewrite IH, get_count_inner. simpl table_hits. unfold hits.
    destruct (String.eqb k category); lia.
Qed.

Lemma counted_count_table table text :
  forall c, counted c ->
    counted (fold_left (fun counts' '(category, keywords) =>
               fold_left (fun counts'' keyword =>
                            if Py.str_in keyword (Py.lower text)
                            then incr category counts'' else counts'')
                         keywords counts')
               table c).
Proof.
  induction table as [|[category keywords] table IH]; intros c Hc; simpl;
    [exact Hc|].
  apply IH. now apply counted_count_inner.
Qed.

Lemma keys_count_table table text x :
  forall c,
    In x (keys (fold_left (fun counts' '(category, keywords) =>
                  fold_left (fun counts'' keyword =>
                               if Py.str_in keyword (Py.lower text)
                               then incr category counts'' else counts'')
                            keywords counts')
                  table c)) ->
    In x (map fst table) \/ In x (keys c).
Proof.
  induction table as [|[category keywords] table IH]; intros c H; simpl in H;
    [now right|].
  destruct (IH _ H) as [H'|H']; [left; now right|].
  apply keys_count_inner in H'. destruct H' as [->|H']; [left; now left | now right].
Qed.

Lemma table_hits_sum table k texts :
  forall c,
    get k (fold_left (fun counts text =>
        fold_left (fun counts' '(category, keywords) =>
          fold_left (fun counts'' keyword =>
                       if Py.str_in keyword (Py.lower text)
                       then incr category counts'' else counts'')
                    keywords counts')
          table counts)
        texts c)
    = get k c + fold_right (fun text acc => table_hits table k text + acc) 0 texts.
Proof.
  induction texts as [|text texts IH]; intros c; simpl fold_left.
  - simpl. lia.
  - rewrite IH, get_count_table. simpl fold_right. lia.
Qed.

Lemma table_hits_unique table k keywords text :
  NoDup (map fst table) -> In (k, keywords) table ->
  table_hits table k text = hits keywords text.
Proof.
  induction table as [|[category kws] table IH]; simpl; intros Hnd Hin;
    [contradiction|].
  inversion Hnd as [|x l Hnot Hnd']; subst.
  assert (Habsent : forall tb, ~ In k (map fst tb) -> table_hits tb k text = 0).
  { clear. induction tb as [|[c1 k1] tb IHt]; simpl; intros Hn; [reflexivity|].
    destruct (String.eqb k c1) eqn:E.
    - apply String.eqb_eq in E. subst c1. exfalso. apply Hn. now left.
    - rewrite IHt; [lia|]. intros H. apply Hn. now right. }
  destruct Hin as [Heq|Hin].
  - injection Heq as -> ->. rewrite String.eqb_refl, Habsent; [lia | exact Hnot].
  - destruct (String.eqb k category) eqn:E.
    + apply String.eqb_eq in E. subst category. exfalso. apply Hnot.
      change k with (fst (k, keywords)). now apply in_map.
    + rewrite IH by assumption. lia.
Qed.

(** What a keyword counter holds: for every category of its table, the hits
    of the category's keywords summed over the texts. *)
Lemma count_keyword_hits_counts table texts :
  NoDup (map fst table) ->
  let counts := Trend.count_keyword_hits table texts in
  counted counts
  /\ (forall category keywords, In (category, keywords) table ->
        get category counts = total_hits keywords texts)
  /\ (forall k, In k (keys counts) -> In k (map fst table)).
Proof.
  intros Hnd. cbv zeta. unfold Trend.count_keyword_hits. cbv zeta.
  split; [|split].
  - generalize (@nil (string * Z)) counted_nil.
    induction texts as [|text texts IH]; intros c Hc; simpl; [exact Hc|].
    apply IH. now apply counted_count_table.
  - intros category keywords Hin. rewrite table_hits_sum. simpl get.
    induction texts as [|text texts IH]; simpl; [reflexivity|].
    rewrite (table_hits_unique _ _ _ _ Hnd Hin). lia.
  - intros k.
    assert (H : forall c, In k (keys (fold_left (fun counts text =>
        fold_left (fun counts' '(category, keywords) =>
          fold_left (fun counts'' keyword =>
                       if Py.str_in keyword (Py.lower text)
                       then incr category counts'' else counts'')
                    keywords counts')
          table counts) texts c)) -> In k (map fst table) \/ In k (keys c)).
    { induction texts as [|text texts IH]; intros c H; simpl in H; [now right|].
      destruct (IH _ H) as [H'|H']; [now left|].
      now apply keys_count_table in H'. }
    intros Hk. destruct (H _ Hk) as [H'|[]]. exact H'.
Qed.

Lemma hits_bounds keywords text : 0 <= hits keywords text <= Py.llen keywords.
Proof.
  unfold hits, Py.llen.
  pose proof (filter_length_le (fun keyword => Py.str_in keyword (Py.lower text)) keywords).
  lia.
Qed.

Lemma total_hits_nonneg keywords texts : 0 <= total_hits keywords texts.
Proof.
  induction texts as [|text texts IH]; simpl; [lia|].
  pose proof (hits_bounds keywords text). lia.
Qed.

(** The entries of a keyword counter, read back through its table. *)
Lemma count_keyword_hits_items table texts :
  NoDup (map fst table) ->
  let counts := Trend.count_keyword_hits table texts in
  NoDup (keys counts)
  /\ Forall (fun item =>
               exists keywords,
                 In (fst item, keywords) table
                 /\ snd item = total_hits keywords texts
                 /\ 1 <= snd item) counts
  /\ Forall (fun entry =>
               In (fst entry) (keys counts) <-> 1 <= total_hits (snd entry) texts)
            table.
Proof.
  intros Hnd. cbv zeta.
  destruct (count_keyword_hits_counts table texts Hnd) as ((Hk & Hpos) & Hget & Hkeys).
  split; [exact Hk|]. split.
  - apply Forall_forall. intros [k n] Hin. simpl.
    assert (Hin' : In k (map fst table)).
    { apply Hkeys. unfold keys. change k with (fst (k, n)). now apply in_map. }
    apply in_map_iff in Hin'. destruct Hin' as ([k' keywords] & Hfst & Hentry).
    simpl in Hfst. subst k'. exists keywords. split; [exact Hentry|].
    rewrite <- (Hget _ _ Hentry), (get_in _ _ _ Hk Hin).
    split; [reflexivity|]. rewrite Forall_forall in Hpos. exact (Hpos _ Hin).
  - apply Forall_forall. intros [category keywords] Hentry. simpl.
    rewrite <- (Hget _ _ Hentry). split.
    + intros Hin. destruct (get_present _ _ Hin) as (n & Hn).
      rewrite (get_in _ _ _ Hk Hn). rewrite Forall_forall in Hpos. exact (Hpos _ Hn).
    + intros Hge.
      destruct (in_dec string_dec category (keys (Trend.count_keyword_hits table texts)))
        as [Hy|Hn]; [exact Hy|].
      apply get_absent in Hn. lia.
Qed.

(** X5. For every list of texts, the emotional tone and the value
    propositions hold each category at most once; a category is listed with
    the number of hits of its keywords, summed over the texts (a text counts
    once for every keyword of the category it contains), and it is listed
    exactly when this number is at least one. *)
Theorem keyword_counters_count_hits (texts : list string) :
  let tone := TrendService._analyze_emotional_tone texts in
  let value := TrendService._analyze_value_propositions texts in
  (NoDup (Counter.keys tone)
   /\ Forall (fun item =>
                exists keywords,
                  In (fst item, keywords) TrendService.emotional_keywords
                  /\ snd item = total_hits keywords texts
                  /\ 1 <= snd item) tone
   /\ Forall (fun entry =>
                In (fst entry) (Counter.keys tone)
                <-> 1 <= total_hits (snd entry) texts)
             TrendService.emotional_keywords)
  /\ (NoDup (Counter.keys value)
      /\ Forall (fun item =>
                   exists keywords,
                     In (fst item, keywords) TrendService.value_keywords
                     /\ snd item = total_hits keywords texts
                     /\ 1 <= snd item) value
      /\ Forall (fun entry =>
                   In (fst entry) (Counter.keys value)
                   <-> 1 <= total_hits (snd entry) texts)
                TrendService.value_keywords).
Proof.
  cbv zeta. split.
  - apply (count_keyword_hits_items TrendService.emotional_keywords texts).
    apply nodup_by_computation. reflexivity.
  - apply (count_keyword_hits_items TrendService.value_keywords texts).
    apply nodup_by_computation. reflexivity.
Qed.

Lemma firstn_nodup {A} n (l : list A) : NoDup l -> NoDup (firstn n l).
Proof.
  intros H. rewrite <- (firstn_skipn n l) in H. now apply NoDup_app_remove_r in H.
Qed.

Lemma most_common_nodup n c : NoDup (keys c) -> NoDup (keys (most_common n c)).
Proof.
  intros H. unfold most_common, keys. rewrite <- firstn_map. apply firstn_nodup.
  eapply Permutation_NoDup; [|exact H].
  apply Permutation_map. symmetry. apply sort_desc_perm.
Qed.

Lemma sorted_by_count c l :
  NoDup (keys c) -> (forall x, In x l -> In x c) -> StronglySorted Spec.desc l ->
  StronglySorted (fun a b => get b c <= get a c) (map fst l).
Proof.
  intros Hnd Hsub Hs. induction Hs as [|x l Hs IH Hall]; simpl; constructor.
  - apply IH. intros y Hy. apply Hsub. now right.
  - apply Forall_forall. intros k Hk. apply in_map_iff in Hk.
    destruct Hk as ([k' n] & Hfst & Hin). simpl in Hfst. subst k'.
    rewrite Forall_forall in Hall. specialize (Hall _ Hin). unfold Spec.desc in Hall.
    destruct x as [kx nx]. simpl in *.
    rewrite (get_in kx nx c Hnd) by (apply Hsub; now left).
    rewrite (get_in k n c Hnd) by (apply Hsub; now right).
    exact Hall.
Qed.

Lemma category_hits_get table texts k :
  get k (Trend.count_keyword_hits table texts) = category_hits table k texts.
Proof.
  unfold Trend.count_keyword_hits. cbv zeta. rewrite table_hits_sum. reflexivity.
Qed.

(** X6. For every list of texts, the themes are at most five distinct
    categories of the theme table, each with at least one hit of its
    keywords; they are listed by descending number of hits, and a category
    that is left out has no more hits than any theme that is listed. *)
Theorem themes_are_top_categories (texts : list string) :
  let themes := Trend._extract_themes texts in
  (List.length themes <= 5)%nat
  /\ NoDup themes
  /\ Forall (fun theme =>
               exists keywords,
                 In (theme, keywords) Trend.theme_keywords
                 /\ category_hits Trend.theme_keywords theme texts
                    = total_hits keywords texts
                 /\ 1 <= total_hits keywords texts) themes
  /\ StronglySorted (fun a b => category_hits Trend.theme_keywords b texts
                                <= category_hits Trend.theme_keywords a texts) themes
  /\ (forall theme other,
        In theme themes -> ~ In other themes ->
        category_hits Trend.theme_keywords other texts
        <= category_hits Trend.theme_keywords theme texts).
Proof.
  cbv zeta. unfold Trend._extract_themes.
  change (firstn 5 (sort_desc (Trend.count_keyword_hits Trend.theme_keywords texts)))
    with (most_common 5 (Trend.count_keyword_hits Trend.theme_keywords texts)).
  set (counts := Trend.count_keyword_hits Trend.theme_keywords texts).
  assert (Hnd : NoDup (map fst Trend.theme_keywords))
    by (apply nodup_by_computation; reflexivity).
  destruct (count_keyword_hits_items Trend.theme_keywords texts Hnd)
    as (Hk & Hitems & _). fold counts in Hk, Hitems.
  split; [rewrite length_map; apply most_common_length|].
  split; [apply (most_common_nodup 5 counts Hk)|].
  split.
  { apply Forall_forall. intros theme Hin. apply in_map_iff in Hin.
    destruct Hin as ([k n] & Hfst & Hin). simpl in Hfst. subst k.
    apply most_common_in in Hin. rewrite Forall_forall in Hitems.
    destruct (Hitems _ Hin) as (keywords & Hentry & Hn & Hpos). simpl in *.
    exists keywords. split; [exact Hentry|].
    rewrite <- category_hits_get. fold counts. rewrite (get_in _ _ _ Hk Hin).
    split; [exact Hn | now rewrite <- Hn]. }
  split.
  { assert (Hs := sorted_by_count counts (most_common 5 counts) Hk
                    (fun x => most_common_in 5 counts x) (most_common_sorted 5 counts)).
    clear - Hs. subst counts.
    induction Hs as [|x l Hs IH Hall]; constructor; [exact IH|].
    apply Forall_forall. intros k Hin. rewrite Forall_forall in Hall.
    rewrite <- !category_hits_get. now apply Hall. }
  intros theme other Hin Hout. rewrite <- !category_hits_get. fold counts.
  apply in_map_iff in Hin. destruct Hin as ([k n] & Hfst & Hin). simpl in Hfst. subst k.
  rewrite (get_in theme n counts Hk (most_common_in _ _ _ Hin)).
  destruct (in_dec string_dec other (keys counts)) as [Hy|Hn].
  - destruct (get_present _ _ Hy) as (m & Hm). rewrite (get_in _ _ _ Hk Hm).
    apply (most_common_top 5 counts (theme, n) (other, m) Hin Hm).
    intros Hc. apply Hout. change other with (fst (other, m)). now apply in_map.
  - rewrite (get_absent _ _ Hn).
    destruct (count_keyword_hits_counts Trend.theme_keywords texts Hnd) as ((_ & Hpos) & _).
    fold counts in Hpos. rewrite Forall_forall in Hpos.
    specialize (Hpos _ (most_common_in _ _ _ Hin)). simpl in Hpos. lia.
Qed.

Lemma occurrences_filter_nodup (p : string -> bool) (l : list string) k :
  NoDup l -> In k l -> occurrences k (filter p l) = if p k then 1 else 0.
Proof.
  unfold occurrences, Py.llen.
  induction l as [|x l IH]; simpl; intros Hnd Hin; [contradiction|].
  inversion Hnd as [|y l' Hnot Hnd']; subst.
  assert (Hout : forall l0, ~ In k l0 ->
                   List.length (filter (String.eqb k) (filter p l0)) = 0%nat).
  { clear. induction l0 as [|y l0 IHl]; simpl; intros Hn; [reflexivity|].
    destruct (p y); simpl.
    - destruct (String.eqb k y) eqn:E.
      + apply String.eqb_eq in E. subst y. exfalso. apply Hn. now left.
      + apply IHl. intros H. apply Hn. now right.
    - apply IHl. intros H. apply Hn. now right. }
  destruct Hin as [->|Hin].
  - destruct (p k); simpl.
    + rewrite String.eqb_refl. simpl. now rewrite (Hout l Hnot).
    + now rewrite (Hout l Hnot).
  - assert (Hne : String.eqb k x = false).
    { apply String.eqb_neq. intros ->. contradiction. }
    destruct (p x); simpl; [rewrite Hne|]; now apply IH.
Qed.

Lemma get_count_ctas_inner k text patterns :
  forall c,
    get k (fold_left (fun counts cta =>
                        if Py.str_in cta (Py.lower text) then incr cta counts else counts)
                     patterns c)
    = get k c
      + occurrences k (filter (fun cta => Py.str_in cta (Py.lower text)) patterns).
Proof.
  unfold occurrences, Py.llen.
  induction patterns as [|cta ctas IH]; intros c; simpl fold_left.
  - simpl. lia.
  - rewrite IH. simpl filter. destruct (Py.str_in cta (Py.lower text)).
    + rewrite get_incr. simpl filter.
      destruct (String.eqb k cta); simpl List.length; lia.
    + reflexivity.
Qed.

Lemma counted_ctas_inner text patterns :
  forall c, counted c ->
    counted (fold_left (fun counts cta =>
                          if Py.str_in cta (Py.lower text) then incr cta counts else counts)
                       patterns c).
Proof.
  induction patterns as [|cta ctas IH]; intros c Hc; simpl; [exact Hc|].
  apply IH. destruct (Py.str_in cta (Py.lower text)); [now apply counted_incr | exact Hc].
Qed.

Lemma keys_ctas_inner text patterns k :
  forall c,
    In k (keys (fold_left (fun counts cta =>
                             if Py.str_in cta (Py.lower text)
                             then incr cta counts else counts)
                          patterns c)) ->
    In k patterns \/ In k (keys c).
Proof.
  induction patterns as [|cta ctas IH]; intros c H; simpl in H; [now right|].
  destruct (IH _ H) as [H'|H']; [left; now right|].
  destruct (Py.str_in cta (Py.lower text)); [|now right].
  apply incr_keys in H'. destruct H' as [->|H']; [left; now left | now right].
Qed.

Lemma ctas_fold_counts patterns texts :
  NoDup patterns ->
  let counts :=
    fold_left (fun cta_counts text =>
      fold_left (fun counts cta =>
                   if Py.str_in cta (Py.lower text) then incr cta counts else counts)
                patterns cta_counts)
      texts [] in
  counted counts
  /\ (forall cta, In cta patterns -> get cta counts = texts_with cta texts)
  /\ (forall k, In k (keys counts) -> In k patterns).
Proof.
  intros Hnd. cbv zeta. split; [|split].
  - generalize (@nil (string * Z)) counted_nil.
    induction texts as [|text texts IH]; intros c Hc; simpl; [exact Hc|].
    apply IH. now apply counted_ctas_inner.
  - intros cta Hin.
    assert (H : forall c,
      get cta (fold_left (fun cta_counts text =>
          fold_left (fun counts cta0 =>
                       if Py.str_in cta0 (Py.lower text)
                       then incr cta0 counts else counts)
                    patterns cta_counts) texts c)
      = get cta c + texts_with cta texts).
    { unfold texts_with, Py.llen.
      induction texts as [|text texts IH]; intros c; simpl fold_left.
      - simpl. lia.
      - rewrite IH, get_count_ctas_inner, (occurrences_filter_nodup _ _ _ Hnd Hin).
        simpl filter. destruct (Py.str_in cta (Py.lower text)); simpl List.length; lia. }
    rewrite H. simpl. lia.
  - intros k.
    assert (H : forall c,
      In k (keys (fold_left (fun cta_counts text =>
          fold_left (fun counts cta0 =>
                       if Py.str_in cta0 (Py.lower text)
                       then incr cta0 counts else counts)
                    patterns cta_counts) texts c)) ->
      In k patterns \/ In k (keys c)).
    { induction texts as [|text texts IH]; intros c H; simpl in H; [now right|].
      destruct (IH _ H) as [H'|H']; [now left|].
      now apply keys_ctas_inner in H'. }
    intros Hk. destruct (H _ Hk) as [H'|[]]. exact H'.
Qed.

Lemma count_ctas_counts texts :
  let counts := TrendService.count_ctas texts in
  counted counts
  /\ (forall cta, In cta TrendService.cta_patterns ->
        get cta counts = texts_with cta texts)
  /\ (forall k, In k (keys counts) -> In k TrendService.cta_patterns).
Proof.
  apply (ctas_fold_counts TrendService.cta_patterns texts).
  apply nodup_by_computation. reflexivity.
Qed.

Lemma texts_with_bounds needle texts : 0 <= texts_with needle texts <= Py.llen texts.
Proof.
  unfold texts_with, Py.llen.
  pose proof (filter_length_le (fun text => Py.str_in needle (Py.lower text)) texts). lia.
Qed.

(** X7. For every list of texts, the call-to-action patterns returned are at
    most ten distinct patterns of the fixed list, in descending order of
    count; the count of a pattern is the number of texts that contain it,
    case apart, and it is at least one; a pattern that is left out is
    contained in no more texts than any pattern returned. *)
Theorem cta_patterns_count_texts (texts : list string) :
  let result := TrendService._analyze_cta_patterns texts in
  (List.length result <= 10)%nat
  /\ NoDup (Counter.keys result)
  /\ StronglySorted Spec.desc result
  /\ Forall (fun item =>
               In (fst item) TrendService.cta_patterns
               /\ snd item = texts_with (fst item) texts
               /\ 1 <= snd item <= Py.llen texts) result
  /\ (forall item cta,
        In item result -> In cta TrendService.cta_patterns ->
        ~ In cta (Counter.keys result) -> texts_with cta texts <= snd item).
Proof.
  cbv zeta. unfold TrendService._analyze_cta_patterns.
  destruct (count_ctas_counts texts) as ((Hk & Hpos) & Hget & Hkeys).
  set (counts := TrendService.count_ctas texts) in *.
  split; [apply most_common_length|].
  split; [now apply most_common_nodup|].
  split; [apply most_common_sorted|].
  split.
  - apply Forall_forall. intros [k n] Hin. apply most_common_in in Hin. simpl.
    assert (Hp : In k TrendService.cta_patterns).
    { apply Hkeys. unfold keys. change k with (fst (k, n)). now apply in_map. }
    split; [exact Hp|].
    rewrite <- (Hget _ Hp), (get_in _ _ _ Hk Hin). split; [reflexivity|].
    rewrite Forall_forall in Hpos. specialize (Hpos _ Hin). simpl in Hpos.
    split; [exact Hpos|].
    rewrite <- (get_in _ _ _ Hk Hin), (Hget _ Hp). apply texts_with_bounds.
  - intros [k n] cta Hin Hp Hout. simpl. rewrite <- (Hget _ Hp).
    destruct (in_dec string_dec cta (keys counts)) as [Hy|Hn].
    + destruct (get_present _ _ Hy) as (m & Hm). rewrite (get_in _ _ _ Hk Hm).
      apply (most_common_top 10 counts (k, n) (cta, m) Hin Hm).
      intros Hc. apply Hout. unfold keys. change cta with (fst (cta, m)).
      now apply in_map.
    + rewrite (get_absent _ _ Hn). rewrite Forall_forall in Hpos.
      specialize (Hpos _ (most_common_in _ _ _ Hin)). simpl in Hpos. lia.
Qed.

End KeywordCounts.

(** *** Phrase patterns *)

Section Phrases.

Import Counter Notions.





End Phrases.


(** *** Words in joined texts *)

Section JoinedTexts.

Import Notions.

Lemma prefix_app_l (w a b : string) :
  String.prefix w a = true -> String.prefix w (a ++ b) = true.
Proof.
  revert a. induction w as [|x w IH]; intros a H.
  - now destruct (a ++ b).
  - destruct a as [|y a]; [discriminate|]. simpl in *.
    destruct (Ascii.ascii_dec x y); [now apply IH | discriminate].
Qed.

Lemma str_in_app_l (w a b : string) :
  Py.str_in w a = true -> Py.str_in w (a ++ b) = true.
Proof.
  induction a as [|c a IH]; intros H.
  - destruct w as [|x w]; [now destruct b | discriminate].
  - change (Py.str_in w (String c a))
      with (String.prefix w (String c a) || Py.str_in w a) in H.
    change (Py.str_in w (String c a ++ b))
      with (String.prefix w (String c a ++ b) || Py.str_in w (a ++ b)).
    apply orb_true_iff in H. destruct H as [H|H].
    + now rewrite (prefix_app_l _ _ b H).
    + rewrite (IH H). apply orb_true_r.
Qed.

Lemma str_in_empty (w : string) : Py.str_in w "" = negb (Py.truthy w).
Proof. now destruct w. Qed.

(** A word without a space that starts before a space ends before it. *)
Lemma prefix_before_space (w a c : string) :
  spaceless w = true -> String.prefix w (a ++ String " " c) = String.prefix w a.
Proof.
  unfold spaceless. intros H. apply andb_true_iff in H. destruct H as [Hne Hw].
  destruct w as [|x w]; [discriminate|]. clear Hne.
  revert a. generalize dependent x. induction w as [|y w IH]; intros x Hw a.
  - simpl in Hw. rewrite andb_true_r in Hw. apply negb_true_iff in Hw.
    apply Ascii.eqb_neq in Hw.
    destruct a as [|z a]; simpl.
    + destruct (Ascii.ascii_dec x " "); [contradiction | reflexivity].
    + destruct (Ascii.ascii_dec x z); [|reflexivity]. destruct a; reflexivity.
  - simpl in Hw. apply andb_true_iff in Hw. destruct Hw as [Hx Hw].
    apply negb_true_iff in Hx. apply Ascii.eqb_neq in Hx.
    destruct a as [|z a].
    + simpl. destruct (Ascii.ascii_dec x " "); [contradiction | reflexivity].
    + change (String.prefix (String x (String y w)) (String z a ++ String " " c))
        with (if Ascii.ascii_dec x z
              then String.prefix (String y w) (a ++ String " " c) else false).
      change (String.prefix (String x (String y w)) (String z a))
        with (if Ascii.ascii_dec x z then String.prefix (String y w) a else false).
      destruct (Ascii.ascii_dec x z); [|reflexivity]. now apply IH.
Qed.

Lemma str_in_across_space (w a c : string) :
  spaceless w = true ->
  Py.str_in w (a ++ String " " c) = Py.str_in w a || Py.str_in w c.
Proof.
  intros Hw. induction a as [|z a IH].
  - change (Py.str_in w ("" ++ String " " c))
      with (String.prefix w ("" ++ String " " c) || Py.str_in w c).
    rewrite (prefix_before_space w "" c Hw).
    rewrite str_in_empty. unfold spaceless in Hw. apply andb_true_iff in Hw.
    destruct Hw as [Hne _]. rewrite Hne. now destruct w.
  - change (Py.str_in w (String z a ++ String " " c))
      with (String.prefix w (String z a ++ String " " c)
            || Py.str_in w (a ++ String " " c)).
    change (Py.str_in w (String z a))
      with (String.prefix w (String z a) || Py.str_in w a).
    rewrite (prefix_before_space w (String z a) c Hw), IH.
    now rewrite orb_assoc.
Qed.

(** Joining texts with a space creates no occurrence of such a word: the
    word is in the joined text exactly when it is in one of the texts. *)
Lemma str_in_join (w : string) (texts : list string) :
  spaceless w = true ->
  Py.str_in w (Py.join " " texts) = existsb (Py.str_in w) texts.
Proof.
  intros Hw. unfold Py.join. induction texts as [|a texts IH].
  - simpl String.concat. rewrite str_in_empty. unfold spaceless in Hw.
    apply andb_true_iff in Hw. destruct Hw as [-> _]. reflexivity.
  - destruct texts as [|b texts].
    + simpl. now rewrite orb_false_r.
    + change (String.concat " " (a :: b :: texts))
        with (a ++ String " " (String.concat " " (b :: texts))).
      rewrite (str_in_across_space w a _ Hw), IH. reflexivity.
Qed.

Lemma lower_app (a b : string) : Py.lower (a ++ b) = Py.lower a ++ Py.lower b.
Proof.
  unfold Py.lower. induction a as [|c a IH]; simpl; [reflexivity | now rewrite IH].
Qed.

Lemma lower_join (texts : list string) :
  Py.lower (Py.join " " texts) = Py.join " " (map Py.lower texts).
Proof.
  unfold Py.join. induction texts as [|a texts IH]; [reflexivity|].
  destruct texts as [|b texts]; [reflexivity|].
  change (String.concat " " (a :: b :: texts))
    with (a ++ String " " (String.concat " " (b :: texts))).
  change (String.concat " " (map Py.lower (a :: b :: texts)))
    with (Py.lower a ++ String " " (String.concat " " (map Py.lower (b :: texts)))).
  rewrite lower_app. f_equal.
  change (Py.lower (String " " (String.concat " " (b :: texts))))
    with (String " " (Py.lower (String.concat " " (b :: texts)))).
  now rewrite IH.
Qed.

Lemma str_in_joined_lower (w : string) (texts : list string) :
  spaceless w = true ->
  Py.str_in w (Py.lower (Py.join " " texts))
  = existsb (fun text => Py.str_in w (Py.lower text)) texts.
Proof.
  intros Hw. rewrite lower_join, (str_in_join w _ Hw).
  induction texts as [|a texts IH]; simpl; [reflexivity | now rewrite IH].
Qed.

Lemma any_in_joined_lower (words : list string) (texts : list string) :
  forallb spaceless words = true ->
  Py.any_in words (Py.lower (Py.join " " texts))
  = existsb (fun text => Py.any_in words (Py.lower text)) texts.
Proof.
  unfold Py.any_in. induction words as [|w words IH]; simpl; intros Hw.
  - induction texts as [|a texts IHt]; simpl; [reflexivity | exact IHt].
  - apply andb_true_iff in Hw. destruct Hw as [Hw Hws].
    rewrite (str_in_joined_lower w texts Hw), (IH Hws).
    clear. induction texts as [|a texts IHt]; simpl; [reflexivity|].
    rewrite <- IHt.
    destruct (Py.str_in w (Py.lower a)); simpl; [reflexivity|].
    destruct (existsb (fun w0 => Py.str_in w0 (Py.lower a)) words); simpl;
      [now rewrite orb_true_r | reflexivity].
Qed.

(** X8. For every list of texts, the messaging strategies identified are
    the strategies of the table, in the order of the table, for which one of
    the texts alone contains one of the strategy's words, case apart:
    joining the texts with spaces creates no match across two texts. *)
Theorem strategies_found_in_single_texts (texts : list string) :
  TrendService._identify_messaging_strategies texts
  = map fst
      (filter (fun entry =>
                 existsb (fun text => Py.any_in (snd entry) (Py.lower text)) texts)
              strategy_words).
Proof.
  unfold TrendService._identify_messaging_strategies. cbv zeta.
  rewrite !any_in_joined_lower by reflexivity.
  unfold strategy_words. cbn [filter snd].
  repeat match goal with
         | |- context [existsb ?f texts] => destruct (existsb f texts)
         end; reflexivity.
Qed.

(** X9. For every list of ads: there are at most three content
    recommendations, so that the cut to five removes none, exactly three
    visual ones, two to four format ones and three to five messaging ones;
    when the visual advice is that video is trending, the format advice
    includes video ads; and the advice on free offers is given in the content
    list exactly when it is given in the messaging list, which is exactly
    when the body of some ad contains [free], case apart. *)
Theorem recommendations_agree (ads_data : list Trend.ad) :
  let r := TrendService._generate_recommendations ads_data in
  (List.length (TrendService.content_recommendations r) <= 3)%nat
  /\ List.length (TrendService.visual_recommendations r) = 3%nat
  /\ (2 <= List.length (TrendService.format_recommendations r) <= 4)%nat
  /\ (3 <= List.length (TrendService.messaging_recommendations r) <= 5)%nat
  /\ (In "Video content is trending - prioritize video creation"
         (TrendService.visual_recommendations r) ->
      In "Video ads are effective - create engaging video content"
         (TrendService.format_recommendations r))
  /\ (In "'Free' is a popular keyword - consider incorporating free offers"
         (TrendService.content_recommendations r)
      <-> In "Free offers are popular - consider free trials or samples"
            (TrendService.messaging_recommendations r))
  /\ (In "Free offers are popular - consider free trials or samples"
         (TrendService.messaging_recommendations r)
      <-> 1 <= texts_with "free" (Trend.bodies ads_data)).
Proof.
  cbv zeta. unfold TrendService._generate_recommendations. simpl.
  unfold TrendService._generate_content_recommendations,
    TrendService._generate_visual_recommendations,
    TrendService._generate_format_recommendations,
    TrendService._generate_messaging_recommendations. cbv zeta.
  assert (Hfree : Py.str_in "free" (Py.lower (Py.join " " (Trend.bodies ads_data))) = true
                  <-> 1 <= texts_with "free" (Trend.bodies ads_data)).
  { rewrite str_in_joined_lower by reflexivity. unfold texts_with, Py.llen.
    generalize (Trend.bodies ads_data) as texts.
    induction texts as [|t texts IH]; simpl.
    - split; [discriminate | lia].
    - destruct (Py.str_in "free" (Py.lower t)); simpl List.length.
      + split; [lia | reflexivity].
      + exact IH. }
  assert (Hvideo : (Counter.get "IMAGE" (Trend.media_types ads_data)
                    <? Counter.get "VIDEO" (Trend.media_types ads_data)) = true ->
                   (0 <? Counter.get "VIDEO" (Trend.media_types ads_data)) = true).
  { intros H. apply Z.ltb_lt in H. apply Z.ltb_lt.
    pose proof (get_nonneg "IMAGE" _ (counted_of_list (map format_of ads_data))) as Hi.
    change (Counter.of_list (map format_of ads_data))
      with (Trend.media_types ads_data) in Hi. lia. }
  set (avg := match map Py.len (Trend.bodies ads_data) with
              | [] => []
              | _ => _
              end).
  assert (Havg : (List.length avg <= 1)%nat).
  { subst avg. destruct (map Py.len (Trend.bodies ads_data)); [simpl; lia|].
    destruct (PrimFloat.ltb _ _); [simpl; lia|].
    destruct (PrimFloat.ltb _ _); simpl; lia. }
  assert (Havg_in : ~ In "'Free' is a popular keyword - consider incorporating free offers"
                      avg).
  { subst avg. destruct (map Py.len (Trend.bodies ads_data)); [intros []|].
    destruct (PrimFloat.ltb _ _); [intros [H|[]]; discriminate|].
    destruct (PrimFloat.ltb _ _); [intros [H|[]]; discriminate | intros []]. }
  set (free := Py.str_in "free" (Py.lower (Py.join " " (Trend.bodies ads_data)))) in *.
  set (new := Py.str_in "new" (Py.lower (Py.join " " (Trend.bodies ads_data)))).
  set (urgent := Py.str_in "urgent" (Py.lower (Py.join " " (Trend.bodies ads_data)))
                 || Py.str_in "limited" (Py.lower (Py.join " " (Trend.bodies ads_data)))).
  set (video := 0 <? Counter.get "VIDEO" (Trend.media_types ads_data)) in *.
  set (image := 0 <? Counter.get "IMAGE" (Trend.media_types ads_data)).
  set (more := Counter.get "IMAGE" (Trend.media_types ads_data)
               <? Counter.get "VIDEO" (Trend.media_types ads_data)) in *.
  assert (Hcontent : (List.length
                        ((avg +++ (if free
                                   then ["'Free' is a popular keyword - consider incorporating free offers"]
                                   else []))
                         +++ (if new
                              then ["'New' products/features are trending - highlight novelty"]
                              else [])) <= 3)%nat).
  { rewrite !List.length_app. destruct free, new; simpl List.length; lia. }
  split; [rewrite length_firstn; lia|].
  split; [destruct more; reflexivity|].
  split; [rewrite !List.length_app; destruct video, image; simpl List.length; lia|].
  split; [rewrite !List.length_app; destruct urgent, free; simpl List.length; lia|].
  split.
  { destruct more.
    - intros _. rewrite (Hvideo eq_refl). now left.
    - intros [H|[H|[H|[]]]]; discriminate. }
  split.
  { rewrite firstn_all2 by lia. rewrite !in_app_iff.
    destruct free, new, urgent; simpl; intuition (try discriminate; auto 10). }
  rewrite <- Hfree. rewrite !in_app_iff.
  destruct free, urgent; simpl; intuition (try discriminate; auto 10).
Qed.

(** X10. For every list of ads, the rationale has one to three entries and
    agrees with the recommendations: it argues for video exactly when the
    visual recommendation is to prioritise video, and it argues for urgency
    exactly when the messaging recommendations include urgency. *)
Theorem rationale_matches_recommendations (ads_data : list Trend.ad) :
  let rationale := TrendService._generate_recommendation_rationale ads_data in
  (1 <= List.length rationale <= 3)%nat
  /\ (In "Відео контент переважає серед конкурентів - рекомендуємо інвестувати в відео для конкурентоспроможності"
         rationale
      <-> In "Video content is trending - prioritize video creation"
            (TrendService._generate_visual_recommendations ads_data))
  /\ (In "Терміновість працює - створюйте обмежені за часом пропозиції" rationale
      <-> In "Urgency messaging is effective - create time-sensitive offers"
            (TrendService._generate_messaging_recommendations ads_data)).
Proof.
  cbv zeta. unfold TrendService._generate_recommendation_rationale,
    TrendService._generate_visual_recommendations,
    TrendService._generate_messaging_recommendations, TrendService.all_text. cbv zeta.
  change (Trend.media_types ads_data) with (Counter.of_list (map format_of ads_data)).
  rewrite !get_of_list, !occurrences_format by discriminate.
  set (more := Py.llen (filter (fun a => Trend.field_is (Trend.media_type a) "IMAGE") ads_data)
               <? Py.llen (filter (fun a => Trend.field_is (Trend.media_type a) "VIDEO")
                                  ads_data)).
  set (urgent := Py.str_in "urgent" (Py.lower (Py.join " " (Trend.bodies ads_data)))
                 || Py.str_in "limited" (Py.lower (Py.join " " (Trend.bodies ads_data)))).
  set (free := Py.str_in "free" (Py.lower (Py.join " " (Trend.bodies ads_data)))).
  set (length_part := match Trend.bodies ads_data with
                      | [] => []
                      | _ => _
                      end).
  assert (Hlen : (List.length length_part <= 1)%nat
                 /\ ~ In "Відео контент переважає серед конкурентів - рекомендуємо інвестувати в відео для конкурентоспроможності" length_part
                 /\ ~ In "Терміновість працює - створюйте обмежені за часом пропозиції"
                        length_part).
  { subst length_part. destruct (Trend.bodies ads_data); [simpl; intuition lia|].
    destruct (PrimFloat.ltb _ _); simpl; intuition (try discriminate; lia). }
  destruct Hlen as (Hl1 & Hl2 & Hl3).
  split; [rewrite !List.length_app; destruct more, urgent; simpl List.length; lia|].
  split; rewrite !in_app_iff;
    destruct more, urgent, free; simpl; intuition (try discriminate; auto 10).
Qed.

(** X11. For every list of ads and every pair of lists given as its image
    ads and its video ads, the key findings are computed without an error
    and have at most five entries, the cut to five removing none; for a list
    of ads that is not empty they name the most active brand, a brand under
    which no fewer ads are counted than under any other, with its number of
    ads. *)
Theorem key_findings_name_top_brand (ads_data image_ads video_ads : list Trend.ad) :
  exists findings,
    TrendService._generate_key_findings ads_data image_ads video_ads = Py.Ok findings
    /\ (List.length findings <= 5)%nat
    /\ (ads_data <> [] ->
        exists brand,
          In brand (map brand_of ads_data)
          /\ (forall other, occurrences other (map brand_of ads_data)
                             <= occurrences brand (map brand_of ads_data))
          /\ In ("Найактивніший бренд: " ++ brand ++ " ("
                  ++ Py.str_of_int (occurrences brand (map brand_of ads_data))
                  ++ " оголошень)") findings).
Proof.
  unfold TrendService._generate_key_findings, TrendService.all_text. cbv zeta.
  change (Trend.brands_of ads_data) with (Counter.of_list (map brand_of ads_data)).
  set (media := if Py.llen image_ads <? Py.llen video_ads then _ else _).
  set (text := match Trend.bodies ads_data with [] => [] | _ => _ end).
  set (free := Py.str_in "free" (Py.lower (Py.join " " (Trend.bodies ads_data)))).
  set (new := Py.str_in "new" (Py.lower (Py.join " " (Trend.bodies ads_data)))).
  assert (Hmedia : (List.length media <= 1)%nat).
  { subst media. destruct (_ <? _); [simpl; lia|]. destruct (_ <? _); simpl; lia. }
  assert (Htext : (List.length text <= 1)%nat).
  { subst text. destruct (Trend.bodies ads_data); [simpl; lia|].
    destruct (PrimFloat.ltb _ _); [simpl; lia|].
    destruct (PrimFloat.ltb _ _); simpl; lia. }
  destruct ads_data as [|a ads].
  - change (Counter.of_list (map brand_of [])) with (@nil (string * Z)).
    cbv iota. cbn [Py.bind]. eexists. split; [reflexivity|].
    split; [|intros H; now elim H].
    rewrite length_firstn, !List.length_app. destruct free, new; simpl List.length; lia.
  - destruct (most_common_of_list (map brand_of (a :: ads))) as (k & Hm & Hk & Hmax);
      [discriminate|].
    rewrite Hm.
    destruct (Counter.of_list (map brand_of (a :: ads))) as [|f fs] eqn:Hf.
    + apply (proj1 (of_list_empty _)) in Hf. discriminate.
    + cbn [Py.bind TrendService.item0]. eexists. split; [reflexivity|].
      assert (Hall : (List.length
                        ((((media +++ text)
                           +++ ["Найактивніший бренд: " ++ k ++ " ("
                                  ++ Py.str_of_int (occurrences k (map brand_of (a :: ads)))
                                  ++ " оголошень)"])
                          +++ (if free
                               then ["Ключове слово 'безкоштовно' часто використовується - безкоштовні пропозиції ефективні"]
                               else []))
                         +++ (if new
                              then ["Акцент на новизні продуктів - інновації привабливі для аудиторії"]
                              else [])) <= 5)%nat).
      { rewrite !List.length_app. destruct free, new; simpl List.length; lia. }
      split; [rewrite length_firstn; simpl fst; simpl snd; lia|].
      intros _. exists k. split; [exact Hk|]. split; [exact Hmax|].
      simpl fst. simpl snd. rewrite firstn_all2 by exact Hall.
      rewrite !in_app_iff. left. left. right. now left.
Qed.

End JoinedTexts.
(** *** URLs, character by character *)

Section UrlCharacters.

Import Re Webpage Notions.

Lemma app_inv_tail_str (a b t : string) : a ++ t = b ++ t -> a = b.
Proof.
  revert b. induction a as [|c a IH]; intros b H.
  - destruct b as [|d b]; [reflexivity|]. exfalso.
    assert (Hl := f_equal String.length H). simpl in Hl. rewrite length_app in Hl. lia.
  - destruct b as [|d b]; simpl in H.
    + exfalso. assert (Hl := f_equal String.length H). simpl in Hl.
      rewrite length_app in Hl. lia.
    + injection H as -> H. f_equal. now apply IH.
Qed.

Lemma app_inv_head_str (a b c : string) : a ++ b = a ++ c -> b = c.
Proof. induction a as [|x a IH]; simpl; intros H; [exact H|]. injection H as H. auto. Qed.

Lemma hex_is_url_char c : hex_digit c = true -> url_char c = true.
Proof.
  unfold hex_digit, url_char, alt_letter, alt_digit, cls_or, Py.in_range.
  intros H. destruct ((48 <=? Py.code c)%N && (Py.code c <=? 57)%N) eqn:Hd.
  - now rewrite orb_true_r.
  - simpl in H. rewrite orb_false_r.
    apply orb_true_iff in H. destruct H as [H|H];
      apply andb_true_iff in H; destruct H as [H1 H2];
      apply N.leb_le in H1; apply N.leb_le in H2.
    + replace ((97 <=? Py.code c)%N && (Py.code c <=? 122)%N) with true; [reflexivity|].
      symmetry. apply andb_true_iff. split; apply N.leb_le; lia.
    + replace ((65 <=? Py.code c)%N && (Py.code c <=? 90)%N) with true;
        [now rewrite orb_true_r|].
      symmetry. apply andb_true_iff. split; apply N.leb_le; lia.
Qed.

Lemma unit_text_chars u : unit_text u -> Spec.all_chars url_char u = true.
Proof.
  intros [c Hc|h1 h2 H1 H2]; simpl.
  - unfold url_char. now rewrite Hc.
  - now rewrite (hex_is_url_char _ H1), (hex_is_url_char _ H2).
Qed.

(** The units of a URL are the non-empty runs of its characters: a percent
    escape is made of characters that are units by themselves. *)
Lemma url_units_chars t : url_units t <-> t <> "" /\ Spec.all_chars url_char t = true.
Proof.
  split.
  - induction 1 as [u Hu|u rest Hu Hrest [IH1 IH2]].
    + split; [|now apply unit_text_chars].
      intros ->. pose proof (unit_text_nonempty _ Hu) as Hl. simpl in Hl. lia.
    + split.
      * intros H. pose proof (unit_text_nonempty _ Hu) as Hl.
        assert (Hl' := f_equal String.length H). rewrite length_app in Hl'.
        simpl in Hl'. lia.
      * rewrite all_chars_app, (unit_text_chars _ Hu), IH2. reflexivity.
  - intros [Hne Hall]. destruct t as [|c t]; [now elim Hne|]. clear Hne.
    revert c Hall. induction t as [|d t IH]; intros c Hall; simpl in Hall;
      apply andb_true_iff in Hall; destruct Hall as [Hc Ht].
    + apply Units_one. constructor. exact Hc.
    + change (String c (String d t)) with (String c "" ++ String d t).
      apply Units_more; [constructor; exact Hc | now apply IH].
Qed.

Lemma search_url_some text m rest :
  search url_pattern text = Some (m, rest) ->
  exists before,
    text = before ++ m ++ rest /\ is_url m
    /\ match_at url_pattern (Spec.last_char None before) (m ++ rest) = Some (m, rest).
Proof.
  intros H. unfold search in H.
  destruct (search_from_some _ _ _ _ _ H) as (before & Htext & Hat & _).
  exists before. split; [exact Htext|]. split; [|exact Hat].
  destruct (match_at_sound _ _ _ _ _ Hat) as (_ & p' & Hm).
  destruct (matches_url _ _ _ _ Hm) as (u & Hu & Hurl).
  apply app_inv_tail_str in Hu. now subst u.
Qed.

Lemma search_url_none text :
  search url_pattern text = None -> ~ contains_url text.
Proof.
  intros H (before & u & after & Htext & Hurl).
  destruct (matches_url_intro u Hurl (Spec.last_char None before) after) as (q & Hq).
  destruct (match_at_complete _ _ _ _ _ Hq) as (m1 & rest1 & Hat1).
  unfold search in H.
  rewrite (search_from_none _ _ _ H before (u ++ after) Htext) in Hat1.
  discriminate.
Qed.

(** X12. A text counts as holding a URL exactly when it contains [http://]
    or [https://], in lower case, directly followed by a letter, a digit, a
    character from [$] to [_] of the ASCII table or one of [@.&+!*\(),]. *)
Theorem valid_url_by_characters (text : string) :
  is_valid_url text = true
  <-> exists before scheme c after,
        text = before ++ scheme ++ String c after
        /\ (scheme = "http://" \/ scheme = "https://")
        /\ url_char c = true.
Proof.
  unfold is_valid_url. split.
  - destruct (search url_pattern text) as [[m rest]|] eqn:Hs; [|discriminate].
    intros _. destruct (search_url_some _ _ _ Hs) as (before & Htext & Hurl & _).
    destruct Hurl as (scheme & tail & -> & Hscheme & Hunits).
    apply url_units_chars in Hunits. destruct Hunits as [Hne Hall].
    destruct tail as [|c tail]; [now elim Hne|].
    simpl in Hall. apply andb_true_iff in Hall. destruct Hall as [Hc _].
    exists before, scheme, c, (tail ++ rest). split; [|now split].
    rewrite Htext. f_equal. rewrite app_assoc_str. reflexivity.
  - intros (before & scheme & c & after & Htext & Hscheme & Hc).
    destruct (search url_pattern text) as [[m rest]|] eqn:Hs; [reflexivity|].
    exfalso. apply (search_url_none _ Hs).
    exists before, (scheme ++ String c ""), after. split.
    + rewrite Htext. f_equal. rewrite app_assoc_str. reflexivity.
    + exists scheme, (String c ""). split; [reflexivity|]. split; [exact Hscheme|].
      apply url_units_chars. split; [discriminate|]. simpl. now rewrite Hc.
Qed.

Lemma app_nil_str (s : string) : s ++ "" = s.
Proof. induction s as [|c s IH]; simpl; [reflexivity | now rewrite IH]. Qed.

Lemma is_url_chars u :
  is_url u ->
  exists scheme tail,
    u = scheme ++ tail /\ (scheme = "http://" \/ scheme = "https://")
    /\ tail <> "" /\ Spec.all_chars url_char tail = true.
Proof.
  intros (scheme & tail & -> & Hscheme & Hunits).
  apply url_units_chars in Hunits. destruct Hunits as [Hne Hall].
  now exists scheme, tail.
Qed.

(** X13. The URL extracted from a text is a part of the text made of
    [http://] or [https://] and a non-empty run of URL characters, and the
    run is as long as it can be: the text ends after it, or goes on with a
    character that is no URL character. *)
Theorem extracted_url_is_maximal (text u : string) :
  extract_url_from_text text = Some u ->
  exists before after scheme tail,
    text = before ++ u ++ after
    /\ u = scheme ++ tail
    /\ (scheme = "http://" \/ scheme = "https://")
    /\ tail <> ""
    /\ Spec.all_chars url_char tail = true
    /\ match after with
       | EmptyString => True
       | String c _ => url_char c = false
       end.
Proof.
  unfold extract_url_from_text.
  destruct (search url_pattern text) as [[m rest]|] eqn:Hs; [|discriminate].
  intros H. injection H as <-. unfold group0. simpl fst.
  destruct (search_url_some _ _ _ Hs) as (before & Htext & Hurl & Hat).
  destruct (is_url_chars _ Hurl) as (scheme & tail & Hm & Hscheme & Hne & Hall).
  exists before, rest, scheme, tail. repeat split; try assumption.
  destruct rest as [|c rest']; [exact I|].
  destruct (url_char c) eqn:Hc; [|reflexivity]. exfalso.
  apply (match_at_url_greedy _ _ _ _ Hat (String c "") rest' eq_refl).
  constructor. exact Hc.
Qed.

Lemma extracted_url_is_maximal_witness :
  extract_url_from_text "see https://example.com/a#top now"
  = Some "https://example.com/a"
  /\ exists before after scheme tail,
       "see https://example.com/a#top now" = before ++ "https://example.com/a" ++ after
       /\ "https://example.com/a" = scheme ++ tail
       /\ (scheme = "http://" \/ scheme = "https://")
       /\ tail <> ""
       /\ Spec.all_chars url_char tail = true
       /\ match after with
          | EmptyString => True
          | String c _ => url_char c = false
          end.
Proof.
  split; [vm_compute; reflexivity|].
  apply (extracted_url_is_maximal "see https://example.com/a#top now").
  vm_compute. reflexivity.
Defined.

Lemma scheme_agrees (s1 s2 t1 t2 r : string) :
  (s1 = "http://" \/ s1 = "https://") -> (s2 = "http://" \/ s2 = "https://") ->
  s1 ++ t1 = (s2 ++ t2) ++ r -> s1 = s2.
Proof.
  intros [->| ->] [->| ->] H; try reflexivity; simpl in H; discriminate.
Qed.

(** X14. The URL extracted from a text is itself a text that holds a URL,
    and the URL extracted from it is the whole of it. *)
Theorem extracted_url_is_stable (text u : string) :
  extract_url_from_text text = Some u ->
  is_valid_url u = true /\ extract_url_from_text u = Some u.
Proof.
  unfold extract_url_from_text at 1.
  destruct (search url_pattern text) as [[m rest]|] eqn:Hs0; [|discriminate].
  intros H. injection H as <-. unfold group0. simpl fst.
  destruct (search_url_some _ _ _ Hs0) as (_ & _ & Hurl & _).
  destruct (is_url_chars _ Hurl) as (scheme & tail & -> & Hscheme & Hne & Hall).
  destruct (matches_url_intro _ Hurl None "") as (q & Hq).
  rewrite app_nil_str in Hq.
  destruct (match_at_complete _ _ _ _ _ Hq) as (m1 & rest1 & Hat).
  assert (Hfull : m1 = scheme ++ tail /\ rest1 = "").
  { destruct (match_at_sound _ _ _ _ _ Hat) as (Hsplit & p' & Hm).
    destruct (matches_url _ _ _ _ Hm) as (u1 & Hu1 & Hurl1).
    assert (u1 = m1) by (apply (app_inv_tail_str _ _ rest1); congruence). subst u1.
    destruct Hurl1 as (scheme1 & tail1 & Hm1 & Hscheme1 & _).
    assert (rest1 = "").
    { destruct rest1 as [|c rest']; [reflexivity|]. exfalso.
      apply (match_at_url_greedy _ _ _ _ Hat (String c "") rest' eq_refl).
      constructor. subst m1.
      assert (scheme = scheme1) by (eapply scheme_agrees; eassumption). subst scheme1.
      rewrite app_assoc_str in Hsplit. apply app_inv_head_str in Hsplit.
      rewrite Hsplit, all_chars_app in Hall. apply andb_true_iff in Hall.
      destruct Hall as [_ Hall]. simpl in Hall. apply andb_true_iff in Hall.
      destruct Hall as [Hc _]. exact Hc. }
    subst rest1. split; [|reflexivity]. rewrite Hsplit. now rewrite app_nil_str. }
  destruct Hfull as [-> ->].
  assert (Hs : search url_pattern (scheme ++ tail) = Some (scheme ++ tail, "")).
  { unfold search. revert Hat. generalize (scheme ++ tail) as s.
    intros s Hat. destruct s; cbn -[match_at]; now rewrite Hat. }
  unfold is_valid_url, extract_url_from_text. rewrite Hs. split; reflexivity.
Qed.

Lemma extracted_url_is_stable_witness :
  extract_url_from_text "see https://example.com/a#top now"
  = Some "https://example.com/a"
  /\ is_valid_url "https://example.com/a" = true
  /\ extract_url_from_text "https://example.com/a" = Some "https://example.com/a".
Proof.
  split; [vm_compute; reflexivity|].
  apply (extracted_url_is_stable "see https://example.com/a#top now").
  vm_compute. reflexivity.
Defined.

End UrlCharacters.
(** *** The generator: query analysis, generator types and batches *)

Section GeneratorMore.

Import Generator.

(** X15. For every query, the analysis takes its values in fixed finite
    sets, and its fields hang together: the video type is the one of the
    intent, the urgency is high exactly with the urgent tone, at most one
    style preference is recorded, and the key elements are distinct. *)
Theorem query_analysis_is_consistent (user_query : string) :
  let a := _analyze_user_query user_query in
  In (intent a, video_type a)
     [("advertising", "commercial"); ("educational", "tutorial");
      ("demonstration", "product_demo"); ("storytelling", "narrative");
      ("general", "promotional")]
  /\ In (user_tone a, urgency_level a)
        [("joyful", "normal"); ("serious", "normal"); ("inspiring", "normal");
         ("urgent", "high"); ("positive", "normal")]
  /\ In (target_audience a) ["youth"; "adults"; "families"; "general"]
  /\ In (content_focus a)
        ["product_showcase"; "service_demonstration"; "brand_story"; "feature_highlight"]
  /\ In (style_preferences a)
        [[]; ["minimalist"]; ["colorful"]; ["elegant"]; ["modern"]]
  /\ (NoDup (key_elements a)
      /\ incl (key_elements a) ["animation"; "text_overlay"; "audio"; "transitions"])
  /\ In (call_to_action a) ["purchase"; "download"; "subscribe"; "learn_more"]
  /\ In (complexity a) ["high"; "low"; "medium"].
Proof.
  cbv zeta. unfold _analyze_user_query. cbv zeta.
  repeat match goal with
         | |- context [Py.any_in ?ws ?t] =>
             let b := fresh "b" in set (b := Py.any_in ws t); clearbody b
         end.
  set (n := count_fields false user_query). clearbody n.
  destruct b; [|destruct b0; [|destruct b1; [|destruct b2]]];
    (destruct b3; [|destruct b4; [|destruct b5; [|destruct b6]]]);
    cbn [intent video_type target_audience user_tone content_focus urgency_level
         style_preferences key_elements call_to_action complexity];
    (split; [simpl; auto 10|]);
    (split; [simpl; auto 10|]);
    (split; [destruct b7, b8, b9; simpl; auto 10|]);
    (split; [destruct b10, b11, b12, b13; simpl; auto 10|]);
    (split; [destruct b14, b15, b16, b17; simpl; auto 10|]);
    (split;
     [destruct b18, b19, b20, b21; simpl;
      (split;
       [apply nodup_by_computation; reflexivity
       |intros x Hx; simpl in Hx; simpl; intuition auto])|]);
    (split; [destruct b22, b23, b24, b25; simpl; auto 10|]);
    destruct (20 <? n), b26, (n <? 5); simpl; auto 10.
Qed.

Lemma lower_upper_char c :
  Py.lower_char (Py.lower_char c) = Py.lower_char c
  /\ Py.upper_char (Py.lower_char c) = Py.upper_char c.
Proof. destruct c as [[] [] [] [] [] [] [] []]; split; reflexivity. Qed.

Lemma lower_lower s : Py.lower (Py.lower s) = Py.lower s.
Proof.
  unfold Py.lower. induction s as [|c s IH]; simpl; [reflexivity|].
  now rewrite IH, (proj1 (lower_upper_char c)).
Qed.

Lemma upper_lower s : Py.upper (Py.lower s) = Py.upper s.
Proof.
  unfold Py.upper, Py.lower. induction s as [|c s IH]; simpl; [reflexivity|].
  now rewrite IH, (proj2 (lower_upper_char c)).
Qed.

(** X16. The trend-driven generator reads a generator type that is ASCII
    text case apart, and it never reads the style preferences: with the
    generator type in lower case and with other style preferences, the
    description, the variations, the recommendations, the message and the
    optimization tips are the same; only the generator type echoed in the
    result keeps the spelling of the caller. *)
Theorem generator_type_case_is_ignored (stamp : Z) (user_query : string)
  (trends : trends_data) (generator_type : string) (style1 style2 : option style) :
  Py.isascii generator_type = true ->
  let r1 := generate_video_description stamp user_query trends generator_type style1 in
  let r2 := generate_video_description stamp user_query trends
              (Py.lower generator_type) style2 in
  success r1 = success r2
  /\ message r1 = message r2
  /\ video_description r1 = video_description r2
  /\ variations r1 = variations r2
  /\ recommendations_of r1 = recommendations_of r2
  /\ option_map optimization_tips (technical_specifications r1)
     = option_map optimization_tips (technical_specifications r2)
  /\ option_map Py.lower (generator_type_of r1) = generator_type_of r2.
Proof.
  intros _. cbv zeta. unfold generate_video_description.
  destruct (Py.truthy user_query); [|repeat split].
  destruct trends as [payload|]; [|repeat split].
  rewrite lower_lower.
  destruct (Py.mem (Py.lower generator_type) supported_generators) eqn:Hm;
    cbn [negb]; cbv iota; cbv beta zeta;
    cbn [success message video_description variations recommendations_of
         technical_specifications generator_type_of option_map optimization_tips];
    [|repeat split].
  unfold _create_video_description, _create_unique_variations,
    _create_technical_variation, _create_technical_execution,
    _generate_recommendations, _generate_technical_specs.
  cbn [optimization_tips]. rewrite !lower_lower, !upper_lower. repeat split.
Qed.

(** The spelling [Runway] and the spelling [runway] give the same message. *)
Lemma generator_type_case_is_ignored_witness :
  Py.isascii "Runway" = true
  /\ message
       (generate_video_description 0 "Promo video for running shoes"
          (Some Samples.payload) "Runway" None)
     = message
         (generate_video_description 0 "Promo video for running shoes"
            (Some Samples.payload) "runway" (Some [("mood", "calm")])).
Proof.
  split; [reflexivity|].
  destruct (generator_type_case_is_ignored 0 "Promo video for running shoes"
              (Some Samples.payload) "Runway" None (Some [("mood", "calm")]) eq_refl)
    as (_ & Hmessage & _).
  exact Hmessage.
Defined.

(** X17. For every list of queries, a batch is reported as a success with
    one description per query, in the order of the queries; the successful
    and the failed ones add up to the number of queries; with trends data the
    successful ones are the queries that are not empty, without trends data
    there is none; and a description that failed is empty. *)
Theorem batch_counts_queries (stamp : Z) (queries : list string)
  (trends : trends_data) (generator_type : string) :
  let r := GeneratorBatch.generate_batch_descriptions stamp queries trends
             generator_type in
  let info := GeneratorBatch.batch_info_of r in
  GeneratorBatch.success r = true
  /\ map GeneratorBatch.query (GeneratorBatch.descriptions r) = queries
  /\ GeneratorBatch.total_queries info = Py.llen queries
  /\ GeneratorBatch.successful info + GeneratorBatch.failed info
     = GeneratorBatch.total_queries info
  /\ GeneratorBatch.successful info
     = match trends with
       | Some _ => Py.llen (filter Py.truthy queries)
       | None => 0
       end
  /\ Forall (fun d =>
               GeneratorBatch.description_success d = false ->
               GeneratorBatch.description d = "")
            (GeneratorBatch.descriptions r).
Proof.
  cbv zeta. unfold GeneratorBatch.generate_batch_descriptions. cbv zeta.
  cbn [GeneratorBatch.success GeneratorBatch.descriptions GeneratorBatch.batch_info_of
       GeneratorBatch.total_queries GeneratorBatch.successful GeneratorBatch.failed].
  split; [reflexivity|].
  split; [rewrite map_map; cbn [GeneratorBatch.query]; apply map_id|].
  split; [reflexivity|]. split; [lia|]. split.
  - unfold Py.llen. destruct trends as [payload|]; [f_equal|];
      induction queries as [|q queries IH]; try reflexivity;
      cbn [map filter GeneratorBatch.description_success];
      unfold generate_video_description at 1;
      destruct (Py.truthy q); cbn [success]; cbn [filter List.length];
      try (f_equal; exact IH); exact IH.
  - apply Forall_forall. intros d Hd. apply in_map_iff in Hd.
    destruct Hd as (q & <- & _). cbn [GeneratorBatch.description_success
                                     GeneratorBatch.description].
    unfold generate_video_description.
    destruct (Py.truthy q), trends as [payload|]; cbn [success video_description];
      intros H; try reflexivity; discriminate.
Qed.

Lemma validated_generator (generator_type : string) :
  In (Py.lower (if negb (Py.mem (Py.lower generator_type) supported_generators)
                then "veo" else generator_type))
     supported_generators.
Proof.
  destruct (Py.mem (Py.lower generator_type) supported_generators) eqn:Hm; simpl negb;
    cbv iota.
  - unfold Py.mem in Hm. apply existsb_exists in Hm. destruct Hm as (x & Hx & He).
    apply String.eqb_eq in He. now subst x.
  - now left.
Qed.

(** X18. For every query that is not empty, with trends data and with video
    insights, the technical specifications of both paths are those of a
    supported generator, an unknown generator type having been replaced: on
    the trend-driven path the generator type of the specifications is a
    supported one, case apart, and there are three or four optimization tips;
    on the insight-driven path the specifications have the six common
    entries and the four of the generator, with its model. *)
Theorem specifications_of_a_supported_generator
  (list_of_set : list string -> list string) (stamp : Z) (user_query : string)
  (trends : trends_data) (video_insights : list video_insight)
  (generator_type : string) (style_preferences : option style) :
  user_query <> "" ->
  trends <> None ->
  video_insights <> [] ->
  (exists specs,
     technical_specifications
       (generate_video_description stamp user_query trends generator_type
          style_preferences) = Some specs
     /\ Py.mem (Py.lower (spec_generator_type specs)) supported_generators = true
     /\ (3 <= List.length (optimization_tips specs) <= 4)%nat)
  /\ (exists specs,
        i_technical_specifications
          (generate_video_description_from_insights list_of_set stamp user_query
             video_insights generator_type style_preferences) = Some specs
        /\ List.length specs = 10%nat
        /\ exists model, In ("model", SText model) specs).
Proof.
  intros Hq Ht Hi. pose proof (validated_generator generator_type) as Hv.
  split.
  - destruct trends as [payload|]; [|contradiction].
    unfold generate_video_description. rewrite (truthy_nonempty _ Hq).
    cbv zeta. cbn [technical_specifications]. eexists. split; [reflexivity|].
    unfold _generate_technical_specs. cbn [spec_generator_type optimization_tips].
    set (g := if negb (Py.mem (Py.lower generator_type) supported_generators)
              then "veo" else generator_type) in *.
    split.
    + unfold Py.mem. apply existsb_exists. exists (Py.lower g).
      split; [exact Hv | apply String.eqb_refl].
    + rewrite List.length_app.
      destruct (0 <? Counter.get "VIDEO" _);
        destruct Hv as [<-|[<-|[<-|[<-|[<-|[]]]]]]; simpl; lia.
  - destruct video_insights as [|i rest]; [contradiction|].
    unfold generate_video_description_from_insights. rewrite (truthy_nonempty _ Hq).
    cbv zeta. cbn [i_technical_specifications]. eexists. split; [reflexivity|].
    unfold _create_technical_specifications.
    set (g := if negb (Py.mem (Py.lower generator_type) supported_generators)
              then "veo" else generator_type) in *.
    destruct Hv as [<-|[<-|[<-|[<-|[<-|[]]]]]]; simpl;
      (split; [reflexivity|]); eexists; auto 12.
Qed.

Lemma specifications_of_a_supported_generator_witness :
  exists specs,
    technical_specifications
      (generate_video_description 0 "Promo video for running shoes"
         (Some Samples.payload) "Pika" None) = Some specs
    /\ spec_generator_type specs = "Pika"
    /\ Py.mem (Py.lower (spec_generator_type specs)) supported_generators = true
    /\ (3 <= List.length (optimization_tips specs) <= 4)%nat.
Proof.
  destruct (specifications_of_a_supported_generator Samples.set_order 0
              "Promo video for running shoes" (Some Samples.payload)
              [Samples.video_insight] "Pika" None
              ltac:(discriminate) ltac:(discriminate) ltac:(discriminate))
    as ((specs & Hspecs & Hmem & Hlen) & _).
  exists specs. split; [exact Hspecs|]. split; [|now split].
  vm_compute in Hspecs. injection Hspecs as <-. reflexivity.
Defined.

End GeneratorMore.
(** *** The endpoints over ads data *)

Section EndpointFacts.

Import Endpoints.

Variable ad : Type.
Variable analyze_trends_from_ads : list ad -> string -> Trend.envelope.
Variable trends_read : list ad -> Generator.trends_payload.
Variable str_of_http_exception : Z -> string -> string.

(** X19. Whatever the trend analysis returns for the ads of a request, the
    endpoint of the trend analysis never answers with status 400.  It
    returns the envelope of the analysis exactly when the analysis
    succeeded; the bad-request error it raises for a failed analysis is
    caught by its own handler and comes out with status 500, the message of
    the analysis inside the text of the caught error. *)
Theorem trends_endpoint_never_answers_400 (ads_data : list ad)
  (analysis_type : string) :
  let result := analyze_trends_from_ads ads_data analysis_type in
  match analyze_trends analyze_trends_from_ads str_of_http_exception ads_data
          analysis_type with
  | Return body => body = result /\ Trend.success result = true
  | HTTPException status_code detail =>
      status_code = 500
      /\ Trend.success result = false
      /\ detail = "Trend analysis failed: "
                  ++ str_of_http_exception 400 (Trend.message result)
  end.
Proof.
  cbv zeta. unfold analyze_trends. cbv zeta.
  destruct (Trend.success (analyze_trends_from_ads ads_data analysis_type));
    cbn [negb]; cbv iota; now repeat split.
Qed.

(** X20. Whatever the trend analysis returns for the ads of a request, the
    endpoint that describes a video from ads either raises with status 400
    and the message of the step that failed, the message of the analysis
    when the analysis failed and the message of the generator when the
    analysis succeeded and the query is empty, or returns a success body: the
    body counts the ads, carries the trends and the time of the analysis, and
    holds the technical specifications of a supported generator, whatever
    generator type was asked for. *)
Theorem describe_endpoint_outcomes (generated : Z) (ads_data : list ad)
  (user_query generator_type : string)
  (style_preferences : option Generator.style) :
  let result := analyze_trends_from_ads ads_data "comprehensive" in
  match generate_video_description_from_ads analyze_trends_from_ads trends_read
          generated ads_data user_query generator_type style_preferences with
  | Return body =>
      Trend.success result = true
      /\ user_query <> ""
      /\ success body = true
      /\ ads_analyzed (analysis_metadata body) = Py.llen ads_data
      /\ trend_analysis body = Trend.trends_of result
      /\ analysis_timestamp (analysis_metadata body)
         = option_map Trend.analyzed_at (Trend.metadata result)
      /\ (exists specs,
            technical_specifications body = Some specs
            /\ In (Generator.spec_generator_type specs) Generator.supported_generators)
  | HTTPException status_code detail =>
      status_code = 400
      /\ ((Trend.success result = false /\ detail = Trend.message result)
          \/ (Trend.success result = true
              /\ user_query = ""
              /\ detail = "User query and trends data are required"))
  end.
Proof.
  cbv zeta. unfold generate_video_description_from_ads. cbv zeta.
  destruct (Trend.success (analyze_trends_from_ads ads_data "comprehensive"));
    cbn [negb]; cbv iota.
  2: { split; [reflexivity|]. left. now split. }
  unfold Generator.generate_video_description.
  destruct user_query as [|c q]; cbn [Py.truthy Generator.success negb]; cbv iota.
  - cbn [Generator.message]. split; [reflexivity|]. right. now repeat split.
  - cbv zeta.
    cbn [Generator.success negb success analysis_metadata ads_analyzed
         analysis_timestamp trend_analysis technical_specifications
         Generator.technical_specifications].
    cbv iota.
    cbn [success analysis_metadata ads_analyzed analysis_timestamp trend_analysis
         technical_specifications].
    split; [reflexivity|]. split; [discriminate|].
    split; [reflexivity|]. split; [reflexivity|]. split; [reflexivity|].
    split; [now destruct (Trend.metadata _)|].
    eexists. split; [reflexivity|].
    unfold Generator._generate_technical_specs. cbn [Generator.spec_generator_type].
    pose proof (validated_generator (Py.lower generator_type)) as Hv.
    rewrite lower_lower in Hv.
    destruct (Py.mem (Py.lower generator_type) Generator.supported_generators) eqn:Hmem.
    + rewrite lower_lower, Hmem. cbn [negb]. cbv iota.
      cbn [negb] in Hv. cbv iota in Hv. rewrite lower_lower in Hv. exact Hv.
    + rewrite lower_lower, Hmem. cbn [negb]. cbv iota. now left.
Qed.

End EndpointFacts.

Section TypedAds.

Import Endpoints.

Variable fromisoformat : string -> option Datetime.datetime.
Variable str_of_http_exception : Z -> string -> string.

Lemma zones_agree_dec ds : {Spec.zones_agree ds} + {~ Spec.zones_agree ds}.
Proof.
  unfold Spec.zones_agree.
  destruct (forallb Datetime.is_aware ds) eqn:E1; [left; now left|].
  destruct (forallb (fun d => negb (Datetime.is_aware d)) ds) eqn:E2; [left; now right|].
  right. intros [H|H]; discriminate.
Qed.

(** On ads whose values have the types of the record [Trend.ad], the trend
    analysis succeeds exactly on a list of ads that is not empty and whose
    parsed start dates are all of one kind. *)
Lemma analysis_outcome (now stamp : Z) (ads_data : list Trend.ad)
  (analysis_type : string) :
  let envelope :=
    Trend.analyze_trends_from_ads fromisoformat now stamp ads_data analysis_type in
  (ads_data = []
   /\ Trend.success envelope = false
   /\ Trend.message envelope = "No ads data provided for analysis")
  \/ (ads_data <> []
      /\ ~ Spec.zones_agree (Trend.parse_dates fromisoformat ads_data)
      /\ Trend.success envelope = false
      /\ Trend.message envelope = "Failed to analyze trends: " ++ Datetime.mixed_msg)
  \/ (ads_data <> []
      /\ Spec.zones_agree (Trend.parse_dates fromisoformat ads_data)
      /\ Trend.success envelope = true
      /\ (exists computed, Trend.trends_of envelope = Some computed)
      /\ exists meta, Trend.metadata envelope = Some meta /\ Trend.analyzed_at meta = stamp).
Proof.
  cbv zeta. destruct ads_data as [|a ads]; [left; now repeat split|]. right.
  destruct (zones_agree_dec (Trend.parse_dates fromisoformat (a :: ads))) as [Hz|Hz].
  - right. split; [discriminate|]. split; [exact Hz|].
    unfold Trend.analyze_trends_from_ads, Trend._analyze_overview_trends.
    destruct (date_patterns_total fromisoformat now (a :: ads) Hz) as (dp & ->).
    destruct (analysis_period_total fromisoformat (a :: ads)) as (ap & ->).
    cbn [Py.bind Trend.success Trend.trends_of Trend.metadata].
    split; [reflexivity|]. split; eexists; [reflexivity|]. split; reflexivity.
  - left. split; [discriminate|]. split; [exact Hz|].
    destruct (analysis_fails_on_mixed_dates fromisoformat now stamp (a :: ads)
                analysis_type Hz) as (_ & ->).
    split; reflexivity.
Qed.

(** The endpoint of the trend analysis on such ads: the two failures of the
    analysis come out with status 500. *)
Lemma trends_endpoint_on_typed_ads (now stamp : Z) (ads_data : list Trend.ad)
  (analysis_type : string) :
  match analyze_trends (Trend.analyze_trends_from_ads fromisoformat now stamp)
          str_of_http_exception ads_data analysis_type with
  | Return body =>
      ads_data <> []
      /\ Spec.zones_agree (Trend.parse_dates fromisoformat ads_data)
  | HTTPException status_code detail =>
      status_code = 500
      /\ ((ads_data = []
           /\ detail = "Trend analysis failed: "
                       ++ str_of_http_exception 400 "No ads data provided for analysis")
          \/ (ads_data <> []
              /\ ~ Spec.zones_agree (Trend.parse_dates fromisoformat ads_data)
              /\ detail = "Trend analysis failed: "
                          ++ str_of_http_exception 400
                               ("Failed to analyze trends: " ++ Datetime.mixed_msg)))
  end.
Proof.
  unfold analyze_trends. cbv zeta.
  destruct (analysis_outcome now stamp ads_data analysis_type)
    as [(He & Hs & Hm)|[(Hne & Hz & Hs & Hm)|(Hne & Hz & Hs & _)]];
    cbv zeta in Hs; rewrite Hs; cbn [negb]; cbv iota.
  - cbv zeta in Hm. rewrite Hm. split; [reflexivity|]. left. now split.
  - cbv zeta in Hm. rewrite Hm. split; [reflexivity|]. right. now repeat split.
  - now split.
Qed.

(** The endpoint that describes a video on such ads: the failures are the
    two of the analysis and the empty query. *)
Lemma describe_endpoint_on_typed_ads (now stamp generated : Z)
  (ads_data : list Trend.ad) (user_query generator_type : string)
  (style_preferences : option Generator.style) :
  let analysis := Trend.analyze_trends_from_ads fromisoformat now stamp in
  let trends_read ads :=
    payload_of ads (Trend.trends_of (analysis ads "comprehensive")) in
  match generate_video_description_from_ads analysis trends_read generated
          ads_data user_query generator_type style_preferences with
  | Return body =>
      ads_data <> []
      /\ Spec.zones_agree (Trend.parse_dates fromisoformat ads_data)
      /\ user_query <> ""
      /\ analysis_timestamp (analysis_metadata body) = Some stamp
      /\ (exists computed, trend_analysis body = Some computed)
  | HTTPException status_code detail =>
      status_code = 400
      /\ ((ads_data = [] /\ detail = "No ads data provided for analysis")
          \/ (ads_data <> []
              /\ ~ Spec.zones_agree (Trend.parse_dates fromisoformat ads_data)
              /\ detail = "Failed to analyze trends: " ++ Datetime.mixed_msg)
          \/ (user_query = "" /\ detail = "User query and trends data are required"))
  end.
Proof.
  cbv zeta. unfold generate_video_description_from_ads. cbv zeta.
  destruct (analysis_outcome now stamp ads_data "comprehensive")
    as [(He & Hs & Hm)|[(Hne & Hz & Hs & Hm)|(Hne & Hz & Hs & Hc & Hmeta)]];
    cbv zeta in Hs; rewrite Hs; cbn [negb]; cbv iota.
  - cbv zeta in Hm. rewrite Hm. split; [reflexivity|]. left. now split.
  - cbv zeta in Hm. rewrite Hm. split; [reflexivity|]. right. left. now repeat split.
  - unfold Generator.generate_video_description.
    destruct user_query as [|c q]; cbn [Py.truthy Generator.success negb]; cbv iota.
    + cbn [Generator.message]. split; [reflexivity|]. right. right. now split.
    + cbv zeta. cbn [Generator.success negb]. cbv iota.
      cbn [analysis_metadata analysis_timestamp trend_analysis].
      destruct Hmeta as (meta & Hmeta & Hstamp). cbv zeta in Hmeta, Hc.
      rewrite Hmeta, Hstamp.
      split; [exact Hne|]. split; [exact Hz|]. split; [discriminate|].
      split; [reflexivity|]. exact Hc.
Qed.

End TypedAds.
(** *** The API key of the video analysis *)

Section ApiKey.

Import Gemini.

(** X21. Once a call has returned a key, the key is kept: every later call
    returns the same key and leaves it in place, whatever the command line
    and the environment have become. *)
Theorem api_key_is_cached (argv : list string) (env cache : option string)
  (key : string) (cache' : option string) :
  get_gemini_api_key argv env cache = (Py.Ok key, cache') ->
  cache' = Some key
  /\ forall argv' env', get_gemini_api_key argv' env' cache' = (Py.Ok key, cache').
Proof.
  unfold get_gemini_api_key. intros H.
  assert (Hc : cache' = Some key).
  { destruct cache as [k|]; [congruence|].
    destruct (after_flag argv) as [[v|]|]; try congruence.
    destruct env as [v|]; [|congruence]. destruct (Py.truthy v); congruence. }
  split; [exact Hc|]. intros argv' env'. now rewrite Hc.
Qed.

Lemma api_key_is_cached_witness :
  get_gemini_api_key ["server"; "--gemini-api-key"; "k1"] None None
  = (Py.Ok "k1", Some "k1")
  /\ get_gemini_api_key ["server"] (Some "k2") (Some "k1") = (Py.Ok "k1", Some "k1").
Proof.
  split; [reflexivity|].
  apply (api_key_is_cached ["server"; "--gemini-api-key"; "k1"] None None "k1" (Some "k1")
           eq_refl).
Defined.

Lemma after_flag_first (before after : list string) :
  ~ In "--gemini-api-key" before ->
  after_flag (before +++ "--gemini-api-key" :: after) = Some (hd_error after).
Proof.
  induction before as [|a before IH]; intros Hn; [reflexivity|].
  change (after_flag ((a :: before) +++ "--gemini-api-key" :: after))
    with (if String.eqb a "--gemini-api-key" then Some (hd_error (before +++ "--gemini-api-key" :: after))
          else after_flag (before +++ "--gemini-api-key" :: after)).
  destruct (String.eqb a "--gemini-api-key") eqn:E.
  - apply String.eqb_eq in E. exfalso. apply Hn. now left.
  - apply IH. intros H. apply Hn. now right.
Qed.

(** X22. Without a cached key, the first [--gemini-api-key] of the command
    line decides, whatever the environment holds: the argument that follows
    it is returned and cached, the empty text included, and when nothing
    follows it the call raises and caches nothing, even with a key in the
    environment. *)
Theorem api_key_from_the_command_line (before after : list string)
  (env : option string) :
  ~ In "--gemini-api-key" before ->
  get_gemini_api_key (before +++ "--gemini-api-key" :: after) env None
  = match after with
    | value :: _ => (Py.Ok value, Some value)
    | [] =>
        (Py.Raise "--gemini-api-key argument provided but no key value followed it",
         None)
    end.
Proof.
  intros Hn. unfold get_gemini_api_key. rewrite (after_flag_first _ _ Hn).
  now destruct after.
Qed.

Lemma api_key_from_the_command_line_witness :
  get_gemini_api_key ["server"; "--port"; "8000"; "--gemini-api-key"] (Some "k2") None
  = (Py.Raise "--gemini-api-key argument provided but no key value followed it", None).
Proof.
  apply (api_key_from_the_command_line ["server"; "--port"; "8000"] [] (Some "k2")).
  simpl. intuition discriminate.
Defined.

End ApiKey.

(** *** Dates *)

Section DateFacts.

Import Datetime.

Variable fromisoformat : string -> option datetime.

Lemma parse_dates_length ads_data :
  (List.length (Trend.parse_dates fromisoformat ads_data) <= List.length ads_data)%nat.
Proof.
  induction ads_data as [|a ads IH]; simpl; [lia|].
  destruct (Trend.parse_start_date fromisoformat a); simpl; lia.
Qed.

Lemma min_from_in ds : forall cur m, min_from cur ds = Py.Ok m -> In m (cur :: ds).
Proof.
  induction ds as [|x ds IH]; simpl; intros cur m H.
  - injection H as <-. now left.
  - destruct (lt x cur) as [b|msg]; [|discriminate]. simpl in H.
    apply IH in H. destruct b; destruct H as [<-|H]; auto.
Qed.

Lemma max_from_in ds : forall cur m, max_from cur ds = Py.Ok m -> In m (cur :: ds).
Proof.
  induction ds as [|x ds IH]; simpl; intros cur m H.
  - injection H as <-. now left.
  - destruct (lt cur x) as [b|msg]; [|discriminate]. simpl in H.
    apply IH in H. destruct b; destruct H as [<-|H]; auto.
Qed.

Lemma min_from_naive ds :
  forall cur m,
    Forall (fun d => tzinfo d = None) (cur :: ds) -> min_from cur ds = Py.Ok m ->
    forall d, In d (cur :: ds) -> wall m <= wall d.
Proof.
  induction ds as [|x ds IH]; simpl; intros cur m Hall H d Hd.
  - injection H as <-. destruct Hd as [<-|[]]. lia.
  - inversion Hall as [|c l Hc Hrest]; subst. inversion Hrest as [|c l Hx Hds]; subst.
    unfold lt in H. rewrite Hx, Hc in H. simpl in H.
    destruct (wall x <? wall cur) eqn:E.
    + apply Z.ltb_lt in E.
      pose proof (IH x m (Forall_cons _ Hx Hds) H) as Hmin.
      destruct Hd as [<-|[<-|Hd]].
      * specialize (Hmin x (or_introl eq_refl)). lia.
      * apply Hmin. now left.
      * apply Hmin. now right.
    + apply Z.ltb_ge in E.
      pose proof (IH cur m (Forall_cons _ Hc Hds) H) as Hmin.
      destruct Hd as [<-|[<-|Hd]].
      * apply Hmin. now left.
      * specialize (Hmin cur (or_introl eq_refl)). lia.
      * apply Hmin. now right.
Qed.

Lemma max_from_naive ds :
  forall cur m,
    Forall (fun d => tzinfo d = None) (cur :: ds) -> max_from cur ds = Py.Ok m ->
    forall d, In d (cur :: ds) -> wall d <= wall m.
Proof.
  induction ds as [|x ds IH]; simpl; intros cur m Hall H d Hd.
  - injection H as <-. destruct Hd as [<-|[]]. lia.
  - inversion Hall as [|c l Hc Hrest]; subst. inversion Hrest as [|c l Hx Hds]; subst.
    unfold lt in H. rewrite Hx, Hc in H. simpl in H.
    destruct (wall cur <? wall x) eqn:E.
    + apply Z.ltb_lt in E.
      pose proof (IH x m (Forall_cons _ Hx Hds) H) as Hmax.
      destruct Hd as [<-|[<-|Hd]].
      * specialize (Hmax x (or_introl eq_refl)). lia.
      * apply Hmax. now left.
      * apply Hmax. now right.
    + apply Z.ltb_ge in E.
      pose proof (IH cur m (Forall_cons _ Hc Hds) H) as Hmax.
      destruct Hd as [<-|[<-|Hd]].
      * apply Hmax. now left.
      * specialize (Hmax cur (or_introl eq_refl)). lia.
      * apply Hmax. now right.
Qed.

(** X23. For every list of ads, the analysis period is computed without an
    error.  It reports that there is no date information exactly when no
    start date parses; otherwise its earliest and latest dates are the naive
    forms of two parsed dates, no parsed date has a wall-clock time before
    the earliest or after the latest, and the number of days of the period
    is their distance in whole days, which is not negative. *)
Theorem analysis_period_bounds (ads_data : list Trend.ad) :
  let dates := Trend.parse_dates fromisoformat ads_data in
  match Trend._get_analysis_period fromisoformat ads_data with
  | Py.Ok Trend.NoDateInformation => dates = []
  | Py.Ok (Trend.Period earliest latest period_days) =>
      dates <> []
      /\ In earliest (map drop_tz dates)
      /\ In latest (map drop_tz dates)
      /\ (forall d, In d dates -> wall earliest <= wall d <= wall latest)
      /\ period_days = (wall latest - wall earliest) / us_per_day
      /\ 0 <= period_days
  | Py.Raise _ => False
  end.
Proof.
  cbv zeta. unfold Trend._get_analysis_period.
  destruct (Trend.parse_dates fromisoformat ads_data) as [|d0 ds]; [reflexivity|].
  set (naive := map drop_tz (d0 :: ds)).
  assert (Hall : Forall (fun d => tzinfo d = None) naive).
  { apply Forall_forall. intros d Hd. apply in_map_iff in Hd.
    now destruct Hd as (d' & <- & _). }
  destruct (min_max_same_kind naive) as (lo & hi & Hlo & Hhi);
    [discriminate | apply naive_dates_agree |].
  rewrite Hlo, Hhi. cbn [Py.bind].
  assert (Hnaive : naive = drop_tz d0 :: map drop_tz ds) by reflexivity.
  rewrite Hnaive in Hlo, Hhi, Hall. simpl in Hlo, Hhi.
  pose proof (min_from_in _ _ _ Hlo) as Hlo_in.
  pose proof (max_from_in _ _ _ Hhi) as Hhi_in.
  pose proof (min_from_naive _ _ _ Hall Hlo) as Hmin.
  pose proof (max_from_naive _ _ _ Hall Hhi) as Hmax.
  split; [discriminate|]. rewrite Hnaive.
  split; [exact Hlo_in|]. split; [exact Hhi_in|].
  assert (Hwall : forall d, In d (d0 :: ds) -> wall lo <= wall d <= wall hi).
  { intros d Hd.
    assert (Hd' : In (drop_tz d) (drop_tz d0 :: map drop_tz ds)).
    { change (In (drop_tz d) (map drop_tz (d0 :: ds))). now apply in_map. }
    specialize (Hmin _ Hd'). specialize (Hmax _ Hd'). simpl in Hmin, Hmax. lia. }
  split; [exact Hwall|]. split; [reflexivity|].
  unfold days_between. apply Z.div_pos; [|reflexivity].
  specialize (Hwall d0 (or_introl eq_refl)). lia.
Qed.

(** X24. For every list of ads and every clock, the date patterns are
    either the report that there is no date data, exactly when no start date
    parses; or counts and a range such that the dates counted are the parsed
    ones, at most as many as there are ads, the recent ones are some of
    them, and the earliest and the latest are two of the parsed dates; or the
    error of comparing a naive date with an aware one, exactly when the
    parsed dates are not all of one kind. *)
Theorem date_patterns_outcomes (now : Z) (ads_data : list Trend.ad) :
  let dates := Trend.parse_dates fromisoformat ads_data in
  match Trend._analyze_date_patterns fromisoformat now ads_data with
  | Py.Ok Trend.NoDateData => dates = []
  | Py.Ok (Trend.DatePatterns total_with_dates recent_ads_30_days earliest latest) =>
      Spec.zones_agree dates
      /\ total_with_dates = Py.llen dates
      /\ 1 <= total_with_dates <= Py.llen ads_data
      /\ 0 <= recent_ads_30_days <= total_with_dates
      /\ In earliest dates
      /\ In latest dates
  | Py.Raise msg => msg = mixed_msg /\ ~ Spec.zones_agree dates
  end.
Proof.
  cbv zeta.
  destruct (zones_agree_dec (Trend.parse_dates fromisoformat ads_data)) as [Hz|Hz].
  - unfold Trend._analyze_date_patterns.
    pose proof (parse_dates_length ads_data) as Hlen.
    destruct (Trend.parse_dates fromisoformat ads_data) as [|d0 ds] eqn:Hd;
      [reflexivity|].
    destruct (min_max_same_kind (d0 :: ds)) as (lo & hi & Hlo & Hhi);
      [discriminate | exact Hz |].
    rewrite Hlo, Hhi. cbn [Py.bind].
    split; [exact Hz|]. split; [reflexivity|].
    split; [unfold Py.llen in *; simpl List.length in *; lia|].
    split.
    + unfold Py.llen.
      pose proof (filter_length_le
                    (fun d => days_between now (wall (drop_tz d)) <=? 30) (d0 :: ds)).
      lia.
    + simpl in Hlo, Hhi. split; [exact (min_from_in _ _ _ Hlo) | exact (max_from_in _ _ _ Hhi)].
  - destruct (analysis_fails_on_mixed_dates fromisoformat now 0 ads_data "" Hz)
      as (-> & _).
    now split.
Qed.

End DateFacts.

(** *** The techniques of the script *)

Section ScriptTechniques.

Import ApiServer.

Variable list_of_set : list string -> list string.

Lemma techniques_collected (cs : list competitor) (tech : string) :
  In tech (flat_map (fun comp => techniques_of (snd comp)) cs) ->
  In tech ["split-screen composition"; "close-up product shots";
           "before/after comparison"].
Proof.
  intros H. apply in_flat_map in H. destruct H as (comp & _ & H).
  unfold techniques_of in H. cbv zeta in H.
  repeat match type of H with
         | context [if ?b then _ else _] => destruct b
         end;
    simpl in H; simpl; tauto.
Qed.

Lemma short_names_are_not_collected (cs : list competitor) (name : string) :
  In name ["split-screen"; "close-up"; "before/after"] ->
  Py.mem name (flat_map (fun comp => techniques_of (snd comp)) cs) = false.
Proof.
  intros Hname. unfold Py.mem.
  destruct (existsb (String.eqb name) _) eqn:E; [|reflexivity].
  apply existsb_exists in E. destruct E as (tech & Hin & Heq).
  apply String.eqb_eq in Heq. subst tech.
  apply techniques_collected in Hin.
  simpl in Hname, Hin.
  destruct Hname as [<-|[<-|[<-|[]]]];
    destruct Hin as [H|[H|[H|[]]]]; discriminate H.
Qed.

(** X25. The techniques collected from the competitor analyses are
    the three full names, so the tests of scenes 1 and 3 for the short names
    [split-screen], [close-up] and [before/after] fail for every input, and
    scene 1 of every script has the centre-framed composition. *)
Theorem script_ignores_collected_techniques (insights : list insight)
  (user_query generator_type : string) (webpage : option webpage_analysis) :
  let visual_techniques :=
    flat_map (fun comp => techniques_of (snd comp)) (collect_competitors insights) in
  (forall tech, In tech visual_techniques ->
     In tech ["split-screen composition"; "close-up product shots";
              "before/after comparison"])
  /\ Py.mem "split-screen" visual_techniques = false
  /\ Py.mem "close-up" visual_techniques = false
  /\ Py.mem "before/after" visual_techniques = false
  /\ Py.str_in "Composition: Center-framed, immediate visual impact"
       (generate_video_prompt_from_insights list_of_set insights user_query
          generator_type webpage) = true.
Proof.
  cbv zeta.
  split; [intros tech; apply techniques_collected|].
  split; [apply short_names_are_not_collected; simpl; tauto|].
  split; [apply short_names_are_not_collected; simpl; tauto|].
  split; [apply short_names_are_not_collected; simpl; tauto|].
  unfold generate_video_prompt_from_insights. cbv zeta.
  rewrite !short_names_are_not_collected by (simpl; tauto).
  apply str_in_concat
    with (p := "Composition: Center-framed, immediate visual impact" ++ Py.NL);
    [|apply str_in_here].
  in_pieces.
Qed.

End ScriptTechniques.
